(** * llgamecontrol: state aggregation, merge and clamp, resend scheduling,
      channel names and action mappings

    A shallow embedding of [indra/llwindow/llgamecontrol.cpp].  Machine
    integers are [Z] with their wrap-around written out, vectors are lists
    read and written by index, the file-level globals ([g_finalState],
    [g_nextResendPeriod], ...) are the fields of one record that every
    operation threads through. *)

From Stdlib Require Import ZArith Lia Bool List Ascii String.
From Stdlib Require Import Floats.SpecFloat QArith.
From stdpp Require Import gmap strings list.

Local Open Scope Z_scope.

(** ** Machine integers *)

(** Conversion to a signed [w]-bit integer (two's complement wrap-around). *)
Definition wrap_signed (w x : Z) : Z :=
  (x + 2 ^ (w - 1)) mod 2 ^ w - 2 ^ (w - 1).

Definition to_S16 (x : Z) : Z := wrap_signed 16 x.
Definition to_S32 (x : Z) : Z := wrap_signed 32 x.
Definition to_U8 (x : Z) : Z := x mod 2 ^ 8.
Definition to_U32 (x : Z) : Z := x mod 2 ^ 32.
Definition to_U64 (x : Z) : Z := x mod 2 ^ 64.

Definition S16_MIN : Z := -32768.
Definition S16_MAX : Z := 32767.

Definition is_S16 (x : Z) : Prop := S16_MIN <= x <= S16_MAX.
Definition is_S32 (x : Z) : Prop := - 2 ^ 31 <= x < 2 ^ 31.
Definition is_U32 (x : Z) : Prop := 0 <= x < 2 ^ 32.

(** ** Constants of the translation unit *)

Definition NUM_AXES : Z := 6.
Definition NUM_BUTTONS : Z := 32.
Definition MAX_AXIS : Z := NUM_AXES - 1.
Definition MAX_BUTTON : Z := NUM_BUTTONS - 1.

(** [constexpr U64 MSEC_PER_NSEC = 1e6]: the number of nanoseconds in a
    millisecond (the clock [get_now_nsec] counts nanoseconds). *)
Definition MSEC_PER_NSEC : Z := 1000000.
Definition FIRST_RESEND_PERIOD : Z := 100 * MSEC_PER_NSEC.
Definition RESEND_EXPANSION_RATE : Z := 10.

(** Axis and button indices.  The enumerators of [LLGameControl] are the
    indices that [InputChannel::getRemoteName] switches on; SDL's
    [SDL_CONTROLLER_AXIS_TRIGGERLEFT] is the first trigger axis. *)
Definition AXIS_LEFTX : Z := 0.
Definition AXIS_LEFTY : Z := 1.
Definition AXIS_RIGHTX : Z := 2.
Definition AXIS_RIGHTY : Z := 3.
Definition AXIS_TRIGGERLEFT : Z := 4.
Definition AXIS_TRIGGERRIGHT : Z := 5.
Definition SDL_CONTROLLER_AXIS_TRIGGERLEFT : Z := 4.

Definition BUTTON_LEFTSTICK : Z := 7.
Definition BUTTON_LEFTSHOULDER : Z := 9.
Definition BUTTON_RIGHTSHOULDER : Z := 10.
Definition BUTTON_DPAD_UP : Z := 11.

(** ** Vectors *)

(** [v[i]] on a [std::vector], for an index that the source keeps below the
    size of the vector: the vectors of this file are sized once ([NUM_AXES])
    and the loops over them run up to that size. *)
Definition vget (v : list Z) (i : Z) : Z := nth (Z.to_nat i) v 0.

(** [v[i]] for an index that the source does not compare with the size of
    the vector: [operator[]] does not check it, and a read outside the
    vector is undefined behaviour, which [None] stands for. *)
Definition vget_unchecked (v : list Z) (i : Z) : option Z :=
  if (0 <=? i) && (i <? Z.of_nat (length v)) then Some (vget v i) else None.

(** [v[i] = x]. *)
Definition vset (v : list Z) (i : Z) (x : Z) : list Z := <[Z.to_nat i := x]> v.

Definition zero_axes : list Z := replicate (Z.to_nat NUM_AXES) 0.

(** ** LLGameControl::State *)

Record State := mkState {
  mJoystickID : Z;
  mAxes : list Z;      (* std::vector<S16>, NUM_AXES entries *)
  mPrevAxes : list Z;  (* std::vector<S16>, NUM_AXES entries *)
  mButtons : Z         (* U32 bit mask *)
}.

(** [State::State()]; the device identifier is set by [setDevice]. *)
Definition State_new : State :=
  {| mJoystickID := 0; mAxes := zero_axes; mPrevAxes := zero_axes; mButtons := 0 |}.

Definition setDevice (s : State) (joystickID : Z) : State :=
  {| mJoystickID := joystickID; mAxes := mAxes s;
     mPrevAxes := mPrevAxes s; mButtons := mButtons s |}.

(** [State::clear]: the axes and buttons are zeroed, [mPrevAxes] is kept. *)
Definition State_clear (s : State) : State :=
  {| mJoystickID := mJoystickID s; mAxes := map (fun _ => 0) (mAxes s);
     mPrevAxes := mPrevAxes s; mButtons := 0 |}.

(** [State::onButton]: the new state and whether the mask changed. *)
Definition State_onButton (s : State) (button : Z) (pressed : bool) : State * bool :=
  let old_buttons := mButtons s in
  let buttons :=
    if button <=? MAX_BUTTON then
      if pressed then Z.lor old_buttons (Z.shiftl 1 button)
      else Z.land old_buttons (to_U32 (Z.lnot (Z.shiftl 1 button)))
    else old_buttons in
  ({| mJoystickID := mJoystickID s; mAxes := mAxes s;
      mPrevAxes := mPrevAxes s; mButtons := buttons |},
   negb (old_buttons =? buttons)).

(** ** Per-device states of the manager *)

(** [findState]: the first state of the list with the given device id. *)
Fixpoint findState (id : Z) (states : list State) : option State :=
  match states with
  | [] => None
  | s :: rest => if mJoystickID s =? id then Some s else findState id rest
  end.

(** Assignment through the iterator that [findState] returns. *)
Fixpoint updateState (id : Z) (f : State -> State) (states : list State) : list State :=
  match states with
  | [] => []
  | s :: rest =>
      if mJoystickID s =? id then f s :: rest else s :: updateState id f rest
  end.

(** [addController]: a device already in the list is not added again. *)
Definition addController (states : list State) (id : Z) : list State :=
  match findState id states with
  | Some _ => states
  | None => states ++ [setDevice State_new id]
  end.

Definition removeController (states : list State) (id : Z) : list State :=
  filter (fun s => mJoystickID s ≠ id) states.

(** The value [onAxis] stores for a raw [S16] value: the axes below the
    triggers are negated, one being added or subtracted on the way; the
    arithmetic is done in [int] and the result assigned back to the [S16]
    parameter. *)
Definition onAxis_value (axis value : Z) : Z :=
  if axis <? SDL_CONTROLLER_AXIS_TRIGGERLEFT then
    if value <? 0 then to_S16 (- (value + 1))
    else if 0 <? value then to_S16 ((- value) - 1)
    else value
  else value.

(** [LLGameControllerManager::onAxis] on the list of device states. *)
Definition onAxis (states : list State) (id axis value : Z) : list State :=
  if MAX_AXIS <? axis then states
  else
    updateState id
      (fun s => {| mJoystickID := mJoystickID s;
                   mAxes := vset (mAxes s) axis (onAxis_value axis value);
                   mPrevAxes := mPrevAxes s; mButtons := mButtons s |})
      states.

Definition onButton (states : list State) (id button : Z) (pressed : bool) : list State :=
  updateState id (fun s => fst (State_onButton s button pressed)) states.

(** The axis value the manager holds for a device (0 when the device is
    unknown). *)
Definition storedAxis (states : list State) (id axis : Z) : Z :=
  match findState id states with
  | Some s => vget (mAxes s) axis
  | None => 0
  end.

(** ** Agent control mode and its settings string *)

Inductive AgentControlMode : Set :=
| CONTROL_MODE_AVATAR
| CONTROL_MODE_FLYCAM
| CONTROL_MODE_NONE.

Definition ENUM_AGENTCONTROLMODE_FLYCAM : string := "flycam".
Definition ENUM_AGENTCONTROLMODE_NONE : string := "none".

(** Modelled from the spec: [LLStringUtil::null] is declared in llstring.h,
    outside this translation unit; it is the null string, an empty
    [std::string]. *)
Definition LLStringUtil_null : string := EmptyString.

Definition convertStringToAgentControlMode (mode : string) : AgentControlMode :=
  if String.eqb mode ENUM_AGENTCONTROLMODE_NONE then CONTROL_MODE_NONE
  else if String.eqb mode ENUM_AGENTCONTROLMODE_FLYCAM then CONTROL_MODE_FLYCAM
  else CONTROL_MODE_AVATAR.

Definition convertAgentControlModeToString (mode : AgentControlMode) : string :=
  match mode with
  | CONTROL_MODE_NONE => ENUM_AGENTCONTROLMODE_NONE
  | CONTROL_MODE_FLYCAM => ENUM_AGENTCONTROLMODE_FLYCAM
  | CONTROL_MODE_AVATAR => LLStringUtil_null
  end.

(** ** C strings *)

(** The character at the front of a C string: the terminating NUL once the
    string is exhausted. *)
Definition c_front (s : string) : ascii :=
  match s with
  | String a _ => a
  | EmptyString => Ascii.zero
  end.

Definition c_rest (s : string) : string :=
  match s with
  | String _ rest => rest
  | EmptyString => EmptyString
  end.

(** [strncmp(s, p, n) == 0]: the first [n] characters agree, the comparison
    stopping early at a NUL that both strings have at the same place. *)
Fixpoint strncmp_eq (s p : string) (n : nat) : bool :=
  match n with
  | O => true
  | S n' =>
      if Ascii.eqb (c_front s) (c_front p) then
        if Ascii.eqb (c_front s) Ascii.zero then true
        else strncmp_eq (c_rest s) (c_rest p) n'
      else false
  end.

(** No NUL character inside the string. *)
Fixpoint nul_free (s : string) : bool :=
  match s with
  | EmptyString => true
  | String a rest => negb (Ascii.eqb a Ascii.zero) && nul_free rest
  end.

Definition isspace (c : ascii) : bool :=
  let n := Z.of_nat (nat_of_ascii c) in
  (n =? 32) || ((9 <=? n) && (n <=? 13)).

Definition digit_of (c : ascii) : option Z :=
  let n := Z.of_nat (nat_of_ascii c) in
  if (48 <=? n) && (n <=? 57) then Some (n - 48) else None.

Fixpoint skip_spaces (s : string) : string :=
  match s with
  | String c rest => if isspace c then skip_spaces rest else s
  | EmptyString => s
  end.

Fixpoint atoi_digits (s : string) (acc : Z) : Z :=
  match s with
  | String c rest =>
      match digit_of c with
      | Some d => atoi_digits rest (10 * acc + d)
      | None => acc
      end
  | EmptyString => acc
  end.

(** [atoi]: leading white space, an optional sign, then decimal digits up to
    the first other character (0 when there is no digit).  It is only called
    on one or two characters here, far below the range of [int]. *)
Definition atoi (s : string) : Z :=
  match skip_spaces s with
  | String "-"%char rest => - atoi_digits rest 0
  | String "+"%char rest => atoi_digits rest 0
  | rest => atoi_digits rest 0
  end.

(** [name.back()]; only called on a string that starts with ["AXIS_"]. *)
Fixpoint back (s : string) : ascii :=
  match s with
  | EmptyString => Ascii.zero
  | String c EmptyString => c
  | String _ rest => back rest
  end.

(** ** LLGameControl::InputChannel *)

Inductive ChannelType : Set := TYPE_AXIS | TYPE_BUTTON | TYPE_NONE.

Definition ChannelType_eqb (a b : ChannelType) : bool :=
  match a, b with
  | TYPE_AXIS, TYPE_AXIS | TYPE_BUTTON, TYPE_BUTTON | TYPE_NONE, TYPE_NONE => true
  | _, _ => false
  end.

Record InputChannel := mkChannel {
  mType : ChannelType;
  mIndex : Z;   (* U8 *)
  mSign : Z     (* negative, zero or positive *)
}.

Definition isNone (c : InputChannel) : bool := ChannelType_eqb (mType c) TYPE_NONE.
Definition isAxis (c : InputChannel) : bool := ChannelType_eqb (mType c) TYPE_AXIS.
Definition isButton (c : InputChannel) : bool := ChannelType_eqb (mType c) TYPE_BUTTON.

Section GameControl.

(** The declaration of [InputChannel] is in llgamecontrol.h, outside this
    translation unit.  A default-constructed channel is of type NONE (the
    source relies on it: [channelNone] in [setMappings], and
    [getChannelByName] falling through); the index and the sign that the
    default member initialisers give are parameters of the development. *)
Variables (default_mIndex default_mSign : Z).

(** [InputChannel()] *)
Definition InputChannel_new : InputChannel :=
  {| mType := TYPE_NONE; mIndex := default_mIndex; mSign := default_mSign |}.

(** [InputChannel(type, index)] *)
Definition InputChannel_new2 (type : ChannelType) (index : Z) : InputChannel :=
  {| mType := type; mIndex := index; mSign := default_mSign |}.

(** [LLGameControl::getChannelByName] *)
Definition getChannelByName (name : string) : InputChannel :=
  let channel := InputChannel_new in
  if strncmp_eq name "AXIS_" 5 then
    {| mType := TYPE_AXIS;
       mIndex := to_U8 (atoi (substring 5 1 name));
       mSign := if Ascii.eqb (back name) "-"%char then -1 else 1 |}
  else if strncmp_eq name "BUTTON_" 7 then
    {| mType := TYPE_BUTTON;
       mIndex := to_U8 (atoi (substring 7 2 name));
       mSign := mSign channel |}
  else channel.

(** ** Agent control bits *)

(** The [AGENT_CONTROL_*] constants used by this file.  They come from
    indra_constants.h, outside this translation unit: each one is a single
    bit of a [U32] mask, and no two of them are the same bit.  The position
    of each bit is a parameter. *)
Inductive AgentControlBit : Set :=
| AT_POS | AT_NEG | LEFT_POS | LEFT_NEG | UP_POS | UP_NEG
| YAW_POS | YAW_NEG | PITCH_POS | PITCH_NEG | STOP
| FAST_AT | FAST_LEFT | FAST_UP | NUDGE_AT_POS | NUDGE_AT_NEG | FLY.

#[local] Instance AgentControlBit_eq_dec : EqDecision AgentControlBit.
Proof. solve_decision. Defined.

Variable AGENT_CONTROL_INDEX : AgentControlBit -> Z.
Hypothesis AGENT_CONTROL_INDEX_range : forall b, 0 <= AGENT_CONTROL_INDEX b < 32.
Hypothesis AGENT_CONTROL_INDEX_inj :
  forall a b, AGENT_CONTROL_INDEX a = AGENT_CONTROL_INDEX b -> a = b.

Definition AGENT_CONTROL (b : AgentControlBit) : Z := Z.shiftl 1 (AGENT_CONTROL_INDEX b).

Definition AGENT_CONTROL_AT_POS := AGENT_CONTROL AT_POS.
Definition AGENT_CONTROL_AT_NEG := AGENT_CONTROL AT_NEG.
Definition AGENT_CONTROL_LEFT_POS := AGENT_CONTROL LEFT_POS.
Definition AGENT_CONTROL_LEFT_NEG := AGENT_CONTROL LEFT_NEG.
Definition AGENT_CONTROL_UP_POS := AGENT_CONTROL UP_POS.
Definition AGENT_CONTROL_UP_NEG := AGENT_CONTROL UP_NEG.
Definition AGENT_CONTROL_YAW_POS := AGENT_CONTROL YAW_POS.
Definition AGENT_CONTROL_YAW_NEG := AGENT_CONTROL YAW_NEG.
Definition AGENT_CONTROL_PITCH_POS := AGENT_CONTROL PITCH_POS.
Definition AGENT_CONTROL_PITCH_NEG := AGENT_CONTROL PITCH_NEG.
Definition AGENT_CONTROL_STOP := AGENT_CONTROL STOP.
Definition AGENT_CONTROL_FAST_AT := AGENT_CONTROL FAST_AT.
Definition AGENT_CONTROL_FAST_LEFT := AGENT_CONTROL FAST_LEFT.
Definition AGENT_CONTROL_FAST_UP := AGENT_CONTROL FAST_UP.
Definition AGENT_CONTROL_NUDGE_AT_POS := AGENT_CONTROL NUDGE_AT_POS.
Definition AGENT_CONTROL_NUDGE_AT_NEG := AGENT_CONTROL NUDGE_AT_NEG.
Definition AGENT_CONTROL_FLY := AGENT_CONTROL FLY.

(** The table [actionMasks] that the manager's constructor registers. *)
Definition actionMasks : list (string * Z) :=
  [ ("push+",  Z.lor AGENT_CONTROL_AT_POS AGENT_CONTROL_FAST_AT);
    ("push-",  Z.lor AGENT_CONTROL_AT_NEG AGENT_CONTROL_FAST_AT);
    ("slide+", Z.lor AGENT_CONTROL_LEFT_POS AGENT_CONTROL_FAST_LEFT);
    ("slide-", Z.lor AGENT_CONTROL_LEFT_NEG AGENT_CONTROL_FAST_LEFT);
    ("jump+",  Z.lor AGENT_CONTROL_UP_POS AGENT_CONTROL_FAST_UP);
    ("jump-",  Z.lor AGENT_CONTROL_UP_NEG AGENT_CONTROL_FAST_UP);
    ("turn+",  AGENT_CONTROL_YAW_POS);
    ("turn-",  AGENT_CONTROL_YAW_NEG);
    ("look+",  AGENT_CONTROL_PITCH_POS);
    ("look-",  AGENT_CONTROL_PITCH_NEG);
    ("stop",   AGENT_CONTROL_STOP);
    ("toggle_run",    AGENT_CONTROL_NUDGE_AT_POS);
    ("toggle_fly",    AGENT_CONTROL_FLY);
    ("toggle_flycam", AGENT_CONTROL_NUDGE_AT_NEG) ]%string.

(** ** LLGameControlTranslator

    The translator class is implemented in llgamecontroltranslator.cpp,
    outside this translation unit; the manager only calls it. *)

Record LLGameControlTranslator := mkTranslator {
  mActionToMask : list (string * Z);
  mActionToChannel : gmap string InputChannel
}.

Definition Translator_new : LLGameControlTranslator :=
  {| mActionToMask := []; mActionToChannel := ∅ |}.

(** Modelled from the spec: [LLGameControlTranslator::setAvailableActionMasks]
    (llgamecontroltranslator.cpp) registers the fixed table from action names
    to control bits. *)
Definition setAvailableActionMasks (t : LLGameControlTranslator)
    (table : list (string * Z)) : LLGameControlTranslator :=
  {| mActionToMask := table; mActionToChannel := mActionToChannel t |}.

(** Modelled from the spec: [LLGameControlTranslator::getChannelByAction]
    returns the channel bound to the action name, or a channel of type NONE
    when the name is unbound. *)
Definition Translator_getChannelByAction (t : LLGameControlTranslator)
    (action : string) : InputChannel :=
  default InputChannel_new (mActionToChannel t !! action).

(** Binding one name: a channel of type NONE unbinds it. *)
Definition bindChannel (action : string) (channel : InputChannel)
    (m : gmap string InputChannel) : gmap string InputChannel :=
  if isNone channel then delete action m else <[action := channel]> m.

Definition hasMask (table : list (string * Z)) (action : string) : bool :=
  existsb (fun e => String.eqb (fst e) action) table.

(** The same channel with the opposite polarity. *)
Definition oppositeChannel (c : InputChannel) : InputChannel :=
  {| mType := mType c; mIndex := mIndex c; mSign := - mSign c |}.

(** Modelled from the spec: [LLGameControlTranslator::updateMap] replaces the
    channel bound to one action name and unbinds the name when the channel is
    of type NONE.  The manager also passes the unsigned name of an analog
    action (["push"]); such a name stands for its two signed names, which are
    bound by the expansion rule the spec gives for [setMappings]: the channel
    for ["push+"], the same channel with the opposite sign for ["push-"]. *)
Definition Translator_updateMap (t : LLGameControlTranslator)
    (action : string) (channel : InputChannel) : LLGameControlTranslator :=
  let table := mActionToMask t in
  let m := mActionToChannel t in
  {| mActionToMask := table;
     mActionToChannel :=
       if negb (hasMask table action) && hasMask table (String.append action "+") then
         bindChannel (String.append action "-") (oppositeChannel channel)
           (bindChannel (String.append action "+") channel m)
       else bindChannel action channel m |}.

(** Modelled from the spec: [LLGameControlTranslator::setMappings] takes a
    list of (action name, channel) and rebuilds the map from it, each entry
    bound as by [updateMap]. *)
Definition Translator_setMappings (t : LLGameControlTranslator)
    (named_channels : list (string * InputChannel)) : LLGameControlTranslator :=
  fold_left (fun t' e => Translator_updateMap t' (fst e) (snd e)) named_channels
    {| mActionToMask := mActionToMask t; mActionToChannel := ∅ |}.

(** The bound channel of a table entry, when there is one. *)
Definition mappedChannel (t : LLGameControlTranslator) (action : string) : option InputChannel :=
  match mActionToChannel t !! action with
  | Some c => if isNone c then None else Some c
  | None => None
  end.

(** Modelled from the spec: [LLGameControlTranslator::getMappedFlags] is the
    OR of the control bits of every action that has a channel bound. *)
Definition Translator_getMappedFlags (t : LLGameControlTranslator) : Z :=
  fold_left
    (fun flags e =>
       match mappedChannel t (fst e) with
       | Some _ => Z.lor flags (snd e)
       | None => flags
       end)
    (mActionToMask t) 0.

(** Whether a bound channel is active in a raw state: an axis when its value,
    taken in the direction of the channel's sign, is strictly positive; a
    button when its bit is set. *)
Definition channelActive (axes : list Z) (buttons : Z) (c : InputChannel) : bool :=
  match mType c with
  | TYPE_AXIS => 0 <? vget axes (mIndex c) * mSign c
  | TYPE_BUTTON => Z.testbit buttons (mIndex c)
  | TYPE_NONE => false
  end.

(** Modelled from the spec: [LLGameControlTranslator::computeFlagsFromState]
    ORs the mask of every mapped analog action whose bound axis is strictly
    positive in the channel's direction and of every mapped binary action
    whose bound button is set. *)
Definition computeFlagsFromState (t : LLGameControlTranslator)
    (axes : list Z) (buttons : Z) : Z :=
  fold_left
    (fun flags e =>
       match mappedChannel t (fst e) with
       | Some c => if channelActive axes buttons c then Z.lor flags (snd e) else flags
       | None => flags
       end)
    (mActionToMask t) 0.

(** Full deflection of a channel in a state: the axis at the end of its range
    on the side of the channel's sign, or the button's bit set. *)
Definition deflectChannel (s : State) (c : InputChannel) : State :=
  match mType c with
  | TYPE_AXIS =>
      {| mJoystickID := mJoystickID s;
         mAxes := if mSign c <? 0 then vset (mAxes s) (mIndex c) S16_MIN
                  else if 0 <? mSign c then vset (mAxes s) (mIndex c) S16_MAX
                  else mAxes s;
         mPrevAxes := mPrevAxes s; mButtons := mButtons s |}
  | TYPE_BUTTON =>
      {| mJoystickID := mJoystickID s; mAxes := mAxes s; mPrevAxes := mPrevAxes s;
         mButtons := Z.lor (mButtons s) (Z.shiftl 1 (mIndex c)) |}
  | TYPE_NONE => s
  end.

(** Modelled from the spec: [LLGameControlTranslator::computeStateFromFlags]
    starts from a cleared state and, for every mapped action whose bits are
    all present in the flags, sets the bound axis to full deflection in the
    channel's direction or sets the bound button's bit. *)
Definition computeStateFromFlags (t : LLGameControlTranslator) (action_flags : Z) : State :=
  fold_left
    (fun s e =>
       match mappedChannel t (fst e) with
       | Some c => if Z.land (snd e) action_flags =? snd e then deflectChannel s c else s
       | None => s
       end)
    (mActionToMask t) State_new.

(** ** LLGameControllerManager *)

Inductive ActionNameType : Set :=
| ACTION_NAME_UNKNOWN
| ACTION_NAME_ANALOG
| ACTION_NAME_ANALOG_POS
| ACTION_NAME_ANALOG_NEG
| ACTION_NAME_BINARY
| ACTION_NAME_FLYCAM.

Definition mAnalogActions : list string := ["push"; "slide"; "jump"; "turn"; "look"]%string.
Definition mBinaryActions : list string :=
  ["toggle_run"; "toggle_fly"; "toggle_flycam"; "stop"]%string.
Definition mFlycamActions : list string :=
  ["advance"; "pan"; "rise"; "pitch"; "yaw"; "zoom"]%string.

(** All known action names with their types, as the constructor collects
    them; the map does not change afterwards. *)
Definition mActions : gmap string ActionNameType :=
  let analog :=
    fold_left
      (fun m name =>
         <[String.append name "-" := ACTION_NAME_ANALOG_NEG]>
           (<[String.append name "+" := ACTION_NAME_ANALOG_POS]>
              (<[name := ACTION_NAME_ANALOG]> m)))
      mAnalogActions ∅ in
  let binary :=
    fold_left (fun m name => <[name := ACTION_NAME_BINARY]> m) mBinaryActions analog in
  fold_left (fun m name => <[name := ACTION_NAME_FLYCAM]> m) mFlycamActions binary.

Definition getActionNameType (action : string) : ActionNameType :=
  default ACTION_NAME_UNKNOWN (mActions !! action).

Record LLGameControllerManager := mkManager {
  mStates : list State;
  mExternalState : State;
  mActionTranslator : LLGameControlTranslator;
  mFlycamChannels : list InputChannel;
  mAxesAccumulator : list Z;   (* std::vector<S32>, NUM_AXES entries *)
  mButtonAccumulator : Z;
  mLastActiveFlags : Z;
  mLastFlycamActionFlags : Z
}.

Definition set_mActionTranslator (m : LLGameControllerManager)
    (t : LLGameControlTranslator) : LLGameControllerManager :=
  mkManager (mStates m) (mExternalState m) t (mFlycamChannels m)
    (mAxesAccumulator m) (mButtonAccumulator m) (mLastActiveFlags m)
    (mLastFlycamActionFlags m).

Definition set_mFlycamChannels (m : LLGameControllerManager)
    (channels : list InputChannel) : LLGameControllerManager :=
  mkManager (mStates m) (mExternalState m) (mActionTranslator m) channels
    (mAxesAccumulator m) (mButtonAccumulator m) (mLastActiveFlags m)
    (mLastFlycamActionFlags m).

Definition set_accumulators (m : LLGameControllerManager)
    (axes : list Z) (buttons : Z) : LLGameControllerManager :=
  mkManager (mStates m) (mExternalState m) (mActionTranslator m) (mFlycamChannels m)
    axes buttons (mLastActiveFlags m) (mLastFlycamActionFlags m).

Definition set_external (m : LLGameControllerManager)
    (external : State) (lastActiveFlags : Z) : LLGameControllerManager :=
  mkManager (mStates m) external (mActionTranslator m) (mFlycamChannels m)
    (mAxesAccumulator m) (mButtonAccumulator m) lastActiveFlags
    (mLastFlycamActionFlags m).

Definition set_mButtons (s : State) (buttons : Z) : State :=
  mkState (mJoystickID s) (mAxes s) (mPrevAxes s) buttons.

(** The indices [0 .. NUM_AXES-1] that the loops over the axes run through. *)
Definition axis_indices : list Z := map Z.of_nat (seq 0 (Z.to_nat NUM_AXES)).

(** [initializeMappingsByDefault] *)
Definition agent_defaults : list (string * InputChannel) :=
  [ ("push",  mkChannel TYPE_AXIS AXIS_LEFTY 1);
    ("slide", mkChannel TYPE_AXIS AXIS_LEFTX 1);
    ("jump",  mkChannel TYPE_AXIS AXIS_TRIGGERLEFT 1);
    ("turn",  mkChannel TYPE_AXIS AXIS_RIGHTX 1);
    ("look",  mkChannel TYPE_AXIS AXIS_RIGHTY 1);
    ("toggle_run",    InputChannel_new2 TYPE_BUTTON BUTTON_LEFTSHOULDER);
    ("toggle_fly",    InputChannel_new2 TYPE_BUTTON BUTTON_DPAD_UP);
    ("toggle_flycam", InputChannel_new2 TYPE_BUTTON BUTTON_RIGHTSHOULDER);
    ("stop",          InputChannel_new2 TYPE_BUTTON BUTTON_LEFTSTICK) ]%string.

Definition flycam_defaults : list InputChannel :=
  [ mkChannel TYPE_AXIS AXIS_LEFTY 1;          (* advance *)
    mkChannel TYPE_AXIS AXIS_LEFTX 1;          (* pan *)
    mkChannel TYPE_AXIS AXIS_TRIGGERRIGHT 1;   (* rise *)
    mkChannel TYPE_AXIS AXIS_RIGHTY (-1);      (* pitch *)
    mkChannel TYPE_AXIS AXIS_RIGHTX 1;         (* yaw *)
    InputChannel_new2 TYPE_NONE 0 ].           (* zoom *)

Definition initializeMappingsByDefault (m : LLGameControllerManager) : LLGameControllerManager :=
  set_mFlycamChannels
    (set_mActionTranslator m (Translator_setMappings (mActionTranslator m) agent_defaults))
    flycam_defaults.

(** [LLGameControllerManager::LLGameControllerManager()] *)
Definition Manager_new : LLGameControllerManager :=
  initializeMappingsByDefault
    {| mStates := []; mExternalState := State_new;
       mActionTranslator := setAvailableActionMasks Translator_new actionMasks;
       mFlycamChannels := [];
       mAxesAccumulator := zero_axes; mButtonAccumulator := 0;
       mLastActiveFlags := 0; mLastFlycamActionFlags := 0 |}.

(** The inner loop of [accumulateInternalState]: the axes of one device
    added, in [S32], to the accumulated ones. *)
Definition addAxes (axes : list Z) (state : State) : list Z :=
  fold_left (fun axes i => vset axes i (to_S32 (vget axes i + vget (mAxes state) i)))
    axis_indices axes.

(** [accumulateInternalState]: OR of the buttons and per-axis [S32] sum of
    the device states, not clamped. *)
Definition accumulateInternalState (m : LLGameControllerManager) : LLGameControllerManager :=
  let step (acc : list Z * Z) (state : State) :=
    (addAxes (fst acc) state, Z.lor (snd acc) (mButtons state)) in
  let r := fold_left step (mStates m) (map (fun _ => 0) (mAxesAccumulator m), 0) in
  set_accumulators m (fst r) (snd r).

(** [(S16)std::min(std::max(axis, -32768), 32767)] *)
Definition clampAxis (axis : Z) : Z := to_S16 (Z.min (Z.max axis (-32768)) 32767).

(** The local [axis] of the loop of [computeFinalState] after clamping: the
    accumulated device value, the external value added in [S32] when
    [g_translateAgentActions] is set. *)
Definition finalAxis (m : LLGameControllerManager) (translate : bool) (i : Z) : Z :=
  let axis := vget (mAxesAccumulator m) i in
  let axis := if translate then to_S32 (axis + vget (mAxes (mExternalState m)) i) else axis in
  clampAxis axis.

(** One round of the axis loop of [computeFinalState]: the final state and
    the resend period after axis [i]. *)
Definition computeFinalState_axis (m : LLGameControllerManager) (translate : bool)
    (acc : State * Z) (i : Z) : State * Z :=
  let final_state := fst acc in
  let axis := finalAxis m translate i in
  if negb (vget (mAxes final_state) i =? axis) then
    (mkState (mJoystickID final_state)
       (vset (mAxes final_state) i axis)
       (vset (mPrevAxes final_state) i (vget (mAxes final_state) i))
       (mButtons final_state),
     0)
  else acc.

(** [computeFinalState(final_state)], reading [g_translateAgentActions] and
    writing [g_nextResendPeriod]. *)
Definition computeFinalState (m : LLGameControllerManager) (translate : bool)
    (final_state : State) (nextResendPeriod : Z) : State * Z :=
  let old_buttons := mButtons final_state in
  let buttons := mButtonAccumulator m in
  let buttons := if translate then Z.lor buttons (mButtons (mExternalState m)) else buttons in
  let period := if negb (old_buttons =? buttons) then 0 else nextResendPeriod in
  fold_left (computeFinalState_axis m translate) axis_indices
    (set_mButtons final_state buttons, period).

(** ** The globals of the translation unit *)

Record Globals := mkGlobals {
  g_manager : LLGameControllerManager;
  g_finalState : State;
  g_lastSend : Z;           (* U64, nanoseconds *)
  g_nextResendPeriod : Z;   (* U64, nanoseconds *)
  g_sendToServer : bool;
  g_controlAgent : bool;
  g_translateAgentActions : bool;
  g_agentControlMode : AgentControlMode
}.

Definition Globals_new : Globals :=
  {| g_manager := Manager_new; g_finalState := State_new;
     g_lastSend := 0; g_nextResendPeriod := FIRST_RESEND_PERIOD;
     g_sendToServer := false; g_controlAgent := false;
     g_translateAgentActions := false;
     g_agentControlMode := CONTROL_MODE_AVATAR |}.

Definition set_final (g : Globals) (final_state : State) (period : Z) : Globals :=
  mkGlobals (g_manager g) final_state (g_lastSend g) period (g_sendToServer g)
    (g_controlAgent g) (g_translateAgentActions g) (g_agentControlMode g).

(** [LLGameControl::computeFinalStateAndCheckForChanges], the clock read by
    [get_now_nsec] passed in. *)
Definition computeFinalStateAndCheckForChanges (g : Globals) (now : Z) : Globals * bool :=
  let r := computeFinalState (g_manager g) (g_translateAgentActions g)
             (g_finalState g) (g_nextResendPeriod g) in
  (set_final g (fst r) (snd r),
   g_sendToServer g && (to_U64 (g_lastSend g + snd r) <? now)).

(** [LLGameControl::updateResendPeriod], called right after a packet is
    sent; [now] is the clock read by [get_now_nsec]. *)
Definition updateResendPeriod (g : Globals) (now : Z) : Globals :=
  if g_nextResendPeriod g =? 0 then
    mkGlobals (g_manager g) (g_finalState g) now FIRST_RESEND_PERIOD
      (g_sendToServer g) (g_controlAgent g) (g_translateAgentActions g)
      (g_agentControlMode g)
  else
    mkGlobals (g_manager g)
      (mkState (mJoystickID (g_finalState g)) (mAxes (g_finalState g))
         (mAxes (g_finalState g)) (mButtons (g_finalState g)))
      now (to_U64 (g_nextResendPeriod g * RESEND_EXPANSION_RATE))
      (g_sendToServer g) (g_controlAgent g) (g_translateAgentActions g)
      (g_agentControlMode g).

(** ** Flycam inputs *)

(** [F32] is IEEE 754 binary32: 24 bits of precision, exponents below 128.
    Integers are converted exactly in the ranges used here. *)
Definition F32_prec : Z := 24.
Definition F32_emax : Z := 128.
Definition F32_of_Z (z : Z) : spec_float := binary_normalize F32_prec F32_emax z 0 false.
Definition F32_div : spec_float -> spec_float -> spec_float := SFdiv F32_prec F32_emax.
Definition F32_mul : spec_float -> spec_float -> spec_float := SFmul F32_prec F32_emax.

(** The [S16] axis value that [getFlycamInputs] reads for one channel: the
    two triggers are tied together (their indices are constants below
    [NUM_AXES]), every other index reads its own accumulator,
    [mAxesAccumulator[channel.mIndex]], without the index being compared
    with the size of the vector: there is no value when it lies outside. *)
Definition flycamAxis (axesAccumulator : list Z) (channel : InputChannel) : option Z :=
  if (mIndex channel =? AXIS_TRIGGERLEFT) || (mIndex channel =? AXIS_TRIGGERRIGHT) then
    let total_axis :=
      to_S32 (vget axesAccumulator AXIS_TRIGGERLEFT
              - vget axesAccumulator AXIS_TRIGGERRIGHT) in
    let total_axis :=
      if mIndex channel =? AXIS_TRIGGERRIGHT then to_S32 (total_axis * -1)
      else total_axis in
    Some (clampAxis total_axis)
  else clampAxis <$> vget_unchecked axesAccumulator (mIndex channel).

(** [F32(axis) / ((axis > 0.0f) ? 32767 : 32768) * sign] *)
Definition flycamScale (axis sign : Z) : spec_float :=
  F32_mul (F32_div (F32_of_Z axis) (F32_of_Z (if 0 <? axis then 32767 else 32768)))
    (F32_of_Z sign).

(** The input computed for one flycam channel, when its axis can be
    read. *)
Definition flycamInput (axesAccumulator : list Z) (channel : InputChannel)
    : option spec_float :=
  (fun axis => flycamScale axis (mSign channel)) <$> flycamAxis axesAccumulator channel.

(** [getFlycamInputs(inputs)]: one value per flycam channel, in the order
    advance, pan, rise, pitch, yaw, zoom, pushed onto [inputs].  An entry is
    [None] when the source reads outside [mAxesAccumulator] to compute it;
    the behaviour of the call is undefined then. *)
Definition getFlycamInputs (m : LLGameControllerManager) (inputs : list spec_float)
    : list (option spec_float) :=
  map Some inputs ++ map (flycamInput (mAxesAccumulator m)) (mFlycamChannels m).

(** The rational number that a finite float stands for (0 for the others). *)
Definition F32_to_Q (f : spec_float) : Q :=
  match f with
  | S754_finite s m e =>
      let n := if s then Z.neg m else Z.pos m in
      if 0 <=? e then inject_Z (n * 2 ^ e) else Qmake n (Z.to_pos (2 ^ (- e)))
  | _ => 0%Q
  end.

Definition is_finite (f : spec_float) : bool :=
  match f with
  | S754_finite _ _ _ | S754_zero _ => true
  | _ => false
  end.

(** ** External input and action flags *)

Definition computeInternalActionFlags (m : LLGameControllerManager) (controlAgent : bool)
    : LLGameControllerManager * Z :=
  let m' := accumulateInternalState m in
  (m', if controlAgent
       then computeFlagsFromState (mActionTranslator m') (mAxesAccumulator m')
              (mButtonAccumulator m')
       else 0).

Definition BITS_OF_INTEREST : Z :=
  fold_left Z.lor
    [ AGENT_CONTROL_AT_NEG; AGENT_CONTROL_LEFT_POS; AGENT_CONTROL_LEFT_NEG;
      AGENT_CONTROL_UP_POS; AGENT_CONTROL_UP_NEG;
      AGENT_CONTROL_YAW_POS; AGENT_CONTROL_YAW_NEG;
      AGENT_CONTROL_PITCH_POS; AGENT_CONTROL_PITCH_NEG;
      AGENT_CONTROL_STOP; AGENT_CONTROL_FAST_AT; AGENT_CONTROL_FAST_LEFT;
      AGENT_CONTROL_FAST_UP ]
    AGENT_CONTROL_AT_POS.

(** [setExternalInput(action_flags, buttons)] *)
Definition setExternalInput (m : LLGameControllerManager) (translate : bool)
    (action_flags buttons : Z) : LLGameControllerManager :=
  if translate then
    let action_flags := Z.land action_flags BITS_OF_INTEREST in
    let active_flags := Z.land action_flags (Translator_getMappedFlags (mActionTranslator m)) in
    if negb (active_flags =? mLastActiveFlags m) then
      let s := computeStateFromFlags (mActionTranslator m) action_flags in
      set_external m (set_mButtons s (Z.lor (mButtons s) buttons)) active_flags
    else
      set_external m (set_mButtons (mExternalState m) buttons) (mLastActiveFlags m)
  else
    set_external m (set_mButtons (mExternalState m) buttons) (mLastActiveFlags m).

(** ** Mapping strings *)

(** Modelled from the spec: [LLStringOps::splitString] is declared in
    llstring.h, outside this translation unit; it hands each piece of a
    delimiter-separated list to the callback. *)
Fixpoint splitString (text : string) (delimiter : ascii) : list string :=
  match text with
  | EmptyString => [EmptyString]
  | String c rest =>
      if Ascii.eqb c delimiter then EmptyString :: splitString rest delimiter
      else
        match splitString rest delimiter with
        | piece :: pieces => String c piece :: pieces
        | [] => [String c EmptyString]
        end
  end.

(** [s.find(c)]: the first position of the character, [None] for [npos]. *)
Fixpoint string_find (s : string) (c : ascii) : option nat :=
  match s with
  | EmptyString => None
  | String a rest => if Ascii.eqb a c then Some O else option_map S (string_find rest c)
  end.

(** The [pairs] map that [setMappings] builds from the pieces
    [action:channel]; a piece without a colon, or starting with one, is
    skipped, and a later piece for the same action replaces an earlier one. *)
Definition parsePairs (mappings : string) : gmap string string :=
  fold_left
    (fun (pairs : gmap string string) mapping =>
       match string_find mapping ":"%char with
       | Some pos =>
           if (0 <? pos)%nat then
             <[substring 0 pos mapping :=
                 substring (S pos) (String.length mapping) mapping]> pairs
           else pairs
       | None => pairs
       end)
    (splitString mappings ","%char) ∅.

(** The static [setMappings]: the common part of [setAnalogMappings],
    [setBinaryMappings] and [setFlycamMappings]; [updateMap] is the callback
    and [target] the object it updates. *)
Definition setMappings {A : Type} (mappings : string) (actions : list string)
    (type : ChannelType) (updateMap : A -> string -> InputChannel -> A) (target : A) : A :=
  let pairs := parsePairs mappings in
  let channelNone := InputChannel_new in
  fold_left
    (fun target action =>
       match pairs !! action with
       | Some name =>
           let channel := getChannelByName name in
           if isNone channel || ChannelType_eqb (mType channel) type
           then updateMap target action channel
           else updateMap target action channelNone
       | None => updateMap target action channelNone
       end)
    actions target.

(** [std::find] followed by [std::distance]: the position of the first
    occurrence, the length of the list when there is none. *)
Fixpoint indexOf (l : list string) (x : string) : nat :=
  match l with
  | [] => O
  | y :: rest => if String.eqb y x then O else S (indexOf rest x)
  end.

Definition updateFlycamMap (m : LLGameControllerManager) (action : string)
    (channel : InputChannel) : LLGameControllerManager :=
  set_mFlycamChannels m (<[indexOf mFlycamActions action := channel]> (mFlycamChannels m)).

Definition getFlycamChannelByAction (m : LLGameControllerManager) (action : string)
    : InputChannel :=
  nth (indexOf mFlycamActions action) (mFlycamChannels m) InputChannel_new.

(** [LLGameControllerManager::getChannelByAction] *)
Definition getChannelByAction (m : LLGameControllerManager) (action : string) : InputChannel :=
  match mActions !! action with
  | Some ACTION_NAME_FLYCAM => getFlycamChannelByAction m action
  | Some _ => Translator_getChannelByAction (mActionTranslator m) action
  | None => InputChannel_new
  end.

(** [LLGameControllerManager::updateActionMap] *)
Definition updateActionMap (m : LLGameControllerManager) (action : string)
    (channel : InputChannel) : LLGameControllerManager * bool :=
  match mActions !! action with
  | None => (m, false)
  | Some ACTION_NAME_FLYCAM => (updateFlycamMap m action channel, true)
  | Some _ =>
      (set_mActionTranslator m (Translator_updateMap (mActionTranslator m) action channel),
       true)
  end.

Definition translatorUpdate (m : LLGameControllerManager) (action : string)
    (channel : InputChannel) : LLGameControllerManager :=
  set_mActionTranslator m (Translator_updateMap (mActionTranslator m) action channel).

Definition setAnalogMappings (m : LLGameControllerManager) (mappings : string) :=
  setMappings mappings mAnalogActions TYPE_AXIS translatorUpdate m.

Definition setBinaryMappings (m : LLGameControllerManager) (mappings : string) :=
  setMappings mappings mBinaryActions TYPE_BUTTON translatorUpdate m.

Definition setFlycamMappings (m : LLGameControllerManager) (mappings : string) :=
  setMappings mappings mFlycamActions TYPE_AXIS updateFlycamMap m.

Definition getMappedFlags (m : LLGameControllerManager) : Z :=
  Translator_getMappedFlags (mActionTranslator m).

(** ** Settings *)

Definition SETTING_SENDTOSERVER : string := "GameControlToServer".
Definition SETTING_CONTROLAGENT : string := "GameControlToAgent".
Definition SETTING_TRANSLATEACTIONS : string := "AgentToGameControl".
Definition SETTING_AGENTCONTROLMODE : string := "AgentControlMode".
Definition SETTING_ANALOGMAPPINGS : string := "AnalogChannelMappings".
Definition SETTING_BINARYMAPPINGS : string := "BinaryChannelMappings".
Definition SETTING_FLYCAMMAPPINGS : string := "FlycamChannelMappings".

Definition string_empty (s : string) : bool :=
  match s with EmptyString => true | _ => false end.

(** The manager after the three mapping strings have been applied. *)
Definition restoreMappings (m : LLGameControllerManager)
    (analogMappings binaryMappings flycamMappings : string) : LLGameControllerManager :=
  setFlycamMappings (setBinaryMappings (setAnalogMappings m analogMappings) binaryMappings)
    flycamMappings.

(** [LLGameControl::loadFromSettings]; the two callbacks read the settings
    store.  The function returns nothing. *)
Definition loadFromSettings (g : Globals) (s_loadBoolean : string -> bool)
    (s_loadString : string -> string) : Globals :=
  let sendToServer := s_loadBoolean SETTING_SENDTOSERVER in
  let controlAgent := s_loadBoolean SETTING_CONTROLAGENT in
  let translateAgentActions := s_loadBoolean SETTING_TRANSLATEACTIONS in
  let agentControlMode :=
    convertStringToAgentControlMode (s_loadString SETTING_AGENTCONTROLMODE) in
  let analogMappings := s_loadString SETTING_ANALOGMAPPINGS in
  let binaryMappings := s_loadString SETTING_BINARYMAPPINGS in
  let flycamMappings := s_loadString SETTING_FLYCAMMAPPINGS in
  let manager :=
    if string_empty analogMappings && string_empty binaryMappings
       && string_empty flycamMappings
    then initializeMappingsByDefault (g_manager g)
    else
      let m := restoreMappings (g_manager g) analogMappings binaryMappings flycamMappings in
      if getMappedFlags m =? 0 then initializeMappingsByDefault m else m in
  mkGlobals manager (g_finalState g) (g_lastSend g) (g_nextResendPeriod g)
    sendToServer controlAgent translateAgentActions agentControlMode.

(** ** Channel names written out *)

Definition digit_char (d : Z) : ascii := ascii_of_nat (Z.to_nat (48 + d)).

(** [std::to_string] on an unsigned value: its decimal digits, the most
    significant first, without leading zeros (a [U32] has at most ten). *)
Fixpoint to_string_digits (fuel : nat) (n : Z) (acc : string) : string :=
  match fuel with
  | O => acc
  | S fuel' =>
      let acc' := String (digit_char (n mod 10)) acc in
      if n / 10 =? 0 then acc' else to_string_digits fuel' (n / 10) acc'
  end.

Definition to_string (n : Z) : string := to_string_digits 10 n EmptyString.

(** [InputChannel::getLocalName] *)
Definition getLocalName (c : InputChannel) : string :=
  if ChannelType_eqb (mType c) TYPE_AXIS && (mIndex c <? NUM_AXES) then
    "AXIS_" +:+ to_string (to_U32 (mIndex c))
      +:+ (if mSign c <? 0 then "-" else if 0 <? mSign c then "+" else EmptyString)
  else if ChannelType_eqb (mType c) TYPE_BUTTON && (mIndex c <? NUM_BUTTONS) then
    "BUTTON_" +:+ to_string (to_U32 (mIndex c))
  else "NONE".

(** [InputChannel::getRemoteName]: the two [switch] statements over the
    index; a channel without a remote name gets a single space. *)
Definition getRemoteName (c : InputChannel) : string :=
  let name := " "%string in
  (match mType c with
  | TYPE_AXIS =>
      match mIndex c with
      | 0 => "GAME_CONTROL_AXIS_LEFTX"
      | 1 => "GAME_CONTROL_AXIS_LEFTY"
      | 2 => "GAME_CONTROL_AXIS_RIGHTX"
      | 3 => "GAME_CONTROL_AXIS_RIGHTY"
      | 4 => "GAME_CONTROL_AXIS_PADDLELEFT"
      | 5 => "GAME_CONTROL_AXIS_PADDLERIGHT"
      | _ => name
      end
  | TYPE_BUTTON =>
      match mIndex c with
      | 0 => "GAME_CONTROL_BUTTON_A"
      | 1 => "GAME_CONTROL_BUTTON_B"
      | 2 => "GAME_CONTROL_BUTTON_X"
      | 3 => "GAME_CONTROL_BUTTON_Y"
      | 4 => "GAME_CONTROL_BUTTON_BACK"
      | 5 => "GAME_CONTROL_BUTTON_GUIDE"
      | 6 => "GAME_CONTROL_BUTTON_START"
      | 7 => "GAME_CONTROL_BUTTON_LEFTSTICK"
      | 8 => "GAME_CONTROL_BUTTON_RIGHTSTICK"
      | 9 => "GAME_CONTROL_BUTTON_LEFTSHOULDER"
      | 10 => "GAME_CONTROL_BUTTON_RIGHTSHOULDER"
      | 11 => "GAME_CONTROL_BUTTON_DPAD_UP"
      | 12 => "GAME_CONTROL_BUTTON_DPAD_DOWN"
      | 13 => "GAME_CONTROL_BUTTON_DPAD_LEFT"
      | 14 => "GAME_CONTROL_BUTTON_DPAD_RIGHT"
      | 15 => "GAME_CONTROL_BUTTON_MISC1"
      | 16 => "GAME_CONTROL_BUTTON_PADDLE1"
      | 17 => "GAME_CONTROL_BUTTON_PADDLE2"
      | 18 => "GAME_CONTROL_BUTTON_PADDLE3"
      | 19 => "GAME_CONTROL_BUTTON_PADDLE4"
      | 20 => "GAME_CONTROL_BUTTON_TOUCHPAD"
      | _ => name
      end
  | TYPE_NONE => name
  end)%string.

(** ** Mapping strings written out *)

(** The static [getMappings]: the common part of [getAnalogMappings],
    [getBinaryMappings] and [getFlycamMappings] (and of the three
    [stringify...Mappings], which pass their own [getChannel]); the last
    comma is removed by [resize]. *)
Definition getMappings (actions : list string) (type : ChannelType)
    (getChannel : string -> InputChannel) : string :=
  let result :=
    fold_left
      (fun result action =>
         let channel := getChannel action in
         if ChannelType_eqb (mType channel) type
         then result +:+ (action +:+ ":" +:+ getLocalName channel +:+ ",")
         else result)
      actions EmptyString in
  if negb (string_empty result)
  then substring 0 (String.length result - 1) result
  else result.

Definition getAnalogMappings (m : LLGameControllerManager) : string :=
  getMappings mAnalogActions TYPE_AXIS
    (fun action => Translator_getChannelByAction (mActionTranslator m) (action +:+ "+")).

Definition getBinaryMappings (m : LLGameControllerManager) : string :=
  getMappings mBinaryActions TYPE_BUTTON
    (fun action => Translator_getChannelByAction (mActionTranslator m) action).

Definition getFlycamMappings (m : LLGameControllerManager) : string :=
  getMappings mFlycamActions TYPE_AXIS (fun action => getFlycamChannelByAction m action).

(** ** Events *)

(** [LLGameControllerManager::clearAllStates] *)
Definition clearAllStates (m : LLGameControllerManager) : LLGameControllerManager :=
  mkManager (map State_clear (mStates m)) (State_clear (mExternalState m))
    (mActionTranslator m) (mFlycamChannels m)
    (mAxesAccumulator m) (mButtonAccumulator m) 0 0.

(** The events that [processEvents] dispatches on.  What SDL answers while
    an event is handled is part of the event here: for a controller that
    was plugged in, the instance id that [SDL_JoystickGetDeviceInstanceID]
    returns and whether [SDL_GameControllerOpen] gave a controller.  For a
    button event [pressed] is [event.cbutton.state == SDL_PRESSED]. *)
Inductive SDL_Event : Type :=
| SDL_JOYDEVICEADDED (which : Z)
| SDL_JOYDEVICEREMOVED (which : Z)
| SDL_CONTROLLERDEVICEADDED (which : Z) (instance_id : Z) (opened : bool)
| SDL_CONTROLLERDEVICEREMOVED (which : Z)
| SDL_CONTROLLERBUTTONDOWN (which button : Z) (pressed : bool)
| SDL_CONTROLLERBUTTONUP (which button : Z) (pressed : bool)
| SDL_CONTROLLERAXISMOTION (which axis value : Z)
| SDL_OTHEREVENT.

(** [onControllerDeviceAdded] *)
Definition onControllerDeviceAdded (states : list State) (id : Z) (opened : bool)
    : list State :=
  if id <? 0 then states
  else if negb opened then states
  else addController states id.

(** One round of the loop of [processEvents]. *)
Definition dispatchEvent (states : list State) (event : SDL_Event) : list State :=
  match event with
  | SDL_JOYDEVICEADDED _ => states
  | SDL_JOYDEVICEREMOVED _ => states
  | SDL_CONTROLLERDEVICEADDED _ id opened => onControllerDeviceAdded states id opened
  | SDL_CONTROLLERDEVICEREMOVED which => removeController states which
  | SDL_CONTROLLERBUTTONDOWN which button pressed
  | SDL_CONTROLLERBUTTONUP which button pressed => onButton states which button pressed
  | SDL_CONTROLLERAXISMOTION which axis value => onAxis states which axis value
  | SDL_OTHEREVENT => states
  end.

(** [LLGameControl::processEvents(app_has_focus)] on the events that
    [SDL_PollEvent] hands out, for an initialised [g_gameControl]. *)
Definition processEvents (m : LLGameControllerManager) (app_has_focus : bool)
    (events : list SDL_Event) : LLGameControllerManager :=
  if negb app_has_focus then clearAllStates m
  else
    mkManager (fold_left dispatchEvent events (mStates m)) (mExternalState m)
      (mActionTranslator m) (mFlycamChannels m) (mAxesAccumulator m)
      (mButtonAccumulator m) (mLastActiveFlags m) (mLastFlycamActionFlags m).

(** ** The active input channel *)

Definition button_indices : list Z := map Z.of_nat (seq 0 32).

(** [LLGameControl::getActiveInputChannel]: the lowest pressed button of the
    published state, else the first axis deflected beyond half of its
    range. *)
Definition getActiveInputChannel (g : Globals) : InputChannel :=
  let input := InputChannel_new in
  let state := g_finalState g in
  if 0 <? mButtons state then
    match find (fun i => negb (Z.land (Z.shiftl 1 i) (mButtons state) =? 0)) button_indices with
    | Some i => {| mType := TYPE_BUTTON; mIndex := i; mSign := mSign input |}
    | None => {| mType := TYPE_BUTTON; mIndex := mIndex input; mSign := mSign input |}
    end
  else
    let threshold := S16_MAX / 2 in
    match find (fun i => threshold <? Z.abs (vget (mAxes state) i)) axis_indices with
    | Some i =>
        {| mType := TYPE_AXIS; mIndex := i;
           mSign := if 0 <? vget (mAxes state) i then 1 else -1 |}
    | None => input
    end.

(** ** Options and the settings store *)

Definition willControlAvatar (g : Globals) : bool :=
  g_controlAgent g
  && match g_agentControlMode g with CONTROL_MODE_AVATAR => true | _ => false end.

Definition set_options (g : Globals) (sendToServer controlAgent translateAgentActions : bool)
    (agentControlMode : AgentControlMode) : Globals :=
  mkGlobals (g_manager g) (g_finalState g) (g_lastSend g) (g_nextResendPeriod g)
    sendToServer controlAgent translateAgentActions agentControlMode.

(** [LLGameControl::initByDefault] *)
Definition initByDefault (g : Globals) : Globals :=
  mkGlobals (initializeMappingsByDefault (g_manager g)) (g_finalState g)
    (g_lastSend g) (g_nextResendPeriod g) false false false CONTROL_MODE_AVATAR.

(** The setters write through to the settings store: [s_saveBoolean] and
    [s_saveString] are the callbacks given to [init], [store] is what they
    write to. *)
Definition setSendToServer {A : Type} (s_saveBoolean : A -> string -> bool -> A)
    (g : Globals) (store : A) (enable : bool) : Globals * A :=
  (set_options g enable (g_controlAgent g) (g_translateAgentActions g) (g_agentControlMode g),
   s_saveBoolean store SETTING_SENDTOSERVER enable).

Definition setControlAgent {A : Type} (s_saveBoolean : A -> string -> bool -> A)
    (g : Globals) (store : A) (enable : bool) : Globals * A :=
  (set_options g (g_sendToServer g) enable (g_translateAgentActions g) (g_agentControlMode g),
   s_saveBoolean store SETTING_CONTROLAGENT enable).

Definition setTranslateAgentActions {A : Type} (s_saveBoolean : A -> string -> bool -> A)
    (g : Globals) (store : A) (enable : bool) : Globals * A :=
  (set_options g (g_sendToServer g) (g_controlAgent g) enable (g_agentControlMode g),
   s_saveBoolean store SETTING_TRANSLATEACTIONS enable).

Definition setAgentControlMode {A : Type} (s_saveString : A -> string -> string -> A)
    (g : Globals) (store : A) (mode : AgentControlMode) : Globals * A :=
  (set_options g (g_sendToServer g) (g_controlAgent g) (g_translateAgentActions g) mode,
   s_saveString store SETTING_AGENTCONTROLMODE (convertAgentControlModeToString mode)).

(** [LLGameControl::saveToSettings]: seven writes, in this order. *)
Definition saveToSettings {A : Type} (s_saveBoolean : A -> string -> bool -> A)
    (s_saveString : A -> string -> string -> A) (g : Globals) (store : A) : A :=
  let store := s_saveBoolean store SETTING_SENDTOSERVER (g_sendToServer g) in
  let store := s_saveBoolean store SETTING_CONTROLAGENT (g_controlAgent g) in
  let store := s_saveBoolean store SETTING_TRANSLATEACTIONS (g_translateAgentActions g) in
  let store :=
    s_saveString store SETTING_AGENTCONTROLMODE
      (convertAgentControlModeToString (g_agentControlMode g)) in
  let store := s_saveString store SETTING_ANALOGMAPPINGS (getAnalogMappings (g_manager g)) in
  let store := s_saveString store SETTING_BINARYMAPPINGS (getBinaryMappings (g_manager g)) in
  s_saveString store SETTING_FLYCAMMAPPINGS (getFlycamMappings (g_manager g)).

(** ** Notions used in the statements and proofs *)

(** Whether the published value of axis [i] differs from the merged one. *)
Definition axisChanged (m : LLGameControllerManager) (translate : bool)
    (final_state : State) (i : Z) : bool :=
  negb (vget (mAxes final_state) i =? finalAxis m translate i).

(** The button mask that [computeFinalState] publishes. *)
Definition finalButtons (m : LLGameControllerManager) (translate : bool) : Z :=
  if translate then Z.lor (mButtonAccumulator m) (mButtons (mExternalState m))
  else mButtonAccumulator m.

(** The decimal digits and their values. *)
Definition digit_table : list (ascii * Z) :=
  [ ("0", 0); ("1", 1); ("2", 2); ("3", 3); ("4", 4);
    ("5", 5); ("6", 6); ("7", 7); ("8", 8); ("9", 9) ]%char.

(** The table seen by the two translations: each mask with the channel bound
    to its action, if any. *)
Definition maskedChannels (t : LLGameControlTranslator) : list (Z * option InputChannel) :=
  map (fun e => (snd e, mappedChannel t (fst e))) (mActionToMask t).

(** A channel that names an axis or a button that exists. *)
Definition wf_channel (c : InputChannel) : Prop :=
  match mType c with
  | TYPE_AXIS => 0 <= mIndex c < NUM_AXES
  | TYPE_BUTTON => 0 <= mIndex c < NUM_BUTTONS
  | TYPE_NONE => True
  end.

(** Every bound channel names an axis or a button that exists. *)
Definition wf_mapping (t : LLGameControlTranslator) : Prop :=
  forall action c, mappedChannel t action = Some c -> wf_channel c.

(** Whether the action of a table entry is active in a raw state. *)
Definition entryActive (ax : list Z) (bt : Z) (e : Z * option InputChannel) : bool :=
  match snd e with
  | Some c => channelActive ax bt c
  | None => false
  end.

(** The two translations over the table of masks and bound channels. *)
Definition flagsOf (ax : list Z) (bt : Z) (es : list (Z * option InputChannel)) : Z :=
  fold_left (fun flags e => if entryActive ax bt e then Z.lor flags (fst e) else flags) es 0.

Definition stateOf (flags : Z) (es : list (Z * option InputChannel)) (s0 : State) : State :=
  fold_left
    (fun s e =>
       match snd e with
       | Some c => if Z.land (fst e) flags =? fst e then deflectChannel s c else s
       | None => s
       end)
    es s0.

(** Every mask of the list has a bit that no mask at another position has. *)
Definition private_bits (es : list (Z * option InputChannel)) : Prop :=
  forall k e, es !! k = Some e ->
    exists i, Z.testbit (fst e) i = true
              /\ forall k' e', es !! k' = Some e' -> k' <> k -> Z.testbit (fst e') i = false.

(** The end of the axis range on the side of a value. *)
Definition fullDeflection (v : Z) : Z := if v <? 0 then S16_MIN else S16_MAX.

(** Whether a table entry is bound to axis [i], to button [j]. *)
Definition entryOnAxis (i : Z) (e : Z * option InputChannel) : bool :=
  match snd e with
  | Some c => isAxis c && (mIndex c =? i)
  | None => false
  end.

Definition entryOnButton (j : Z) (e : Z * option InputChannel) : bool :=
  match snd e with
  | Some c => isButton c && (mIndex c =? j)
  | None => false
  end.

(** A device state as the constructor and the event handlers leave it. *)
Definition wf_state (s : State) : Prop :=
  length (mAxes s) = Z.to_nat NUM_AXES
  /\ length (mPrevAxes s) = Z.to_nat NUM_AXES
  /\ Forall is_S16 (mAxes s)
  /\ is_U32 (mButtons s).

(** A list of device states without a repeated device. *)
Definition wf_states (states : list State) : Prop :=
  NoDup (map mJoystickID states) /\ Forall wf_state states.

(** The shape that the constructor gives the manager. *)
Definition wf_manager (m : LLGameControllerManager) : Prop :=
  length (mAxesAccumulator m) = Z.to_nat NUM_AXES
  /\ length (mFlycamChannels m) = length mFlycamActions
  /\ wf_states (mStates m).

(** The fields of an event have the types SDL gives them: an axis value is
    an [S16], a button index is unsigned. *)
Definition wf_event (event : SDL_Event) : Prop :=
  match event with
  | SDL_CONTROLLERAXISMOTION _ axis value => 0 <= axis /\ is_S16 value
  | SDL_CONTROLLERBUTTONDOWN _ button _ | SDL_CONTROLLERBUTTONUP _ button _ => 0 <= button
  | _ => True
  end.

(** The sum of one axis over the devices, the OR of their button masks. *)
Definition sumAxis (states : list State) (i : Z) : Z :=
  fold_right (fun s acc => vget (mAxes s) i + acc) 0 states.

Definition orButtons (states : list State) : Z :=
  fold_right (fun s acc => Z.lor (mButtons s) acc) 0 states.


(** Whether [getRemoteName] has a name for the channel. *)
Definition hasRemoteName (c : InputChannel) : bool :=
  match mType c with
  | TYPE_AXIS => (0 <=? mIndex c) && (mIndex c <? 6)
  | TYPE_BUTTON => (0 <=? mIndex c) && (mIndex c <? 21)
  | TYPE_NONE => false
  end.

(** The remote names read back: the type and index that each one stands
    for. *)
Definition remoteNames : list (string * (ChannelType * Z)) :=
  map (fun i => (getRemoteName (mkChannel TYPE_AXIS i 0), (TYPE_AXIS, i)))
      (map Z.of_nat (seq 0 6))
  ++ map (fun i => (getRemoteName (mkChannel TYPE_BUTTON i 0), (TYPE_BUTTON, i)))
       (map Z.of_nat (seq 0 21)).

Definition channelOfRemoteName (name : string) : option (ChannelType * Z) :=
  snd <$> find (fun e => String.eqb (fst e) name) remoteNames.


(** Whether the flycam input computed from an axis value is a finite number
    between -1 and 1, for each of the three signs. *)
Definition flycamScale_ok (axis : Z) : bool :=
  forallb
    (fun sign =>
       let output := flycamScale axis sign in
       is_finite output && Qle_bool (-1) (F32_to_Q output) && Qle_bool (F32_to_Q output) 1)
    [-1; 0; 1].

(** The values of an [S16], counted up from [S16_MIN]. *)
Fixpoint S16_from (n : nat) (v : Z) : list Z :=
  match n with
  | O => []
  | S n' => v :: S16_from n' (v + 1)
  end.


(** [result.resize(result.size() - 1)] *)
Definition dropLast (s : string) : string := substring 0 (String.length s - 1) s.

(** The pieces [action:channel] that [getMappings] writes, as pairs. *)
Definition mappingPairs (actions : list string) (type : ChannelType)
    (getChannel : string -> InputChannel) : list (string * string) :=
  flat_map
    (fun action =>
       if ChannelType_eqb (mType (getChannel action)) type
       then [(action, getLocalName (getChannel action))] else [])
    actions.

Definition mappingPiece (kv : string * string) : string := fst kv +:+ ":" +:+ snd kv.

(** Pieces written one after the other, a comma after each. *)
Definition joined (pieces : list string) : string :=
  fold_right (fun piece rest => piece +:+ "," +:+ rest) EmptyString pieces.

(** A name without a comma or a colon in it, and not empty. *)
Definition clean_name (s : string) : bool :=
  negb (string_empty s)
  && match string_find s ","%char with None => true | Some _ => false end
  && match string_find s ":"%char with None => true | Some _ => false end.

(** The channel that [setMappings] hands to [updateMap] for an action. *)
Definition restoredChannel (pairs : gmap string string) (type : ChannelType)
    (action : string) : InputChannel :=
  match pairs !! action with
  | Some name =>
      let channel := getChannelByName name in
      if isNone channel || ChannelType_eqb (mType channel) type then channel
      else InputChannel_new
  | None => InputChannel_new
  end.

(** A flycam channel as it is after having been written and read back. *)
Definition rereadFlycamChannel (c : InputChannel) : InputChannel :=
  if isAxis c && (mIndex c <? NUM_AXES)
  then mkChannel TYPE_AXIS (mIndex c) (if mSign c <? 0 then -1 else 1)
  else InputChannel_new.

(** A channel as it is after having been written by [getMappings] for
    channels of type [type] and read back by [setMappings]. *)
Definition rereadChannel (type : ChannelType) (c : InputChannel) : InputChannel :=
  if ChannelType_eqb (mType c) type then
    match type with
    | TYPE_AXIS =>
        if mIndex c <? NUM_AXES
        then mkChannel TYPE_AXIS (mIndex c) (if mSign c <? 0 then -1 else 1)
        else InputChannel_new
    | TYPE_BUTTON =>
        if mIndex c <? NUM_BUTTONS then InputChannel_new2 TYPE_BUTTON (mIndex c)
        else InputChannel_new
    | TYPE_NONE => InputChannel_new
    end
  else InputChannel_new.


(** The characters that [substr] hands to [atoi]: the one at a position of
    the name and, for a button, the next one, as far as the name has them. *)
Definition charsRead (c1 c2 : option ascii) : string :=
  match c1 with
  | None => EmptyString
  | Some a => String a (match c2 with None => EmptyString | Some b => String b EmptyString end)
  end.

(** The index that the amended claim gives for the characters read after
    the prefix: the number written by the leading digits, after white space
    or a sign if there is one; 0 when no digit is read; the number is stored
    in a [U8], so that a digit after a minus sign wraps around. *)
Definition indexRead (c1 c2 : option ascii) : Z :=
  let digit (c : option ascii) := default 0 (c ≫= digit_of) in
  match c1 with
  | None => 0
  | Some a =>
      match digit_of a with
      | Some d1 =>
          match c2 ≫= digit_of with
          | Some d2 => 10 * d1 + d2
          | None => d1
          end
      | None =>
          if isspace a || Ascii.eqb a "+" then digit c2
          else if Ascii.eqb a "-" then to_U8 (- digit c2)
          else 0
      end
  end.

(** ** A scenario

    A run of the program on concrete inputs, used to evaluate the
    development. *)

(** One assignment of distinct bit positions to the control bits. *)
Definition AGENT_CONTROL_INDEX_example (b : AgentControlBit) : Z :=
  match b with
  | AT_POS => 0 | AT_NEG => 1 | LEFT_POS => 2 | LEFT_NEG => 3
  | UP_POS => 4 | UP_NEG => 5 | PITCH_POS => 6 | PITCH_NEG => 7
  | YAW_POS => 8 | YAW_NEG => 9 | FAST_AT => 10 | FAST_LEFT => 11
  | FAST_UP => 12 | FLY => 13 | STOP => 14
  | NUDGE_AT_POS => 19 | NUDGE_AT_NEG => 20
  end.

(** One choice of the index and sign of a default-constructed channel. *)
Definition default_mIndex_example : Z := 255.
Definition default_mSign_example : Z := 0.

Definition set_mStates (m : LLGameControllerManager) (states : list State)
    : LLGameControllerManager :=
  mkManager states (mExternalState m) (mActionTranslator m) (mFlycamChannels m)
    (mAxesAccumulator m) (mButtonAccumulator m) (mLastActiveFlags m)
    (mLastFlycamActionFlags m).

(** Two devices are connected.  Device 7 reports the left stick pushed
    forward (raw -20000 on the left Y axis), 10000 on the left trigger, 3000
    on the right trigger and the left-stick button pressed; device 8 reports
    the same stick deflection. *)
Definition scenario_states : list State :=
  let states := addController (addController [] 7) 8 in
  let states := onAxis states 7 AXIS_LEFTY (-20000) in
  let states := onAxis states 7 AXIS_TRIGGERLEFT 10000 in
  let states := onAxis states 7 AXIS_TRIGGERRIGHT 3000 in
  let states := onButton states 7 BUTTON_LEFTSTICK true in
  onAxis states 8 AXIS_LEFTY (-20000).

(** The freshly constructed manager after these events have been
    accumulated. *)
Definition scenario_manager : LLGameControllerManager :=
  accumulateInternalState (set_mStates Manager_new scenario_states).

(** The globals at that point: nothing published yet, sending enabled. *)
Definition scenario_globals : Globals :=
  mkGlobals scenario_manager State_new 0 FIRST_RESEND_PERIOD
    true false false CONTROL_MODE_AVATAR.

(** The merge that finds the change, the send that follows it, the next
    merge and the second send, at times 1000, 2000 and 200000000. *)
Definition scenario_changed : Globals :=
  fst (computeFinalStateAndCheckForChanges scenario_globals 1000).
Definition scenario_sent1 : Globals := updateResendPeriod scenario_changed 1000.
Definition scenario_unchanged : Globals :=
  fst (computeFinalStateAndCheckForChanges scenario_sent1 200000000).
Definition scenario_sent2 : Globals := updateResendPeriod scenario_unchanged 200000000.

(** A single device that reports raw -20000 on the left Y axis, nothing
    published yet, sending enabled, no translation of agent actions. *)
Definition single_device_states : list State :=
  onAxis (addController [] 7) 7 AXIS_LEFTY (-20000).

Definition single_device_globals : Globals :=
  mkGlobals (accumulateInternalState (set_mStates Manager_new single_device_states))
    State_new 0 FIRST_RESEND_PERIOD true false false CONTROL_MODE_AVATAR.

(** The action flags of the accumulated state and the state rebuilt from
    them. *)
Definition scenario_flags : Z :=
  computeFlagsFromState (mActionTranslator scenario_manager)
    (mAxesAccumulator scenario_manager) (mButtonAccumulator scenario_manager).
Definition scenario_rebuilt : State :=
  computeStateFromFlags (mActionTranslator scenario_manager) scenario_flags.

(** A settings store that maps one flycam action and nothing else. *)
Definition flycam_only_loadString (key : string) : string :=
  if String.eqb key SETTING_FLYCAMMAPPINGS then "advance:AXIS_2+"%string else EmptyString.

(** A settings store that holds a malformed analog mapping string and
    nothing else. *)
Definition scenario_loadBoolean (key : string) : bool := false.
Definition scenario_loadString (key : string) : string :=
  if String.eqb key SETTING_ANALOGMAPPINGS then "push"%string else EmptyString.

(** The events that lead to the device states of the scenario: the two
    controllers are plugged in, then device 7 and device 8 report. *)
Definition scenario_events : list SDL_Event :=
  [ SDL_CONTROLLERDEVICEADDED 0 7 true;
    SDL_CONTROLLERDEVICEADDED 1 8 true;
    SDL_CONTROLLERAXISMOTION 7 AXIS_LEFTY (-20000);
    SDL_CONTROLLERAXISMOTION 7 AXIS_TRIGGERLEFT 10000;
    SDL_CONTROLLERAXISMOTION 7 AXIS_TRIGGERRIGHT 3000;
    SDL_CONTROLLERBUTTONDOWN 7 BUTTON_LEFTSTICK true;
    SDL_CONTROLLERAXISMOTION 8 AXIS_LEFTY (-20000) ].

(** A settings store: one map for the boolean settings and one for the
    string settings, a setting that was never saved reading as false or as
    the empty string. *)
Record SettingsStore := mkStore {
  store_booleans : gmap string bool;
  store_strings : gmap string string
}.

Definition store_empty : SettingsStore := mkStore ∅ ∅.

Definition store_loadBoolean (store : SettingsStore) (key : string) : bool :=
  default false (store_booleans store !! key).

Definition store_saveBoolean (store : SettingsStore) (key : string) (value : bool)
    : SettingsStore :=
  mkStore (<[key := value]> (store_booleans store)) (store_strings store).

Definition store_loadString (store : SettingsStore) (key : string) : string :=
  default EmptyString (store_strings store !! key).

Definition store_saveString (store : SettingsStore) (key : string) (value : string)
    : SettingsStore :=
  mkStore (store_booleans store) (<[key := value]> (store_strings store)).

(** The globals of the scenario with every option set, in flycam mode. *)
Definition scenario_options : Globals :=
  set_options scenario_globals true true true CONTROL_MODE_FLYCAM.

(** A callback for [setMappings] that records the calls it receives. *)
Definition scenario_recordUpdate (calls : list (string * InputChannel)) (action : string)
    (channel : InputChannel) : list (string * InputChannel) :=
  calls ++ [(action, channel)].

(** A flycam mapping string with an axis index beyond [NUM_AXES], a button,
    and a piece without a colon. *)
Definition scenario_flycamMappings : string :=
  "advance:AXIS_9-,pan:BUTTON_3,bogus,rise:AXIS_2".

(** Every option is set through its setter, starting from the fresh
    globals and the empty store. *)
Definition scenario_set_options : Globals * SettingsStore :=
  let r := setSendToServer store_saveBoolean Globals_new store_empty true in
  let r := setControlAgent store_saveBoolean (fst r) (snd r) true in
  let r := setTranslateAgentActions store_saveBoolean (fst r) (snd r) true in
  setAgentControlMode store_saveString (fst r) (snd r) CONTROL_MODE_AVATAR.

(** * Properties *)

(** ** Machine integers *)

Lemma to_S16_id (x : Z) : is_S16 x -> to_S16 x = x.
Proof.
  unfold is_S16, S16_MIN, S16_MAX, to_S16, wrap_signed. intros Hx.
  change (2 ^ (16 - 1)) with 32768. change (2 ^ 16) with 65536.
  rewrite Z.mod_small; lia.
Qed.

Lemma to_S32_id (x : Z) : is_S32 x -> to_S32 x = x.
Proof.
  unfold is_S32, to_S32, wrap_signed.
  change (2 ^ (32 - 1)) with 2147483648. change (2 ^ 32) with 4294967296.
  change (2 ^ 31) with 2147483648.
  intros Hx. rewrite Z.mod_small; lia.
Qed.

Lemma clampAxis_spec (x : Z) : clampAxis x = Z.min (Z.max x (-32768)) 32767.
Proof. unfold clampAxis. apply to_S16_id. unfold is_S16, S16_MIN, S16_MAX. lia. Qed.

Lemma clampAxis_range (x : Z) : is_S16 (clampAxis x).
Proof. rewrite clampAxis_spec. unfold is_S16, S16_MIN, S16_MAX. lia. Qed.

(** ** Axis storage ([onAxis]) *)

Lemma onAxis_value_closed_form (axis v : Z) :
  axis < SDL_CONTROLLER_AXIS_TRIGGERLEFT -> is_S16 v ->
  onAxis_value axis v = if v =? 0 then 0 else - v - 1.
Proof.
  intros Ha Hv. unfold onAxis_value.
  destruct (Z.ltb_spec axis SDL_CONTROLLER_AXIS_TRIGGERLEFT) as [_|]; [|lia].
  unfold is_S16, S16_MIN, S16_MAX in Hv.
  destruct (Z.ltb_spec v 0), (Z.ltb_spec 0 v), (Z.eqb_spec v 0); try lia;
    rewrite to_S16_id; unfold is_S16, S16_MIN, S16_MAX; lia.
Qed.

Lemma findState_updateState (id : Z) (f : State -> State) (states : list State) :
  (forall s, mJoystickID (f s) = mJoystickID s) ->
  findState id (updateState id f states) = f <$> findState id states.
Proof.
  intros Hf. induction states as [|s rest IH]; simpl; [done|].
  destruct (Z.eqb_spec (mJoystickID s) id) as [Heq|Hne]; simpl.
  - rewrite Hf. destruct (Z.eqb_spec (mJoystickID s) id); [done|lia].
  - destruct (Z.eqb_spec (mJoystickID s) id); [lia|done].
Qed.

Lemma vget_vset_eq (v : list Z) (i x : Z) :
  0 <= i < Z.of_nat (length v) -> vget (vset v i x) i = x.
Proof.
  intros Hi. unfold vget, vset.
  apply nth_lookup_Some with (d := 0), list_lookup_insert_eq. lia.
Qed.

Lemma vget_vset_ne (v : list Z) (i j x : Z) :
  0 <= i -> 0 <= j -> i <> j -> vget (vset v i x) j = vget v j.
Proof.
  intros Hi Hj Hne. unfold vget, vset.
  rewrite !nth_lookup, list_lookup_insert_ne; [done|lia].
Qed.

Lemma length_vset (v : list Z) (i x : Z) : length (vset v i x) = length v.
Proof. apply length_insert. Qed.

(** What [onAxis] leaves in the device state is the value computed by
    [onAxis_value]. *)
Lemma storedAxis_onAxis (states : list State) (id axis value : Z) (s : State) :
  findState id states = Some s ->
  0 <= axis < Z.of_nat (length (mAxes s)) -> axis <= MAX_AXIS ->
  storedAxis (onAxis states id axis value) id axis = onAxis_value axis value.
Proof.
  intros Hs Hlen Hmax. unfold storedAxis, onAxis.
  destruct (Z.ltb_spec MAX_AXIS axis); [lia|].
  rewrite findState_updateState by done. rewrite Hs. simpl.
  by apply vget_vset_eq.
Qed.

(** C1 (as amended): on an axis below the triggers the stored value of a raw
    signed 16-bit value [v] is [-v-1] ([0] for [0]), computed without leaving
    the 16-bit range ([-32768] is stored as [32767]); storing the stored
    value again gives back [v] for every [v] other than [-1]. *)
Theorem onAxis_value_twice (axis v : Z) :
  axis < SDL_CONTROLLER_AXIS_TRIGGERLEFT -> is_S16 v -> v <> -1 ->
  onAxis_value axis (onAxis_value axis v) = v
  /\ is_S16 (onAxis_value axis v)
  /\ onAxis_value axis v = (if v =? 0 then 0 else - v - 1)
  /\ onAxis_value axis (-32768) = 32767.
Proof.
  intros Ha Hv Hne.
  assert (Hr : is_S16 (onAxis_value axis v)).
  { rewrite onAxis_value_closed_form by done.
    unfold is_S16, S16_MIN, S16_MAX in *. destruct (Z.eqb_spec v 0); lia. }
  repeat split; try apply Hr.
  - rewrite (onAxis_value_closed_form axis (onAxis_value axis v)) by done.
    rewrite onAxis_value_closed_form by done.
    destruct (Z.eqb_spec v 0) as [->|]; [done|].
    destruct (Z.eqb_spec (- v - 1) 0); lia.
  - by apply onAxis_value_closed_form.
  - by rewrite onAxis_value_closed_form.
Qed.

(** ** Device states *)

(** X3: an axis index above [MAX_AXIS] and an unknown device are ignored
    by [onAxis]. *)
Lemma onAxis_ignored (states : list State) (id axis value : Z) :
  MAX_AXIS < axis \/ findState id states = None ->
  onAxis states id axis value = states.
Proof.
  intros [Haxis|Hunknown]; unfold onAxis.
  - by destruct (Z.ltb_spec MAX_AXIS axis); [|lia].
  - destruct (MAX_AXIS <? axis); [done|].
    induction states as [|s rest IH]; [done|]. simpl in *.
    destruct (mJoystickID s =? id); [discriminate|]. by rewrite IH.
Qed.

(** [State::clear] zeroes the axes and the buttons and keeps the
    previous axes. *)
Lemma State_clear_keeps_prevAxes (s : State) :
  mPrevAxes (State_clear s) = mPrevAxes s
  /\ mButtons (State_clear s) = 0
  /\ length (mAxes (State_clear s)) = length (mAxes s)
  /\ Forall (fun v => v = 0) (mAxes (State_clear s)).
Proof.
  unfold State_clear. cbn [mPrevAxes mButtons mAxes].
  split; [done|]. split; [done|]. split; [apply length_map|].
  apply Forall_forall. intros v Hv. apply list_elem_of_In, in_map_iff in Hv.
  by destruct Hv as (_ & <- & _).
Qed.

Lemma findState_app (id : Z) (l1 l2 : list State) :
  findState id (l1 ++ l2) =
    match findState id l1 with
    | Some s => Some s
    | None => findState id l2
    end.
Proof.
  induction l1 as [|s l1 IH]; [done|]. simpl.
  by destruct (mJoystickID s =? id).
Qed.

(** X5: adding a device twice adds it once; removing a device twice, or an
    absent one, changes nothing more. *)
Lemma controllers_idempotent (states : list State) (id : Z) :
  addController (addController states id) id = addController states id
  /\ removeController (removeController states id) id = removeController states id
  /\ findState id (removeController states id) = None
  /\ (findState id states = None -> removeController states id = states).
Proof.
  split; [|split; [|split]].
  - unfold addController at 1.
    destruct (findState id (addController states id)) eqn:E; [done|].
    exfalso. unfold addController in E.
    destruct (findState id states) eqn:E0; [congruence|].
    rewrite findState_app, E0 in E. simpl in E. by rewrite Z.eqb_refl in E.
  - unfold removeController. induction states as [|s rest IH]; [done|].
    rewrite filter_cons. destruct (decide (mJoystickID s ≠ id)) as [Hne|Heq].
    + rewrite filter_cons. destruct (decide (mJoystickID s ≠ id)); [|done].
      by rewrite IH.
    + exact IH.
  - unfold removeController. induction states as [|s rest IH]; [done|].
    rewrite filter_cons. destruct (decide (mJoystickID s ≠ id)) as [Hne|Heq]; [|exact IH].
    simpl. by destruct (Z.eqb_spec (mJoystickID s) id).
  - unfold removeController. induction states as [|s rest IH]; [done|].
    simpl. destruct (Z.eqb_spec (mJoystickID s) id) as [Heq|Hne]; [discriminate|].
    intros Hrest. rewrite filter_cons. destruct (decide (mJoystickID s ≠ id)); [|done].
    by rewrite IH.
Qed.

(** X6: [State::onButton] sets or clears the bit of the button and no
    other bit, and reports whether the mask changed. *)
Lemma State_onButton_bit (s : State) (button : Z) (pressed : bool) (j : Z) :
  0 <= button <= MAX_BUTTON -> is_U32 (mButtons s) -> 0 <= j ->
  Z.testbit (mButtons (fst (State_onButton s button pressed))) j
    = (if j =? button then pressed else Z.testbit (mButtons s) j)
  /\ snd (State_onButton s button pressed)
     = negb (mButtons s =? mButtons (fst (State_onButton s button pressed))).
Proof.
  intros Hb Hu Hj. unfold State_onButton, MAX_BUTTON, NUM_BUTTONS in *.
  cbn [fst snd mButtons]. split; [|done].
  destruct (Z.leb_spec button (32 - 1)); [|lia].
  assert (Hbit : Z.testbit (Z.shiftl 1 button) j = (button =? j)).
  { rewrite Z.shiftl_1_l. apply Z.pow2_bits_eqb. lia. }
  destruct pressed.
  - rewrite Z.lor_spec, Hbit. rewrite (Z.eqb_sym j button).
    destruct (button =? j); [apply orb_true_r | apply orb_false_r].
  - rewrite Z.land_spec. unfold to_U32.
    destruct (Z.ltb_spec j 32) as [Hlt|Hge].
    + rewrite Z.mod_pow2_bits_low by lia. rewrite Z.lnot_spec by lia.
      rewrite Hbit, (Z.eqb_sym j button).
      destruct (button =? j); [apply andb_false_r | apply andb_true_r].
    + rewrite Z.mod_pow2_bits_high by lia. rewrite andb_false_r.
      destruct (Z.eqb_spec j button); [lia|].
      symmetry. unfold is_U32 in Hu.
      destruct (Z.eq_dec (mButtons s) 0) as [->|Hnz]; [apply Z.bits_0|].
      apply Z.bits_above_log2; [lia|].
      apply Z.log2_lt_pow2; [lia|].
      apply Z.lt_le_trans with (2 ^ 32); [lia|]. apply Z.pow_le_mono_r; lia.
Qed.

(** ** Agent control mode *)

(** C10: the string written for a mode reads back as that mode; AVATAR is
    written as the empty string; every string other than ["none"] and
    ["flycam"] reads as AVATAR, the string ["avatar"] and the empty string
    among them. *)
Theorem AgentControlMode_roundtrip :
  (forall m, convertStringToAgentControlMode (convertAgentControlModeToString m) = m)
  /\ convertAgentControlModeToString CONTROL_MODE_AVATAR = EmptyString
  /\ (forall s : string,
        s <> "none"%string -> s <> "flycam"%string ->
        convertStringToAgentControlMode s = CONTROL_MODE_AVATAR)
  /\ convertStringToAgentControlMode "avatar" = CONTROL_MODE_AVATAR
  /\ convertStringToAgentControlMode EmptyString = CONTROL_MODE_AVATAR.
Proof.
  split; [by intros []|]. split; [done|]. split; [|done].
  intros s Hn Hf. unfold convertStringToAgentControlMode.
  apply String.eqb_neq in Hn, Hf.
  unfold ENUM_AGENTCONTROLMODE_NONE, ENUM_AGENTCONTROLMODE_FLYCAM.
  by rewrite Hn, Hf.
Qed.

(** ** Merge and clamp ([computeFinalState]) *)

Section Merge.

Variables (m : LLGameControllerManager) (translate : bool).

Lemma computeFinalState_axis_step (final_state : State) (period i : Z) :
  0 <= i < Z.of_nat (length (mAxes final_state)) ->
  length (mPrevAxes final_state) = length (mAxes final_state) ->
  let r := computeFinalState_axis m translate (final_state, period) i in
  length (mAxes (fst r)) = length (mAxes final_state)
  /\ length (mPrevAxes (fst r)) = length (mPrevAxes final_state)
  /\ mButtons (fst r) = mButtons final_state
  /\ vget (mAxes (fst r)) i = finalAxis m translate i
  /\ vget (mPrevAxes (fst r)) i =
       (if axisChanged m translate final_state i then vget (mAxes final_state) i
        else vget (mPrevAxes final_state) i)
  /\ (forall j, 0 <= j -> j <> i ->
        vget (mAxes (fst r)) j = vget (mAxes final_state) j
        /\ vget (mPrevAxes (fst r)) j = vget (mPrevAxes final_state) j)
  /\ snd r = (if axisChanged m translate final_state i then 0 else period).
Proof.
  intros Hi Hlen. unfold computeFinalState_axis, axisChanged. simpl.
  destruct (Z.eqb_spec (vget (mAxes final_state) i) (finalAxis m translate i))
    as [Heq|Hne]; simpl.
  - repeat split; done.
  - rewrite !length_vset. repeat split; try done.
    + apply vget_vset_eq. lia.
    + apply vget_vset_eq. lia.
    + apply vget_vset_ne; lia.
    + apply vget_vset_ne; lia.
Qed.

Lemma computeFinalState_axis_fold (indices : list Z) :
  forall (final_state : State) (period : Z),
  NoDup indices ->
  Forall (fun i => 0 <= i < Z.of_nat (length (mAxes final_state))) indices ->
  length (mPrevAxes final_state) = length (mAxes final_state) ->
  let r := fold_left (computeFinalState_axis m translate) indices (final_state, period) in
  length (mAxes (fst r)) = length (mAxes final_state)
  /\ length (mPrevAxes (fst r)) = length (mPrevAxes final_state)
  /\ mButtons (fst r) = mButtons final_state
  /\ (forall j, 0 <= j ->
        vget (mAxes (fst r)) j =
          if bool_decide (j ∈ indices) then finalAxis m translate j
          else vget (mAxes final_state) j)
  /\ (forall j, 0 <= j ->
        vget (mPrevAxes (fst r)) j =
          if bool_decide (j ∈ indices) && axisChanged m translate final_state j
          then vget (mAxes final_state) j
          else vget (mPrevAxes final_state) j)
  /\ snd r = (if existsb (axisChanged m translate final_state) indices then 0 else period).
Proof.
  induction indices as [|i rest IH]; intros fs p Hnd Hall Hlen; simpl.
  - repeat split; done.
  - apply NoDup_cons in Hnd as [Hnotin Hnd].
    apply Forall_cons in Hall as [Hi Hall].
    destruct (computeFinalState_axis_step fs p i Hi Hlen)
      as (La & Lp & Hb & Hai & Hpi & Hother & Hper).
    destruct (computeFinalState_axis m translate (fs, p) i) as [fs1 p1] eqn:Hstep.
    simpl in La, Lp, Hb, Hai, Hpi, Hother, Hper.
    assert (Hall1 : Forall (fun i => 0 <= i < Z.of_nat (length (mAxes fs1))) rest)
      by (by rewrite La).
    assert (Hlen1 : length (mPrevAxes fs1) = length (mAxes fs1)) by congruence.
    destruct (IH fs1 p1 Hnd Hall1 Hlen1) as (La' & Lp' & Hb' & Ha' & Hp' & Hper').
    assert (Hsame : forall j, j ∈ rest ->
              axisChanged m translate fs1 j = axisChanged m translate fs j).
    { intros j Hj. unfold axisChanged.
      assert (j <> i) by (intros ->; done).
      rewrite Forall_forall in Hall. destruct (Hall j Hj) as [Hj0 _].
      by destruct (Hother j Hj0 H) as [-> _]. }
    split; [congruence|]. split; [congruence|]. split; [congruence|].
    split; [|split].
    + intros j Hj. rewrite (Ha' j Hj).
      destruct (decide (j = i)) as [->|Hne].
      * rewrite (bool_decide_eq_false_2 _ Hnotin).
        rewrite bool_decide_eq_true_2 by apply list_elem_of_here. done.
      * destruct (Hother j Hj Hne) as [-> _].
        destruct (decide (j ∈ rest)) as [Hin|Hout].
        -- rewrite !bool_decide_eq_true_2; [done| by apply list_elem_of_further | done].
        -- rewrite !bool_decide_eq_false_2; [done| | done].
           intros Hc. apply elem_of_cons in Hc as [?|?]; done.
    + intros j Hj. rewrite (Hp' j Hj).
      destruct (decide (j = i)) as [->|Hne].
      * rewrite (bool_decide_eq_false_2 _ Hnotin). simpl.
        rewrite bool_decide_eq_true_2 by apply list_elem_of_here. simpl. done.
      * destruct (Hother j Hj Hne) as [Hao Hpo]. rewrite Hao, Hpo.
        destruct (decide (j ∈ rest)) as [Hin|Hout].
        -- rewrite (Hsame j Hin).
           rewrite !bool_decide_eq_true_2; [done| by apply list_elem_of_further | done].
        -- rewrite !bool_decide_eq_false_2; [done| | done].
           intros Hc. apply elem_of_cons in Hc as [?|?]; done.
    + rewrite Hper', Hper.
      assert (Hex : existsb (axisChanged m translate fs1) rest
                    = existsb (axisChanged m translate fs) rest).
      { clear -Hsame. induction rest as [|k rest IH]; simpl; [done|].
        rewrite Hsame by apply list_elem_of_here. f_equal.
        apply IH. intros j Hj. apply Hsame. by apply list_elem_of_further. }
      rewrite Hex. destruct (axisChanged m translate fs i); simpl; [|done].
      by destruct (existsb (axisChanged m translate fs) rest).
Qed.

Lemma axis_indices_NoDup : NoDup axis_indices.
Proof. apply (bool_decide_unpack _). by vm_compute. Qed.

Lemma axis_indices_elem (i : Z) : i ∈ axis_indices <-> 0 <= i < NUM_AXES.
Proof.
  unfold axis_indices, NUM_AXES. simpl. rewrite !elem_of_cons, elem_of_nil. lia.
Qed.

Lemma axis_indices_range (n : nat) :
  n = Z.to_nat NUM_AXES -> Forall (fun i => 0 <= i < Z.of_nat n) axis_indices.
Proof.
  intros ->. apply Forall_forall. intros i Hi%axis_indices_elem.
  unfold NUM_AXES in *. lia.
Qed.

Lemma computeFinalState_spec (final_state : State) (period : Z) :
  length (mAxes final_state) = Z.to_nat NUM_AXES ->
  length (mPrevAxes final_state) = Z.to_nat NUM_AXES ->
  let r := computeFinalState m translate final_state period in
  length (mAxes (fst r)) = Z.to_nat NUM_AXES
  /\ length (mPrevAxes (fst r)) = Z.to_nat NUM_AXES
  /\ mButtons (fst r) = finalButtons m translate
  /\ (forall j, 0 <= j < NUM_AXES -> vget (mAxes (fst r)) j = finalAxis m translate j)
  /\ (forall j, 0 <= j < NUM_AXES ->
        vget (mPrevAxes (fst r)) j =
          if axisChanged m translate final_state j then vget (mAxes final_state) j
          else vget (mPrevAxes final_state) j)
  /\ snd r =
       (if negb (mButtons final_state =? finalButtons m translate)
           || existsb (axisChanged m translate final_state) axis_indices
        then 0 else period).
Proof.
  intros La Lp. unfold computeFinalState. fold (finalButtons m translate).
  set (fs := set_mButtons final_state (finalButtons m translate)).
  set (p := if negb (mButtons final_state =? finalButtons m translate)
            then 0 else period).
  destruct (computeFinalState_axis_fold axis_indices fs p axis_indices_NoDup)
    as (La' & Lp' & Hb & Ha & Hp & Hper).
  { apply axis_indices_range. done. }
  { change (length (mPrevAxes final_state) = length (mAxes final_state)). congruence. }
  change (mAxes fs) with (mAxes final_state) in *.
  change (mPrevAxes fs) with (mPrevAxes final_state) in *.
  change (mButtons fs) with (finalButtons m translate) in Hb.
  cbv zeta.
  split; [congruence|]. split; [congruence|]. split; [done|].
  split; [|split].
  - intros j Hj. rewrite Ha by lia.
    rewrite bool_decide_eq_true_2; [done|]. by apply axis_indices_elem.
  - intros j Hj. rewrite Hp by lia.
    rewrite bool_decide_eq_true_2 by (by apply axis_indices_elem). done.
  - rewrite Hper. unfold p.
    change (existsb (axisChanged m translate fs))
      with (existsb (axisChanged m translate final_state)).
    destruct (negb (mButtons final_state =? finalButtons m translate)); cbn [orb]; [|done].
    by destruct (existsb _ _).
Qed.

(** A merge that finds nothing changed leaves the published state and the
    resend period as they are. *)
Lemma computeFinalState_stable (final_state : State) (period : Z) :
  mButtons final_state = finalButtons m translate ->
  (forall i, 0 <= i < NUM_AXES -> vget (mAxes final_state) i = finalAxis m translate i) ->
  computeFinalState m translate final_state period = (final_state, period).
Proof.
  intros Hb Ha. unfold computeFinalState. fold (finalButtons m translate).
  rewrite <- Hb, Z.eqb_refl. cbn [negb].
  replace (set_mButtons final_state (mButtons final_state)) with final_state
    by (by destruct final_state).
  assert (Hall : Forall (fun i => 0 <= i < NUM_AXES) axis_indices).
  { apply Forall_forall. intros i. apply axis_indices_elem. }
  induction Hall as [|i rest Hi _ IH]; cbn [fold_left]; [done|].
  unfold computeFinalState_axis at 2. cbn [fst snd].
  rewrite (Ha i Hi), Z.eqb_refl. cbn [negb]. apply IH.
Qed.

(** C4: the published button mask is the device mask, the external buttons
    OR'ed in exactly when the translate flag is set; when it differs from the
    mask published before, the resend period is set to 0. *)
Theorem computeFinalState_buttons (final_state : State) (period : Z) :
  length (mAxes final_state) = Z.to_nat NUM_AXES ->
  length (mPrevAxes final_state) = Z.to_nat NUM_AXES ->
  let r := computeFinalState m translate final_state period in
  mButtons (fst r) =
    (if translate then Z.lor (mButtonAccumulator m) (mButtons (mExternalState m))
     else mButtonAccumulator m)
  /\ (mButtons (fst r) <> mButtons final_state -> snd r = 0).
Proof.
  intros La Lp.
  destruct (computeFinalState_spec final_state period La Lp) as (_ & _ & Hb & _ & _ & Hper).
  cbv zeta. split; [exact Hb|]. rewrite Hb, Hper. intros Hne.
  destruct (Z.eqb_spec (mButtons final_state) (finalButtons m translate)); [congruence|done].
Qed.

(** C5: every published axis is the accumulated device value, the external
    value added when the translate flag is set, clamped to [-32768, 32767]:
    a sum in that range is published as it is, a sum below it as [-32768]
    and a sum above it as [32767]. *)
Theorem computeFinalState_axis_clamped (final_state : State) (period i : Z) :
  length (mAxes final_state) = Z.to_nat NUM_AXES ->
  length (mPrevAxes final_state) = Z.to_nat NUM_AXES ->
  0 <= i < NUM_AXES ->
  let sum := vget (mAxesAccumulator m) i
             + (if translate then vget (mAxes (mExternalState m)) i else 0) in
  is_S32 sum ->
  let v := vget (mAxes (fst (computeFinalState m translate final_state period))) i in
  v = Z.min (Z.max sum (-32768)) 32767
  /\ (is_S16 sum -> v = sum)
  /\ (sum < -32768 -> v = -32768)
  /\ (32767 < sum -> v = 32767).
Proof.
  intros La Lp Hi sum Hsum v.
  destruct (computeFinalState_spec final_state period La Lp) as (_ & _ & _ & Ha & _).
  assert (Hv : v = Z.min (Z.max sum (-32768)) 32767).
  { unfold v. rewrite (Ha i Hi). unfold finalAxis. rewrite clampAxis_spec.
    unfold sum in *. destruct translate.
    - by rewrite to_S32_id.
    - by rewrite Z.add_0_r. }
  unfold is_S16, S16_MIN, S16_MAX. repeat split; try lia.
Qed.

End Merge.

(** ** Accumulation ([accumulateInternalState]) *)

Lemma to_S32_add_l (x y : Z) : to_S32 (to_S32 x + y) = to_S32 (x + y).
Proof.
  unfold to_S32, wrap_signed. f_equal.
  replace ((x + 2 ^ (32 - 1)) mod 2 ^ 32 - 2 ^ (32 - 1) + y + 2 ^ (32 - 1))
    with ((x + 2 ^ (32 - 1)) mod 2 ^ 32 + y) by lia.
  rewrite Zplus_mod_idemp_l. f_equal. lia.
Qed.

Lemma vget_vset (v : list Z) (i j x : Z) :
  0 <= i -> 0 <= j ->
  vget (vset v i x) j
  = if (i =? j) && (i <? Z.of_nat (length v)) then x else vget v j.
Proof.
  intros Hi Hj. destruct (Z.eqb_spec i j) as [<-|Hne]; cbn [andb].
  - destruct (Z.ltb_spec i (Z.of_nat (length v))).
    + apply vget_vset_eq. lia.
    + unfold vset. rewrite list_insert_ge; [done|lia].
  - by apply vget_vset_ne.
Qed.

Lemma fold_vset_spec (g : Z -> Z -> Z) (indices : list Z) :
  forall axes : list Z,
  NoDup indices -> Forall (fun i => 0 <= i) indices ->
  let r := fold_left (fun axes i => vset axes i (g (vget axes i) i)) indices axes in
  length r = length axes
  /\ forall j, 0 <= j ->
       vget r j = if bool_decide (j ∈ indices) && (j <? Z.of_nat (length axes))
                  then g (vget axes j) j else vget axes j.
Proof.
  induction indices as [|i rest IH]; intros axes Hnd Hpos; cbn [fold_left].
  - split; [done|]. intros j _. by rewrite bool_decide_eq_false_2 by apply not_elem_of_nil.
  - apply NoDup_cons in Hnd as [Hnotin Hnd]. apply Forall_cons in Hpos as [Hi Hpos].
    destruct (IH (vset axes i (g (vget axes i) i)) Hnd Hpos) as [Hlen Hget].
    rewrite length_vset in Hlen, Hget. split; [exact Hlen|].
    intros j Hj. rewrite (Hget j Hj), vget_vset by lia.
    destruct (decide (j = i)) as [->|Hne].
    + rewrite (bool_decide_eq_false_2 _ Hnotin), Z.eqb_refl.
      rewrite bool_decide_eq_true_2 by apply list_elem_of_here. done.
    + destruct (Z.eqb_spec i j); [congruence|]. cbn [andb].
      destruct (decide (j ∈ rest)) as [Hin|Hout].
      * rewrite !bool_decide_eq_true_2; [|by apply list_elem_of_further|done].
        done.
      * rewrite !bool_decide_eq_false_2; [done| |done].
        intros [?|?]%elem_of_cons; done.
Qed.

Lemma addAxes_spec (axes : list Z) (state : State) :
  length (addAxes axes state) = length axes
  /\ forall j, 0 <= j ->
       vget (addAxes axes state) j
       = if (j <? NUM_AXES) && (j <? Z.of_nat (length axes))
         then to_S32 (vget axes j + vget (mAxes state) j) else vget axes j.
Proof.
  destruct (fold_vset_spec (fun a i => to_S32 (a + vget (mAxes state) i))
              axis_indices axes axis_indices_NoDup) as [Hlen Hget].
  { apply Forall_forall. intros i Hi%axis_indices_elem. lia. }
  split; [exact Hlen|]. intros j Hj. unfold addAxes. rewrite (Hget j Hj).
  destruct (Z.ltb_spec j NUM_AXES).
  - rewrite bool_decide_eq_true_2; [done|]. apply axis_indices_elem. lia.
  - rewrite bool_decide_eq_false_2; [done|]. rewrite axis_indices_elem. lia.
Qed.

Lemma vget_ext (l1 l2 : list Z) :
  length l1 = length l2 -> (forall j, 0 <= j -> vget l1 j = vget l2 j) -> l1 = l2.
Proof.
  intros Hlen Hget. apply (nth_ext l1 l2 0 0 Hlen). intros n _.
  specialize (Hget (Z.of_nat n) ltac:(lia)). unfold vget in Hget.
  by rewrite Nat2Z.id in Hget.
Qed.

Lemma addAxes_comm (axes : list Z) (s1 s2 : State) :
  addAxes (addAxes axes s1) s2 = addAxes (addAxes axes s2) s1.
Proof.
  destruct (addAxes_spec axes s1) as [L1 G1], (addAxes_spec axes s2) as [L2 G2].
  destruct (addAxes_spec (addAxes axes s1) s2) as [L12 G12].
  destruct (addAxes_spec (addAxes axes s2) s1) as [L21 G21].
  apply vget_ext; [congruence|]. intros j Hj.
  rewrite (G12 j Hj), (G21 j Hj), (G1 j Hj), (G2 j Hj), L1, L2.
  destruct ((j <? NUM_AXES) && (j <? Z.of_nat (length axes))); [|done].
  rewrite !to_S32_add_l. f_equal. lia.
Qed.

Lemma map_const_replicate (l : list Z) (c : Z) :
  map (fun _ => c) l = replicate (length l) c.
Proof. induction l as [|x l IH]; [done|]. simpl. by rewrite IH. Qed.

(** X1: the accumulated axis sums and button mask do not depend on the
    order of the devices. *)
Lemma accumulateInternalState_permutation (m m' : LLGameControllerManager) :
  Permutation (mStates m) (mStates m') ->
  length (mAxesAccumulator m) = length (mAxesAccumulator m') ->
  mAxesAccumulator (accumulateInternalState m)
    = mAxesAccumulator (accumulateInternalState m')
  /\ mButtonAccumulator (accumulateInternalState m)
     = mButtonAccumulator (accumulateInternalState m').
Proof.
  intros Hperm Hlen. unfold accumulateInternalState.
  cbn [set_accumulators mAxesAccumulator mButtonAccumulator].
  set (step := fun (acc : list Z * Z) (state : State) =>
                 (addAxes (fst acc) state, Z.lor (snd acc) (mButtons state))).
  assert (Hinit : map (fun _ : Z => 0) (mAxesAccumulator m)
                  = map (fun _ : Z => 0) (mAxesAccumulator m'))
    by (by rewrite !map_const_replicate, Hlen).
  rewrite <- Hinit. generalize (map (fun _ : Z => 0) (mAxesAccumulator m), 0).
  assert (Hfold : forall init, fold_left step (mStates m) init
                               = fold_left step (mStates m') init).
  { induction Hperm as [|s l l' _ IH|s1 s2 l|l1 l2 l3 _ IH1 _ IH2]; intros init.
    - done.
    - cbn [fold_left]. apply IH.
    - cbn [fold_left]. f_equal. unfold step. cbn [fst snd].
      rewrite addAxes_comm. f_equal. rewrite <- !Z.lor_assoc. f_equal. apply Z.lor_comm.
    - by rewrite IH1, IH2. }
  intros init. by rewrite Hfold.
Qed.

(** ** Resend scheduling ([updateResendPeriod]) *)

(** C3: a send that finds the resend period at 0 sets it to the base
    interval of 100 ms, a send that finds it non-zero multiplies it by 10
    (in [U64]), so that three sends in a row starting from 0 leave 100 ms,
    1000 ms and 10000 ms (in nanoseconds); a merge that finds nothing
    changed keeps the period, and a merge that finds the button mask or a
    clamped axis changed sets it to 0 whatever it was. *)
Theorem resend_backoff (g : Globals) (now1 now2 now3 : Z) :
  g_nextResendPeriod g = 0 ->
  let g1 := updateResendPeriod g now1 in
  let g2 := updateResendPeriod g1 now2 in
  let g3 := updateResendPeriod g2 now3 in
  g_nextResendPeriod g1 = 100 * 1000000
  /\ g_nextResendPeriod g2 = 1000 * 1000000
  /\ g_nextResendPeriod g3 = 10000 * 1000000
  /\ (forall g' now, g_nextResendPeriod g' <> 0 ->
        g_nextResendPeriod (updateResendPeriod g' now)
        = (g_nextResendPeriod g' * 10) mod 2 ^ 64)
  /\ (forall m translate final_state period,
        mButtons final_state = finalButtons m translate ->
        (forall i, 0 <= i < NUM_AXES ->
           vget (mAxes final_state) i = finalAxis m translate i) ->
        snd (computeFinalState m translate final_state period) = period)
  /\ (forall m translate final_state period,
        length (mAxes final_state) = Z.to_nat NUM_AXES ->
        length (mPrevAxes final_state) = Z.to_nat NUM_AXES ->
        (mButtons final_state <> finalButtons m translate
         \/ exists i, 0 <= i < NUM_AXES
                      /\ vget (mAxes final_state) i <> finalAxis m translate i) ->
        snd (computeFinalState m translate final_state period) = 0).
Proof.
  intros Hp. cbv zeta.
  assert (H1 : g_nextResendPeriod (updateResendPeriod g now1) = 100000000).
  { unfold updateResendPeriod. rewrite Hp. reflexivity. }
  assert (H2 : g_nextResendPeriod
                 (updateResendPeriod (updateResendPeriod g now1) now2) = 1000000000).
  { unfold updateResendPeriod at 1. rewrite H1. reflexivity. }
  split; [exact H1|]. split; [exact H2|]. split; [|split; [|split]].
  - unfold updateResendPeriod at 1. rewrite H2. reflexivity.
  - intros g' now Hne. unfold updateResendPeriod.
    destruct (Z.eqb_spec (g_nextResendPeriod g') 0); [done|]. reflexivity.
  - intros m translate fs period Hb Ha. by rewrite computeFinalState_stable.
  - intros m translate fs period La Lp Hchange.
    destruct (computeFinalState_spec m translate fs period La Lp)
      as (_ & _ & _ & _ & _ & ->).
    destruct Hchange as [Hb|(i & Hi & Hne)].
    + destruct (Z.eqb_spec (mButtons fs) (finalButtons m translate)); [done|done].
    + assert (Hex : existsb (axisChanged m translate fs) axis_indices = true).
      { apply existsb_exists. exists i. split.
        - apply list_elem_of_In. by apply axis_indices_elem.
        - unfold axisChanged.
          by destruct (Z.eqb_spec (vget (mAxes fs) i) (finalAxis m translate i)). }
      rewrite Hex. by rewrite orb_true_r.
Qed.

(** C2: when a merge changes the clamped value of axis [i], the resend period
    is 0 at the first send, and after that send [prevAxes] still holds for
    [i] the value published before the change; the next merge changes
    nothing, the period is not 0 at the second send, and after it [prevAxes]
    equals the current axes. *)
Theorem prevAxes_change_send_resend (g : Globals) (i now1 now2 : Z) :
  length (mAxes (g_finalState g)) = Z.to_nat NUM_AXES ->
  length (mPrevAxes (g_finalState g)) = Z.to_nat NUM_AXES ->
  0 <= i < NUM_AXES ->
  vget (mAxes (g_finalState g)) i
    <> finalAxis (g_manager g) (g_translateAgentActions g) i ->
  let changed := fst (computeFinalStateAndCheckForChanges g now1) in
  let sent1 := updateResendPeriod changed now1 in
  let unchanged := fst (computeFinalStateAndCheckForChanges sent1 now2) in
  let sent2 := updateResendPeriod unchanged now2 in
  g_nextResendPeriod changed = 0
  /\ vget (mAxes (g_finalState sent1)) i
     = finalAxis (g_manager g) (g_translateAgentActions g) i
  /\ vget (mPrevAxes (g_finalState sent1)) i = vget (mAxes (g_finalState g)) i
  /\ g_finalState unchanged = g_finalState sent1
  /\ g_nextResendPeriod unchanged = FIRST_RESEND_PERIOD
  /\ mPrevAxes (g_finalState sent2) = mAxes (g_finalState sent2)
  /\ mAxes (g_finalState sent2) = mAxes (g_finalState changed).
Proof.
  intros La Lp Hi Hne. cbv zeta.
  destruct (computeFinalState_spec (g_manager g) (g_translateAgentActions g)
              (g_finalState g) (g_nextResendPeriod g) La Lp)
    as (La' & Lp' & Hb & Ha & Hpv & Hper).
  set (r := computeFinalState (g_manager g) (g_translateAgentActions g)
              (g_finalState g) (g_nextResendPeriod g)) in *.
  change (fst (computeFinalStateAndCheckForChanges g now1))
    with (set_final g (fst r) (snd r)).
  assert (Hch : axisChanged (g_manager g) (g_translateAgentActions g) (g_finalState g) i = true).
  { unfold axisChanged.
    by destruct (Z.eqb_spec (vget (mAxes (g_finalState g)) i)
                  (finalAxis (g_manager g) (g_translateAgentActions g) i)). }
  assert (Hzero : snd r = 0).
  { rewrite Hper. replace (existsb _ axis_indices) with true; [by rewrite orb_true_r|].
    symmetry. apply existsb_exists. exists i. split; [|done].
    apply list_elem_of_In. by apply axis_indices_elem. }
  assert (Hsent1 : updateResendPeriod (set_final g (fst r) (snd r)) now1
                   = mkGlobals (g_manager g) (fst r) now1 FIRST_RESEND_PERIOD
                       (g_sendToServer g) (g_controlAgent g)
                       (g_translateAgentActions g) (g_agentControlMode g)).
  { unfold updateResendPeriod, set_final.
    cbn [g_nextResendPeriod g_finalState g_manager g_translateAgentActions
         g_sendToServer g_controlAgent g_agentControlMode].
    rewrite Hzero. reflexivity. }
  rewrite Hsent1. unfold computeFinalStateAndCheckForChanges.
  cbn [fst g_nextResendPeriod g_finalState g_manager g_translateAgentActions
       g_sendToServer g_controlAgent g_agentControlMode].
  rewrite (computeFinalState_stable _ _ (fst r) FIRST_RESEND_PERIOD Hb Ha).
  unfold set_final, updateResendPeriod.
  cbn [fst snd g_nextResendPeriod g_finalState g_manager g_translateAgentActions
       g_sendToServer g_controlAgent g_agentControlMode].
  change (FIRST_RESEND_PERIOD =? 0) with false. cbv iota.
  cbn [g_nextResendPeriod g_finalState mAxes mPrevAxes].
  split; [exact Hzero|]. split; [by apply Ha|]. split; [by rewrite Hpv, Hch|].
  split; [reflexivity|]. split; reflexivity || (split; reflexivity).
Qed.


(** ** Channel names ([getChannelByName]) *)

Lemma digit_of_inv (d : ascii) (n : Z) : digit_of d = Some n -> In (d, n) digit_table.
Proof.
  destruct d as [[] [] [] [] [] [] [] []]; vm_compute; intros H;
    try discriminate; injection H as <-; tauto.
Qed.

Lemma strncmp_eq_prefix (name p : string) :
  nul_free p = true ->
  strncmp_eq name p (String.length p) = String.prefix p name.
Proof.
  revert name. induction p as [|b p IH]; intros name Hp.
  - by destruct name.
  - cbn [nul_free] in Hp. apply andb_true_iff in Hp as [Hb Hp].
    apply negb_true_iff in Hb.
    destruct name as [|a name];
      cbn [strncmp_eq c_front c_rest String.length String.prefix].
    + by rewrite Ascii.eqb_sym, Hb.
    + destruct (Ascii.eqb_spec a b) as [->|Hne].
      * rewrite Hb, (IH name Hp). by destruct (ascii_dec b b).
      * by destruct (ascii_dec b a) as [->|].
Qed.

Lemma prefix_length (p name : string) :
  String.prefix p name = true -> (String.length p <= String.length name)%nat.
Proof.
  revert name. induction p as [|b p IH]; intros [|a name]; simpl; try lia; try done.
  destruct (ascii_dec b a); [|done]. intros H%IH. lia.
Qed.

Lemma digit_of_range (c : ascii) (d : Z) : digit_of c = Some d -> 0 <= d <= 9.
Proof.
  unfold digit_of.
  destruct (Z.leb_spec 48 (Z.of_nat (nat_of_ascii c))),
    (Z.leb_spec (Z.of_nat (nat_of_ascii c)) 57); cbn [andb]; intros [= <-]; lia.
Qed.

Lemma atoi_digits_one (b : ascii) (acc : Z) :
  atoi_digits (String b EmptyString) acc
  = match digit_of b with Some d => 10 * acc + d | None => acc end.
Proof. cbn [atoi_digits]. by destruct (digit_of b). Qed.

Lemma atoi_cons (a : ascii) (rest : string) :
  atoi (String a rest)
  = match digit_of a with
    | Some d => atoi_digits rest d
    | None =>
        if isspace a then atoi rest
        else if Ascii.eqb a "+" then atoi_digits rest 0
        else if Ascii.eqb a "-" then - atoi_digits rest 0
        else 0
    end.
Proof. destruct a as [[] [] [] [] [] [] [] []]; reflexivity. Qed.

Lemma atoi_one (b : ascii) : atoi (String b EmptyString) = default 0 (digit_of b).
Proof. destruct b as [[] [] [] [] [] [] [] []]; reflexivity. Qed.

Lemma atoi_charsRead (c1 c2 : option ascii) :
  to_U8 (atoi (charsRead c1 c2)) = indexRead c1 c2.
Proof.
  assert (Hsmall : forall x, 0 <= x <= 99 -> to_U8 x = x).
  { intros x Hx. unfold to_U8. apply Z.mod_small. lia. }
  destruct c1 as [a|]; [|reflexivity]. unfold charsRead, indexRead.
  rewrite atoi_cons.
  destruct (digit_of a) as [d1|] eqn:Ea.
  - apply digit_of_range in Ea. destruct c2 as [b|]; cbn [mbind option_bind].
    + rewrite atoi_digits_one. destruct (digit_of b) as [d2|] eqn:Eb.
      * apply digit_of_range in Eb. apply Hsmall. lia.
      * apply Hsmall. lia.
    + cbn [atoi_digits]. apply Hsmall. lia.
  - assert (Hd : forall d, to_U8 (default 0 d) = default 0 d
                            \/ True) by (by right).
    clear Hd.
    assert (Hdigit : 0 <= default 0 (c2 ≫= digit_of) <= 9).
    { destruct c2 as [b|]; cbn [mbind option_bind]; [|simpl; lia].
      destruct (digit_of b) as [d2|] eqn:Eb; [|simpl; lia].
      apply digit_of_range in Eb. simpl. lia. }
    assert (Hone : atoi_digits
                     (match c2 with None => EmptyString | Some b => String b EmptyString end) 0
                   = default 0 (c2 ≫= digit_of)).
    { destruct c2 as [b|]; [|reflexivity]. rewrite atoi_digits_one.
      cbn [mbind option_bind]. by destruct (digit_of b). }
    assert (Hatoi : atoi (match c2 with None => EmptyString | Some b => String b EmptyString end)
                    = default 0 (c2 ≫= digit_of)).
    { destruct c2 as [b|]; [apply atoi_one|reflexivity]. }
    destruct (isspace a); cbn [orb].
    + rewrite Hatoi. apply Hsmall. lia.
    + destruct (Ascii.eqb a "+").
      * rewrite Hone. apply Hsmall. lia.
      * destruct (Ascii.eqb a "-"); [by rewrite Hone|reflexivity].
Qed.

Lemma substring_chars (n : nat) (s : string) :
  substring n 1 s = charsRead (String.get n s) None
  /\ substring n 2 s = charsRead (String.get n s) (String.get (S n) s).
Proof.
  revert n. induction s as [|x s IH]; intros n.
  - by destruct n.
  - destruct n as [|n]; [|apply IH].
    cbn [substring String.get charsRead]. split; [by destruct s|].
    destruct s as [|y s]; [done|]. cbn [substring String.get]. by destruct s.
Qed.

Lemma back_spec (name : string) (c : ascii) :
  c <> Ascii.zero ->
  Ascii.eqb (back name) c = true <-> exists s, name = String.append s (String c EmptyString).
Proof.
  intros Hc. induction name as [|x name IH].
  - cbn [back]. split.
    + intros H%Ascii.eqb_eq. congruence.
    + intros [[|y s] H]; discriminate H.
  - destruct name as [|y name].
    + cbn [back]. split.
      * intros ->%Ascii.eqb_eq. by exists EmptyString.
      * intros [[|z [|w s]] H]; try discriminate H.
        injection H as ->. apply Ascii.eqb_refl.
    + change (back (String x (String y name))) with (back (String y name)).
      rewrite IH. split.
      * intros [s ->]. by exists (String x s).
      * intros [[|z s] H]; [discriminate H|].
        injection H as -> H. by exists s.
Qed.

(** C6 (as amended): [AXIS_<digit>] with an optional trailing [+] or [-]
    parses to the axis channel of that digit, negative only with [-];
    [BUTTON_] followed by one or two digits parses to the button channel of
    that number; a name that starts with neither ["AXIS_"] nor ["BUTTON_"]
    parses to a channel of type NONE; a name that starts with ["AXIS_"] (or
    ["BUTTON_"]) parses to an axis (or button) channel whatever follows the
    prefix, and is long enough for the [substr] and [back] calls made on it.
    For every name that starts with ["AXIS_"] the index is the digit that
    follows the prefix, 0 when no digit follows, and the sign is [-1] exactly
    when the last character of the name is [-], and [+1] otherwise.  For
    every name that starts with ["BUTTON_"] the sign is the default one and
    the index is the number read from the two characters after the prefix,
    0 when neither of them is a digit. *)
Theorem getChannelByName_spec :
  (forall d n, digit_of d = Some n ->
     getChannelByName (String.append "AXIS_" (String d EmptyString))
       = mkChannel TYPE_AXIS n 1
     /\ getChannelByName (String.append "AXIS_" (String d "+"))
       = mkChannel TYPE_AXIS n 1
     /\ getChannelByName (String.append "AXIS_" (String d "-"))
       = mkChannel TYPE_AXIS n (-1))
  /\ (forall d n, digit_of d = Some n ->
        getChannelByName (String.append "BUTTON_" (String d EmptyString))
        = InputChannel_new2 TYPE_BUTTON n)
  /\ (forall d1 d2 n1 n2, digit_of d1 = Some n1 -> digit_of d2 = Some n2 ->
        getChannelByName (String.append "BUTTON_" (String d1 (String d2 EmptyString)))
        = InputChannel_new2 TYPE_BUTTON (10 * n1 + n2))
  /\ (forall name,
        String.prefix "AXIS_" name = false -> String.prefix "BUTTON_" name = false ->
        getChannelByName name = InputChannel_new
        /\ isNone (getChannelByName name) = true)
  /\ (forall name,
        String.prefix "AXIS_" name = true ->
        mType (getChannelByName name) = TYPE_AXIS /\ (5 <= String.length name)%nat)
  /\ (forall name,
        String.prefix "BUTTON_" name = true ->
        mType (getChannelByName name) = TYPE_BUTTON /\ (7 <= String.length name)%nat)
  /\ (forall name,
        String.prefix "AXIS_" name = true ->
        let channel := getChannelByName name in
        mIndex channel = indexRead (String.get 5 name) None
        /\ (String.get 5 name ≫= digit_of = None -> mIndex channel = 0)
        /\ (forall n, String.get 5 name ≫= digit_of = Some n -> mIndex channel = n)
        /\ (mSign channel = -1 \/ mSign channel = 1)
        /\ (mSign channel = -1 <-> exists s, name = String.append s "-"))
  /\ (forall name,
        String.prefix "BUTTON_" name = true ->
        let channel := getChannelByName name in
        mSign channel = default_mSign
        /\ mIndex channel = indexRead (String.get 7 name) (String.get 8 name)
        /\ (String.get 7 name ≫= digit_of = None ->
            String.get 8 name ≫= digit_of = None -> mIndex channel = 0)).
Proof.
  split; [|split; [|split; [|split; [|split; [|split; [|split]]]]]].
  - intros d n Hd%digit_of_inv.
    repeat (destruct Hd as [Hd|Hd]; [injection Hd as <- <-; by vm_compute|]).
    destruct Hd.
  - intros d n Hd%digit_of_inv.
    repeat (destruct Hd as [Hd|Hd]; [injection Hd as <- <-; by vm_compute|]).
    destruct Hd.
  - intros d1 d2 n1 n2 Hd1%digit_of_inv Hd2%digit_of_inv.
    repeat (destruct Hd1 as [Hd1|Hd1];
            [injection Hd1 as <- <-;
             repeat (destruct Hd2 as [Hd2|Hd2]; [injection Hd2 as <- <-; by vm_compute|]);
             destruct Hd2|]).
    destruct Hd1.
  - intros name Ha Hb. unfold getChannelByName.
    change 5%nat with (String.length "AXIS_").
    change 7%nat with (String.length "BUTTON_").
    rewrite !strncmp_eq_prefix, Ha, Hb by reflexivity. done.
  - intros name Ha. split; [|by apply prefix_length in Ha].
    unfold getChannelByName. change 5%nat with (String.length "AXIS_").
    by rewrite strncmp_eq_prefix, Ha by reflexivity.
  - intros name Hb. split; [|by apply prefix_length in Hb].
    unfold getChannelByName.
    change 5%nat with (String.length "AXIS_").
    change 7%nat with (String.length "BUTTON_").
    rewrite !strncmp_eq_prefix, Hb by reflexivity.
    by destruct (String.prefix "AXIS_" name) eqn:Ha;
      [destruct name as [|[[] [] [] [] [] [] [] []] name]; simpl in Ha, Hb; try done|].
  - intros name Ha channel.
    assert (Hch : channel
                  = mkChannel TYPE_AXIS (indexRead (String.get 5 name) None)
                      (if Ascii.eqb (back name) "-" then -1 else 1)).
    { pose proof (strncmp_eq_prefix name "AXIS_" eq_refl) as Hp.
      change (String.length "AXIS_") with 5%nat in Hp.
      unfold channel, getChannelByName. rewrite Hp, Ha.
      by rewrite (proj1 (substring_chars 5 name)), atoi_charsRead. }
    rewrite Hch. cbn [mIndex mSign].
    split; [done|]. split; [|split; [|split]].
    + unfold indexRead. destruct (String.get 5 name) as [a|]; [|done].
      cbn [mbind option_bind]. intros ->.
      destruct (isspace a || Ascii.eqb a "+"); [done|]. by destruct (Ascii.eqb a "-").
    + unfold indexRead. destruct (String.get 5 name) as [a|]; [|done].
      cbn [mbind option_bind]. by intros n ->.
    + destruct (Ascii.eqb (back name) "-"); [by left|by right].
    + rewrite <- (back_spec name "-") by done.
      by destruct (Ascii.eqb (back name) "-").
  - intros name Hb channel.
    assert (Hch : channel
                  = mkChannel TYPE_BUTTON
                      (indexRead (String.get 7 name) (String.get 8 name)) default_mSign).
    { pose proof (strncmp_eq_prefix name "AXIS_" eq_refl) as Hpa.
      pose proof (strncmp_eq_prefix name "BUTTON_" eq_refl) as Hpb.
      change (String.length "AXIS_") with 5%nat in Hpa.
      change (String.length "BUTTON_") with 7%nat in Hpb.
      unfold channel, getChannelByName. rewrite Hpa, Hpb, Hb.
      replace (String.prefix "AXIS_" name) with false.
      - by rewrite (proj2 (substring_chars 7 name)), atoi_charsRead.
      - by destruct name as [|[[] [] [] [] [] [] [] []] name]; simpl in Hb |- *. }
    rewrite Hch. cbn [mIndex mSign]. split; [done|]. split; [done|].
    unfold indexRead. destruct (String.get 7 name) as [a|]; [|done].
    cbn [mbind option_bind]. intros -> ->.
    destruct (isspace a || Ascii.eqb a "+"); [done|]. by destruct (Ascii.eqb a "-").
Qed.

(** ** Flycam inputs ([getFlycamInputs]) *)

Lemma flycamAxis_trigger (axesAccumulator : list Z) (channel : InputChannel) :
  mIndex channel = AXIS_TRIGGERLEFT \/ mIndex channel = AXIS_TRIGGERRIGHT ->
  let left := vget axesAccumulator AXIS_TRIGGERLEFT in
  let right := vget axesAccumulator AXIS_TRIGGERRIGHT in
  is_S32 (left - right) -> is_S32 (right - left) ->
  flycamAxis axesAccumulator channel =
    Some (Z.min (Z.max (if mIndex channel =? AXIS_TRIGGERRIGHT then right - left
                        else left - right) (-32768)) 32767).
Proof.
  intros Hidx left right Hlr Hrl. unfold flycamAxis. fold left right.
  rewrite (to_S32_id (left - right) Hlr).
  destruct Hidx as [-> | ->].
  - change (AXIS_TRIGGERLEFT =? AXIS_TRIGGERLEFT) with true.
    change (AXIS_TRIGGERLEFT =? AXIS_TRIGGERRIGHT) with false.
    cbn [orb]. f_equal. apply clampAxis_spec.
  - change (AXIS_TRIGGERRIGHT =? AXIS_TRIGGERLEFT) with false.
    change (AXIS_TRIGGERRIGHT =? AXIS_TRIGGERRIGHT) with true.
    cbn [orb]. replace ((left - right) * -1) with (right - left) by lia.
    rewrite (to_S32_id _ Hrl). f_equal. apply clampAxis_spec.
Qed.

(** C7 (as amended): a flycam channel bound to a trigger axis outputs the
    tied value, left trigger minus right trigger for a channel on the left
    trigger and the negation of that for a channel on the right trigger,
    clamped, divided by 32767 when positive and by 32768 otherwise, and
    multiplied by the channel's sign.  With 10000 accumulated on the left
    trigger and 3000 on the right one, a channel on the left trigger outputs
    a binary32 number within [2^-26] of [7000/32767] times its sign, and a
    channel on the right trigger outputs [-7000/32768] times its sign. *)
Theorem getFlycamInputs_tied_triggers (m : LLGameControllerManager)
    (inputs : list spec_float) (k : nat) (channel : InputChannel) :
  mFlycamChannels m !! k = Some channel ->
  mIndex channel = AXIS_TRIGGERLEFT \/ mIndex channel = AXIS_TRIGGERRIGHT ->
  let left := vget (mAxesAccumulator m) AXIS_TRIGGERLEFT in
  let right := vget (mAxesAccumulator m) AXIS_TRIGGERRIGHT in
  is_S32 (left - right) -> is_S32 (right - left) ->
  let tied := if mIndex channel =? AXIS_TRIGGERRIGHT then right - left else left - right in
  let axis := Z.min (Z.max tied (-32768)) 32767 in
  let output := flycamScale axis (mSign channel) in
  getFlycamInputs m inputs !! (length inputs + k)%nat = Some (Some output)
  /\ (left = 10000 -> right = 3000 -> mSign channel = 1 \/ mSign channel = -1 ->
      is_finite output = true
      /\ (mIndex channel = AXIS_TRIGGERLEFT ->
          let exact := ((7000 # 32767) * inject_Z (mSign channel))%Q in
          (exact - (1 # 2 ^ 26) <= F32_to_Q output <= exact + (1 # 2 ^ 26))%Q)
      /\ (mIndex channel = AXIS_TRIGGERRIGHT ->
          (F32_to_Q output == - (7000 # 32768) * inject_Z (mSign channel))%Q)).
Proof.
  intros Hk Hidx left right Hlr Hrl tied axis output. split.
  - unfold getFlycamInputs. rewrite lookup_app_r by (rewrite length_map; lia).
    rewrite length_map.
    replace (length inputs + k - length inputs)%nat with k by lia.
    rewrite list_lookup_fmap, Hk. cbn [fmap option_fmap option_map]. f_equal.
    unfold flycamInput. rewrite (flycamAxis_trigger _ _ Hidx Hlr Hrl). reflexivity.
  - intros Hl Hr Hs. unfold output, axis, tied. rewrite Hl, Hr.
    destruct Hidx as [-> | ->], Hs as [-> | ->];
      (split; [by vm_compute|]); (split; intros Hi; try discriminate Hi).
    + split; apply Qle_bool_iff; by vm_compute.
    + split; apply Qle_bool_iff; by vm_compute.
    + apply Qeq_bool_iff. by vm_compute.
    + apply Qeq_bool_iff. by vm_compute.
Qed.

(** ** Translation between states and action flags *)

Section Roundtrip.

Variables (axes : list Z) (buttons : Z).

Lemma computeFlagsFromState_flagsOf (t : LLGameControlTranslator) (ax : list Z) (bt : Z) :
  computeFlagsFromState t ax bt = flagsOf ax bt (maskedChannels t).
Proof.
  unfold computeFlagsFromState, flagsOf, maskedChannels, entryActive.
  generalize 0. induction (mActionToMask t) as [|e es IH]; intros z; [done|].
  cbn [fold_left map fst snd]. rewrite <- IH.
  by destruct (mappedChannel t (fst e)).
Qed.

Lemma computeStateFromFlags_stateOf (t : LLGameControlTranslator) (flags : Z) :
  computeStateFromFlags t flags = stateOf flags (maskedChannels t) State_new.
Proof.
  unfold computeStateFromFlags, stateOf, maskedChannels.
  generalize State_new. induction (mActionToMask t) as [|e es IH]; intros s; [done|].
  cbn [fold_left map fst snd]. by rewrite <- IH.
Qed.

(** *** Bits of the flags *)

Lemma testbit_fold_lor (es : list (Z * option InputChannel)) (z i : Z) :
  Z.testbit
    (fold_left (fun flags e => if entryActive axes buttons e then Z.lor flags (fst e)
                               else flags) es z) i
  = Z.testbit z i
    || existsb (fun e => entryActive axes buttons e && Z.testbit (fst e) i) es.
Proof.
  revert z. induction es as [|e es IH]; intros z; cbn [fold_left existsb].
  - by rewrite orb_false_r.
  - rewrite IH. destruct (entryActive axes buttons e); cbn [andb orb].
    + rewrite Z.lor_spec. by rewrite orb_assoc.
    + done.
Qed.

Lemma testbit_flagsOf (es : list (Z * option InputChannel)) (i : Z) :
  Z.testbit (flagsOf axes buttons es) i
  = existsb (fun e => entryActive axes buttons e && Z.testbit (fst e) i) es.
Proof. unfold flagsOf. rewrite testbit_fold_lor. by rewrite Z.bits_0. Qed.

(** With private bits, the masks contained in the flags of a state are those
    of the actions that are active in it. *)
Lemma selected_iff_active (es : list (Z * option InputChannel)) (k : nat)
    (e : Z * option InputChannel) :
  private_bits es -> es !! k = Some e ->
  (Z.land (fst e) (flagsOf axes buttons es) =? fst e) = entryActive axes buttons e.
Proof.
  intros Hpriv Hk. destruct (entryActive axes buttons e) eqn:Hact.
  - apply Z.eqb_eq. apply Z.bits_inj'. intros i _.
    rewrite Z.land_spec, testbit_flagsOf.
    destruct (Z.testbit (fst e) i) eqn:Hbit; [|done]. cbn [andb].
    apply existsb_exists. exists e. split.
    + apply list_elem_of_In, list_elem_of_lookup. eauto.
    + by rewrite Hact, Hbit.
  - apply Z.eqb_neq. intros Heq.
    destruct (Hpriv k e Hk) as (i & Hi & Hothers).
    assert (Hf : Z.testbit (flagsOf axes buttons es) i = true).
    { apply (f_equal (fun z => Z.testbit z i)) in Heq.
      rewrite Z.land_spec, Hi in Heq. exact Heq. }
    rewrite testbit_flagsOf in Hf. apply existsb_exists in Hf as (e' & Hin & He').
    apply list_elem_of_In, list_elem_of_lookup in Hin as (k' & Hk').
    apply andb_true_iff in He' as [Hact' Hbit'].
    destruct (decide (k' = k)) as [->|Hne].
    + rewrite Hk in Hk'. injection Hk' as <-. congruence.
    + rewrite (Hothers k' e' Hk' Hne) in Hbit'. discriminate.
Qed.

(** *** The state rebuilt from the flags *)

Lemma testbit_shiftl_1 (n j : Z) : 0 <= n -> 0 <= j -> Z.testbit (Z.shiftl 1 n) j = (n =? j).
Proof. intros Hn Hj. rewrite Z.shiftl_1_l. by apply Z.pow2_bits_eqb. Qed.

(** Deflecting a channel that is active in the given state. *)
Lemma deflectChannel_active (s : State) (c : InputChannel) :
  wf_channel c -> channelActive axes buttons c = true ->
  length (mAxes s) = Z.to_nat NUM_AXES ->
  length (mAxes (deflectChannel s c)) = Z.to_nat NUM_AXES
  /\ (forall i, 0 <= i < NUM_AXES ->
        vget (mAxes (deflectChannel s c)) i =
          if isAxis c && (mIndex c =? i) then fullDeflection (vget axes i)
          else vget (mAxes s) i)
  /\ (forall j, 0 <= j ->
        Z.testbit (mButtons (deflectChannel s c)) j =
          (isButton c && (mIndex c =? j)) || Z.testbit (mButtons s) j).
Proof.
  destruct c as [ty idx sg]. unfold wf_channel, channelActive, deflectChannel, isAxis, isButton.
  cbn [mType mIndex mSign]. intros Hwf Hact Hlen.
  destruct ty; cbn [ChannelType_eqb andb orb mAxes mButtons]; [| |discriminate].
  - apply Z.ltb_lt in Hact.
    assert (Hcases : (sg < 0 /\ vget axes idx < 0) \/ (0 < sg /\ 0 < vget axes idx))
      by (apply Z.lt_0_mul in Hact; lia).
    split; [|split; [|done]].
    + destruct (Z.ltb_spec sg 0), (Z.ltb_spec 0 sg); by rewrite ?length_vset.
    + intros i Hi. unfold NUM_AXES in *.
      destruct Hcases as [[Hs Hv]|[Hs Hv]].
      * destruct (Z.ltb_spec sg 0); [|lia].
        destruct (Z.eqb_spec idx i) as [<-|Hne].
        -- rewrite vget_vset_eq by lia. unfold fullDeflection.
           by destruct (Z.ltb_spec (vget axes idx) 0); [|lia].
        -- apply vget_vset_ne; lia.
      * destruct (Z.ltb_spec sg 0); [lia|]. destruct (Z.ltb_spec 0 sg); [|lia].
        destruct (Z.eqb_spec idx i) as [<-|Hne].
        -- rewrite vget_vset_eq by lia. unfold fullDeflection.
           by destruct (Z.ltb_spec (vget axes idx) 0); [lia|].
        -- apply vget_vset_ne; lia.
  - split; [done|]. split; [done|]. intros j Hj.
    rewrite Z.lor_spec, testbit_shiftl_1 by lia. apply orb_comm.
Qed.

Lemma stateOf_spec (flags : Z) (es : list (Z * option InputChannel)) :
  forall s0 : State,
  (forall e, e ∈ es -> (Z.land (fst e) flags =? fst e) = entryActive axes buttons e) ->
  (forall e c, e ∈ es -> snd e = Some c -> wf_channel c) ->
  length (mAxes s0) = Z.to_nat NUM_AXES ->
  let s := stateOf flags es s0 in
  length (mAxes s) = Z.to_nat NUM_AXES
  /\ (forall i, 0 <= i < NUM_AXES ->
        vget (mAxes s) i =
          if existsb (fun e => entryActive axes buttons e && entryOnAxis i e) es
          then fullDeflection (vget axes i) else vget (mAxes s0) i)
  /\ (forall j, 0 <= j ->
        Z.testbit (mButtons s) j =
          existsb (fun e => entryActive axes buttons e && entryOnButton j e) es
          || Z.testbit (mButtons s0) j).
Proof.
  unfold stateOf.
  induction es as [|e es IH]; intros s0 Hsel Hwf Hlen; cbn [fold_left existsb].
  - cbv zeta. cbn [orb]. done.
  - assert (Hsel' : forall e', e' ∈ es ->
              (Z.land (fst e') flags =? fst e') = entryActive axes buttons e')
      by (intros e' He'; apply Hsel; by apply list_elem_of_further).
    assert (Hwf' : forall e' c, e' ∈ es -> snd e' = Some c -> wf_channel c)
      by (intros e' c He'; apply Hwf; by apply list_elem_of_further).
    specialize (Hsel e (list_elem_of_here _ _)).
    specialize (fun c => Hwf e c (list_elem_of_here _ _)).
    unfold entryActive at 1 3, entryOnAxis at 1, entryOnButton at 1.
    unfold entryActive in Hsel.
    destruct (snd e) as [c|] eqn:Hc.
    + rewrite Hsel. destruct (channelActive axes buttons c) eqn:Hact; cbn [andb orb].
      * destruct (deflectChannel_active s0 c (Hwf c eq_refl) Hact Hlen) as (Hl1 & Ha1 & Hb1).
        destruct (IH (deflectChannel s0 c) Hsel' Hwf' Hl1) as (Hl2 & Ha2 & Hb2).
        split; [exact Hl2|]. split.
        -- intros i Hi. rewrite (Ha2 i Hi), (Ha1 i Hi).
           destruct (isAxis c && (mIndex c =? i)); cbn [orb]; [|done].
           by destruct (existsb _ es).
        -- intros j Hj. rewrite (Hb2 j Hj), (Hb1 j Hj).
           destruct (isButton c && (mIndex c =? j)); cbn [orb]; [|done].
           by rewrite !orb_true_r.
      * apply (IH s0 Hsel' Hwf' Hlen).
    + cbn [andb orb]. apply (IH s0 Hsel' Hwf' Hlen).
Qed.

(** The state rebuilt from the flags of a state has the same active
    actions. *)
Lemma entryActive_preserved (es : list (Z * option InputChannel)) :
  private_bits es ->
  (forall e c, e ∈ es -> snd e = Some c -> wf_channel c) ->
  let s := stateOf (flagsOf axes buttons es) es State_new in
  forall e, e ∈ es ->
    entryActive (mAxes s) (mButtons s) e = entryActive axes buttons e.
Proof.
  intros Hpriv Hwf s e He.
  assert (Hsel : forall e', e' ∈ es ->
            (Z.land (fst e') (flagsOf axes buttons es) =? fst e')
            = entryActive axes buttons e').
  { intros e' (k & Hk)%list_elem_of_lookup. by apply (selected_iff_active es k). }
  destruct (stateOf_spec (flagsOf axes buttons es) es State_new Hsel Hwf eq_refl)
    as (_ & Hax & Hbt).
  fold s in Hax, Hbt.
  unfold entryActive. destruct (snd e) as [c|] eqn:Hc; [|done].
  specialize (Hwf e c He Hc). unfold channelActive, wf_channel in *.
  destruct (mType c) eqn:Hty; [| |done].
  - rewrite (Hax (mIndex c) Hwf).
    change (vget (mAxes State_new) (mIndex c)) with (vget zero_axes (mIndex c)).
    assert (Hzero : vget zero_axes (mIndex c) = 0).
    { unfold vget. change zero_axes with [0; 0; 0; 0; 0; 0].
      destruct (Z.to_nat (mIndex c)) as [|[|[|[|[|[|n]]]]]]; try reflexivity.
      simpl. by destruct n. }
    rewrite Hzero.
    destruct (existsb _ es) eqn:Hex.
    + apply existsb_exists in Hex as (e' & _ & He').
      apply andb_true_iff in He' as [Hact' Hon'].
      unfold entryActive, entryOnAxis in Hact', Hon'.
      destruct (snd e') as [c'|]; [|discriminate].
      apply andb_true_iff in Hon' as [Hax' Hidx'%Z.eqb_eq].
      unfold isAxis in Hax'. unfold channelActive in Hact'.
      destruct (mType c'); try discriminate. rewrite Hidx' in Hact'.
      apply Z.ltb_lt, Z.lt_0_mul in Hact'.
      unfold fullDeflection, S16_MIN, S16_MAX.
      destruct (Z.ltb_spec (vget axes (mIndex c)) 0);
        destruct (Z.ltb_spec 0 (vget axes (mIndex c) * mSign c)) as [Hp|Hn];
        try apply Z.lt_0_mul in Hp;
        [apply Z.ltb_lt|apply Z.ltb_ge|apply Z.ltb_lt|apply Z.ltb_ge]; nia.
    + destruct (Z.ltb_spec 0 (vget axes (mIndex c) * mSign c)) as [Hp|Hn]; [|done].
      exfalso. apply not_true_iff_false in Hex. apply Hex.
      apply existsb_exists. exists e. split; [by apply list_elem_of_In|].
      unfold entryActive, entryOnAxis, channelActive, isAxis. rewrite Hc, Hty.
      cbn [ChannelType_eqb andb]. rewrite Z.eqb_refl, andb_true_r. by apply Z.ltb_lt.
  - rewrite (Hbt (mIndex c)) by lia.
    change (mButtons State_new) with 0. rewrite Z.bits_0, orb_false_r.
    destruct (Z.testbit buttons (mIndex c)) eqn:Hbit.
    + apply existsb_exists. exists e. split; [by apply list_elem_of_In|].
      unfold entryActive, entryOnButton, channelActive, isButton. rewrite Hc, Hty.
      cbn [ChannelType_eqb andb]. by rewrite Z.eqb_refl, Hbit.
    + apply not_true_iff_false. intros (e' & _ & He')%existsb_exists.
      apply andb_true_iff in He' as [Hact' Hon'].
      unfold entryActive, entryOnButton in Hact', Hon'.
      destruct (snd e') as [c'|]; [|discriminate].
      apply andb_true_iff in Hon' as [Hb' Hidx'%Z.eqb_eq].
      unfold isButton in Hb'. unfold channelActive in Hact'.
      destruct (mType c'); try discriminate. congruence.
Qed.

Lemma flagsOf_ext (ax1 ax2 : list Z) (bt1 bt2 : Z) (es : list (Z * option InputChannel)) :
  (forall e, e ∈ es -> entryActive ax1 bt1 e = entryActive ax2 bt2 e) ->
  flagsOf ax1 bt1 es = flagsOf ax2 bt2 es.
Proof.
  unfold flagsOf. generalize 0.
  induction es as [|e es IH]; intros z Hext; cbn [fold_left]; [done|].
  rewrite (Hext e) by apply list_elem_of_here.
  apply IH. intros e' He'. apply Hext. by apply list_elem_of_further.
Qed.

End Roundtrip.

(** *** The fixed table has private bits *)

Lemma testbit_AGENT_CONTROL (a b : AgentControlBit) :
  Z.testbit (AGENT_CONTROL a) (AGENT_CONTROL_INDEX b) = bool_decide (a = b).
Proof.
  unfold AGENT_CONTROL.
  rewrite testbit_shiftl_1
    by (apply AGENT_CONTROL_INDEX_range || apply AGENT_CONTROL_INDEX_range).
  destruct (decide (a = b)) as [->|Hne].
  - by rewrite Z.eqb_refl, bool_decide_eq_true_2.
  - rewrite bool_decide_eq_false_2 by done.
    apply Z.eqb_neq. intros Heq. by apply Hne, AGENT_CONTROL_INDEX_inj.
Qed.

Ltac unfold_agent_control :=
  unfold AGENT_CONTROL_AT_POS, AGENT_CONTROL_AT_NEG, AGENT_CONTROL_LEFT_POS,
    AGENT_CONTROL_LEFT_NEG, AGENT_CONTROL_UP_POS, AGENT_CONTROL_UP_NEG,
    AGENT_CONTROL_YAW_POS, AGENT_CONTROL_YAW_NEG, AGENT_CONTROL_PITCH_POS,
    AGENT_CONTROL_PITCH_NEG, AGENT_CONTROL_STOP, AGENT_CONTROL_FAST_AT,
    AGENT_CONTROL_FAST_LEFT, AGENT_CONTROL_FAST_UP, AGENT_CONTROL_NUDGE_AT_POS,
    AGENT_CONTROL_NUDGE_AT_NEG, AGENT_CONTROL_FLY in *.

(** The first bit of a mask of the table, repeated as the bit position to
    look at. *)
Ltac pick_private_bit :=
  lazymatch goal with
  | |- exists i, Z.testbit (Z.lor (AGENT_CONTROL ?b) _) i = true /\ _ =>
      exists (AGENT_CONTROL_INDEX b)
  | |- exists i, Z.testbit (AGENT_CONTROL ?b) i = true /\ _ =>
      exists (AGENT_CONTROL_INDEX b)
  end.

Ltac eval_table_bit :=
  rewrite ?Z.lor_spec, !testbit_AGENT_CONTROL; reflexivity.

(** In [actionMasks] the first bit of every mask belongs to that mask alone:
    the bits shared between actions ([FAST_AT], [FAST_LEFT], [FAST_UP]) come
    second. *)
Lemma actionMasks_private_bits (t : LLGameControlTranslator) :
  mActionToMask t = actionMasks -> private_bits (maskedChannels t).
Proof.
  intros Ht k e Hk. unfold maskedChannels in *. rewrite Ht in *.
  unfold actionMasks in *. cbn [map fst snd] in *. unfold_agent_control.
  do 14 (destruct k as [|k];
         [ injection Hk as <-; cbn [fst]; pick_private_bit;
           split; [eval_table_bit|];
           intros k' e' Hk' Hne;
           do 14 (destruct k' as [|k'];
                  [ first [ congruence
                          | injection Hk' as <-; cbn [fst]; eval_table_bit ] |]);
           discriminate Hk'
         |]).
  discriminate Hk.
Qed.

(** The default mappings name existing axes and buttons. *)
Lemma Manager_new_wf_mapping : wf_mapping (mActionTranslator Manager_new).
Proof.
  intros action c. unfold mappedChannel.
  destruct (mActionToChannel (mActionTranslator Manager_new) !! action) as [c0|] eqn:E;
    [|discriminate].
  destruct (isNone c0); [discriminate|]. intros [= <-].
  apply elem_of_map_to_list in E. vm_compute in E.
  repeat (apply elem_of_cons in E as [E|E]; [injection E as -> ->; by vm_compute|]).
  by apply elem_of_nil in E.
Qed.

(** C8: with the fixed table of action masks and a mapping whose channels
    name existing axes and buttons, the state rebuilt by
    [computeStateFromFlags] from the flags of a state gives back exactly
    those flags, and every mapped action is active in the rebuilt state
    exactly when it is active in the original one. *)
Theorem translator_roundtrip (t : LLGameControlTranslator) (axes : list Z) (buttons : Z) :
  mActionToMask t = actionMasks -> wf_mapping t ->
  let flags := computeFlagsFromState t axes buttons in
  let s := computeStateFromFlags t flags in
  computeFlagsFromState t (mAxes s) (mButtons s) = flags
  /\ (forall action c,
        hasMask actionMasks action = true -> mappedChannel t action = Some c ->
        channelActive (mAxes s) (mButtons s) c = channelActive axes buttons c).
Proof.
  intros Ht Hwf flags s.
  assert (Hwf' : forall e c, e ∈ maskedChannels t -> snd e = Some c -> wf_channel c).
  { intros e c (e0 & -> & _)%list_elem_of_fmap Hc. by apply (Hwf (fst e0)). }
  pose proof (entryActive_preserved axes buttons (maskedChannels t)
                (actionMasks_private_bits t Ht) Hwf') as Hact.
  cbv zeta in Hact.
  rewrite <- computeFlagsFromState_flagsOf, <- computeStateFromFlags_stateOf in Hact.
  fold flags in Hact. fold s in Hact. split.
  - unfold flags. rewrite !computeFlagsFromState_flagsOf. by apply flagsOf_ext.
  - intros action c (e0 & Hin & Heq%String.eqb_eq)%existsb_exists Hc.
    rewrite <- Ht in Hin. apply list_elem_of_In in Hin.
    specialize (Hact (snd e0, mappedChannel t (fst e0))).
    unfold entryActive in Hact. cbn [snd] in Hact. rewrite Heq, Hc in Hact.
    apply Hact. apply list_elem_of_In, in_map_iff. exists e0.
    split; [by rewrite Heq, Hc | by apply list_elem_of_In].
Qed.

(** ** Settings ([loadFromSettings]) *)

Lemma setMappings_preserves {A : Type} (P : A -> Prop) (mappings : string)
    (actions : list string) (type : ChannelType)
    (updateMap : A -> string -> InputChannel -> A) (target : A) :
  (forall a action channel, P a -> P (updateMap a action channel)) ->
  P target -> P (setMappings mappings actions type updateMap target).
Proof.
  intros Hupd. unfold setMappings. revert target.
  induction actions as [|action actions IH]; intros target HP; cbn [fold_left]; [done|].
  apply IH. destruct (parsePairs mappings !! action) as [name|]; [|by apply Hupd].
  destruct (isNone (getChannelByName name) || ChannelType_eqb _ type); by apply Hupd.
Qed.

(** Restoring mapping strings never touches the table of action masks. *)
Lemma restoreMappings_table (m : LLGameControllerManager) (analog binary flycam : string) :
  mActionToMask (mActionTranslator (restoreMappings m analog binary flycam))
  = mActionToMask (mActionTranslator m).
Proof.
  unfold restoreMappings, setFlycamMappings, setBinaryMappings, setAnalogMappings.
  apply (setMappings_preserves
           (fun m' => mActionToMask (mActionTranslator m') = mActionToMask (mActionTranslator m)));
    [done|].
  apply (setMappings_preserves
           (fun m' => mActionToMask (mActionTranslator m') = mActionToMask (mActionTranslator m)));
    [done|].
  by apply (setMappings_preserves
           (fun m' => mActionToMask (mActionTranslator m') = mActionToMask (mActionTranslator m))).
Qed.

(** The names of the table are action names known to the manager, none of
    them a flycam action. *)
Lemma actionMasks_names_known :
  forallb
    (fun name =>
       match mActions !! name with
       | Some ACTION_NAME_FLYCAM | None => false
       | Some _ => true
       end)
    (map fst actionMasks) = true.
Proof. by vm_compute. Qed.

(** When no action of the table has a channel, no control bit is mapped. *)
Lemma getMappedFlags_zero (m : LLGameControllerManager) :
  mActionToMask (mActionTranslator m) = actionMasks ->
  (forall action, hasMask actionMasks action = true ->
     isNone (getChannelByAction m action) = true) ->
  getMappedFlags m = 0.
Proof.
  intros Ht Hnone.
  assert (Hunmapped : forall e, In e actionMasks ->
            mappedChannel (mActionTranslator m) (fst e) = None).
  { intros e He.
    assert (Hmask : hasMask actionMasks (fst e) = true).
    { apply existsb_exists. exists e. split; [done|]. apply String.eqb_refl. }
    specialize (Hnone (fst e) Hmask).
    pose proof actionMasks_names_known as Hknown.
    rewrite forallb_forall in Hknown. specialize (Hknown (fst e) (in_map fst _ _ He)).
    unfold getChannelByAction in Hnone. unfold mappedChannel.
    destruct (mActions !! fst e) as [[]|]; try discriminate;
      unfold Translator_getChannelByAction in Hnone;
      destruct (mActionToChannel (mActionTranslator m) !! fst e) as [c|]; try done;
      cbn in Hnone; by rewrite Hnone. }
  unfold getMappedFlags, Translator_getMappedFlags. rewrite Ht.
  revert Hunmapped. generalize actionMasks. intros table. generalize 0.
  induction table as [|e es IH]; intros z Hun; cbn [fold_left]; [done|].
  rewrite (Hun e) by apply in_eq. apply IH. intros e' He'. apply Hun. by apply in_cons.
Qed.

Lemma initializeMappingsByDefault_translator (m : LLGameControllerManager) :
  mActionToMask (mActionTranslator m) = actionMasks ->
  mActionTranslator (initializeMappingsByDefault m) = mActionTranslator Manager_new
  /\ mFlycamChannels (initializeMappingsByDefault m) = flycam_defaults.
Proof.
  intros Ht. unfold Manager_new, initializeMappingsByDefault, Translator_setMappings.
  cbn [set_mFlycamChannels set_mActionTranslator mActionTranslator mFlycamChannels
       setAvailableActionMasks mActionToMask].
  by rewrite Ht.
Qed.

(** The two ways in which [loadFromSettings] ends with the default
    mappings. *)
Lemma loadFromSettings_defaults (g : Globals) (s_loadBoolean : string -> bool)
    (s_loadString : string -> string) :
  mActionToMask (mActionTranslator (g_manager g)) = actionMasks ->
  let analog := s_loadString SETTING_ANALOGMAPPINGS in
  let binary := s_loadString SETTING_BINARYMAPPINGS in
  let flycam := s_loadString SETTING_FLYCAMMAPPINGS in
  let restored := restoreMappings (g_manager g) analog binary flycam in
  (analog = EmptyString /\ binary = EmptyString /\ flycam = EmptyString)
  \/ (forall action, hasMask actionMasks action = true ->
        isNone (getChannelByAction restored action) = true) ->
  let m' := g_manager (loadFromSettings g s_loadBoolean s_loadString) in
  mActionTranslator m' = mActionTranslator Manager_new
  /\ mFlycamChannels m' = flycam_defaults.
Proof.
  intros Ht analog binary flycam restored Hcase m'.
  unfold m', loadFromSettings. cbn [g_manager].
  fold analog binary flycam. fold restored.
  destruct (string_empty analog && string_empty binary && string_empty flycam) eqn:Hempty.
  - by apply initializeMappingsByDefault_translator.
  - destruct Hcase as [(Ha & Hb & Hf)|Hnone].
    + rewrite Ha, Hb, Hf in Hempty. discriminate.
    + assert (Htr : mActionToMask (mActionTranslator restored) = actionMasks)
        by (unfold restored; by rewrite restoreMappings_table).
      rewrite (getMappedFlags_zero restored Htr Hnone). cbn [Z.eqb].
      by apply initializeMappingsByDefault_translator.
Qed.

(** C9: when the three mapping strings are all empty, and also when after
    restoring them no action has a channel, [loadFromSettings] ends with the
    built-in default mappings, the analog and binary ones and the flycam
    ones; it returns the new globals and nothing else, so the fallback is
    not reported. *)
Theorem loadFromSettings_fallback (g : Globals) (s_loadBoolean : string -> bool)
    (s_loadString : string -> string) :
  mActionToMask (mActionTranslator (g_manager g)) = actionMasks ->
  let analog := s_loadString SETTING_ANALOGMAPPINGS in
  let binary := s_loadString SETTING_BINARYMAPPINGS in
  let flycam := s_loadString SETTING_FLYCAMMAPPINGS in
  let restored := restoreMappings (g_manager g) analog binary flycam in
  (analog = EmptyString /\ binary = EmptyString /\ flycam = EmptyString)
  \/ (forall action, isNone (getChannelByAction restored action) = true) ->
  let m' := g_manager (loadFromSettings g s_loadBoolean s_loadString) in
  mActionTranslator m' = mActionTranslator Manager_new
  /\ mFlycamChannels m' = flycam_defaults
  /\ (forall action, getChannelByAction m' action = getChannelByAction Manager_new action).
Proof.
  intros Ht analog binary flycam restored Hcase m'.
  destruct (loadFromSettings_defaults g s_loadBoolean s_loadString Ht) as [Htr Hfly].
  { destruct Hcase as [Hempty|Hnone]; [by left|]. right. intros action _. apply Hnone. }
  fold m' in Htr, Hfly. split; [done|]. split; [done|].
  intros action. unfold getChannelByAction, getFlycamChannelByAction.
  rewrite Htr, Hfly. reflexivity.
Qed.

(** X7: the fallback looks at the analog and binary actions only: when none
    of them has a channel after the restore, the flycam channels are reset
    to the defaults too, whatever the flycam string had mapped. *)
Theorem loadFromSettings_resets_flycam (g : Globals) (s_loadBoolean : string -> bool)
    (s_loadString : string -> string) :
  mActionToMask (mActionTranslator (g_manager g)) = actionMasks ->
  let restored :=
    restoreMappings (g_manager g) (s_loadString SETTING_ANALOGMAPPINGS)
      (s_loadString SETTING_BINARYMAPPINGS) (s_loadString SETTING_FLYCAMMAPPINGS) in
  (forall action, hasMask actionMasks action = true ->
     isNone (getChannelByAction restored action) = true) ->
  mFlycamChannels (g_manager (loadFromSettings g s_loadBoolean s_loadString))
  = flycam_defaults.
Proof.
  intros Ht restored Hnone.
  by destruct (loadFromSettings_defaults g s_loadBoolean s_loadString Ht (or_intror Hnone)).
Qed.

(** ** Events ([processEvents]) *)

Lemma onAxis_value_range (axis v : Z) : is_S16 v -> is_S16 (onAxis_value axis v).
Proof.
  intros Hv. unfold onAxis_value.
  destruct (axis <? SDL_CONTROLLER_AXIS_TRIGGERLEFT); [|done].
  unfold is_S16, S16_MIN, S16_MAX in *.
  destruct (Z.ltb_spec v 0); [|destruct (Z.ltb_spec 0 v)]; [| |lia];
    rewrite to_S16_id; unfold is_S16, S16_MIN, S16_MAX; lia.
Qed.

Lemma log2_U32 (x : Z) : 0 <= x -> Z.log2 x < 32 -> is_U32 x.
Proof.
  intros H0 Hlog. split; [done|].
  destruct (Z.eq_dec x 0) as [->|Hnz]; [done|].
  apply Z.log2_lt_pow2; lia.
Qed.

Lemma U32_log2 (x : Z) : is_U32 x -> Z.log2 x < 32.
Proof.
  intros [H0 H1]. destruct (Z.eq_dec x 0) as [->|Hnz]; [done|].
  apply Z.log2_lt_pow2; lia.
Qed.

Lemma State_onButton_U32 (s : State) (button : Z) (pressed : bool) :
  0 <= button -> is_U32 (mButtons s) ->
  is_U32 (mButtons (fst (State_onButton s button pressed))).
Proof.
  intros Hb Hu. unfold State_onButton, MAX_BUTTON, NUM_BUTTONS. cbn [fst mButtons].
  destruct (Z.leb_spec button (32 - 1)); [|done].
  pose proof (U32_log2 _ Hu) as Hlog. destruct Hu as [H0 _].
  assert (Hs : 0 <= Z.shiftl 1 button) by (apply Z.shiftl_nonneg; lia).
  destruct pressed; apply log2_U32.
  - apply Z.lor_nonneg. done.
  - rewrite Z.log2_lor by done. rewrite Z.shiftl_1_l, Z.log2_pow2 by lia. lia.
  - apply Z.land_nonneg. by left.
  - assert (Hm : 0 <= to_U32 (Z.lnot (Z.shiftl 1 button))).
    { unfold to_U32. apply Z.mod_pos_bound. lia. }
    pose proof (Z.log2_land _ _ H0 Hm). lia.
Qed.

Lemma updateState_map {B : Type} (field : State -> B) (id : Z) (f : State -> State)
    (states : list State) :
  (forall s, field (f s) = field s) ->
  map field (updateState id f states) = map field states.
Proof.
  intros Hf. induction states as [|s rest IH]; [done|]. cbn [updateState].
  destruct (mJoystickID s =? id); cbn [map]; [by rewrite Hf|by rewrite IH].
Qed.

Lemma updateState_ids (id : Z) (f : State -> State) (states : list State) :
  (forall s, mJoystickID (f s) = mJoystickID s) ->
  map mJoystickID (updateState id f states) = map mJoystickID states.
Proof. apply updateState_map. Qed.

Lemma findState_updateState_ne (id id' : Z) (f : State -> State) (states : list State) :
  id' <> id -> (forall s, mJoystickID (f s) = mJoystickID s) ->
  findState id' (updateState id f states) = findState id' states.
Proof.
  intros Hne Hf. induction states as [|s rest IH]; [done|]. cbn [updateState findState].
  destruct (Z.eqb_spec (mJoystickID s) id) as [Heq|Hne']; cbn [findState].
  - rewrite Hf. by destruct (Z.eqb_spec (mJoystickID s) id'); [lia|].
  - by rewrite IH.
Qed.

Lemma updateState_Forall (P : State -> Prop) (id : Z) (f : State -> State)
    (states : list State) :
  (forall s, P s -> P (f s)) -> Forall P states -> Forall P (updateState id f states).
Proof.
  intros Hf Hall. induction Hall as [|s rest Hs Hrest IH]; [constructor|].
  cbn [updateState]. destruct (mJoystickID s =? id); constructor; auto.
Qed.

Lemma findState_None (id : Z) (states : list State) :
  findState id states = None <-> id ∉ map mJoystickID states.
Proof.
  induction states as [|s rest IH]; cbn [findState map].
  - split; [intros _; apply not_elem_of_nil|done].
  - rewrite not_elem_of_cons. destruct (Z.eqb_spec (mJoystickID s) id); [|rewrite IH]; split.
    + discriminate.
    + intros [? _]. congruence.
    + intros ?. split; [congruence|done].
    + by intros [_ ?].
Qed.

Lemma wf_state_new (id : Z) : wf_state (setDevice State_new id).
Proof.
  split; [|split; [|split]]; [done|done| |done].
  apply Forall_forall. intros v Hv. change (v ∈ replicate 6%nat 0) in Hv.
  apply elem_of_replicate in Hv as [-> _]. done.
Qed.

Lemma addController_wf (states : list State) (id : Z) :
  wf_states states -> wf_states (addController states id).
Proof.
  intros [Hnd Hall]. unfold addController.
  destruct (findState id states) eqn:E; [done|].
  apply findState_None in E. split.
  - rewrite map_app. apply NoDup_app. split; [done|]. split.
    + intros x Hx [->|[]%elem_of_nil]%elem_of_cons. done.
    + apply NoDup_singleton.
  - apply Forall_app. split; [done|]. constructor; [apply wf_state_new|constructor].
Qed.

Lemma removeController_wf (states : list State) (id : Z) :
  wf_states states -> wf_states (removeController states id).
Proof.
  intros [Hnd Hall]. unfold removeController. split.
  - clear Hall. induction states as [|s rest IH]; [done|].
    cbn [map] in Hnd. apply NoDup_cons in Hnd as [Hnotin Hnd].
    rewrite filter_cons. destruct (decide (mJoystickID s ≠ id)); [|by apply IH].
    cbn [map]. apply NoDup_cons. split; [|by apply IH].
    intros Hin. apply Hnotin. apply list_elem_of_fmap in Hin as (s' & Hid & Hin).
    apply list_elem_of_filter in Hin as [_ Hin].
    apply list_elem_of_fmap. by exists s'.
  - apply Forall_forall. intros s [_ Hin]%list_elem_of_filter.
    by apply (proj1 (Forall_forall _ _) Hall).
Qed.

Lemma onAxis_wf (states : list State) (id axis value : Z) :
  0 <= axis -> is_S16 value -> wf_states states -> wf_states (onAxis states id axis value).
Proof.
  intros Ha Hv [Hnd Hall]. unfold onAxis. destruct (MAX_AXIS <? axis); [done|]. split.
  - by rewrite updateState_ids.
  - apply updateState_Forall; [|done].
    intros s (La & Lp & Hs16 & Hu).
    split; [|split; [|split]]; cbn [mAxes mPrevAxes mButtons]; [|done| |done].
    + by rewrite length_vset.
    + unfold vset. apply Forall_insert; [done|]. by apply onAxis_value_range.
Qed.

Lemma onButton_wf (states : list State) (id button : Z) (pressed : bool) :
  0 <= button -> wf_states states -> wf_states (onButton states id button pressed).
Proof.
  intros Hb [Hnd Hall]. unfold onButton. split.
  - by rewrite updateState_ids.
  - apply updateState_Forall; [|done].
    intros s (La & Lp & Hs16 & Hu).
    split; [|split; [|split]]; [done|done|done|]. by apply State_onButton_U32.
Qed.

Lemma dispatchEvent_wf (states : list State) (event : SDL_Event) :
  wf_event event -> wf_states states -> wf_states (dispatchEvent states event).
Proof.
  intros He Hwf. destruct event; cbn [dispatchEvent wf_event] in *; try done.
  - unfold onControllerDeviceAdded.
    destruct (instance_id <? 0); [done|]. destruct opened; cbn [negb]; [|done].
    by apply addController_wf.
  - by apply removeController_wf.
  - by apply onButton_wf.
  - by apply onButton_wf.
  - destruct He. by apply onAxis_wf.
Qed.

Lemma State_clear_wf (s : State) : wf_state s -> wf_state (State_clear s).
Proof.
  intros (La & Lp & Hs16 & Hu).
  split; [|split; [|split]]; cbn [State_clear mAxes mPrevAxes mButtons]; [|done| |done].
  - by rewrite length_map.
  - apply Forall_forall. intros v Hv. apply list_elem_of_In, in_map_iff in Hv.
    by destruct Hv as (_ & <- & _).
Qed.

Lemma processEvents_states (m : LLGameControllerManager) (app_has_focus : bool)
    (events : list SDL_Event) :
  Forall wf_event events -> wf_states (mStates m) ->
  wf_states (mStates (processEvents m app_has_focus events)).
Proof.
  intros Hev Hwf. unfold processEvents. destruct app_has_focus; cbn [negb].
  - cbn [mStates]. revert Hwf. generalize (mStates m).
    induction Hev as [|e rest He _ IH]; intros states Hwf; [done|].
    cbn [fold_left]. apply IH. by apply dispatchEvent_wf.
  - cbn [clearAllStates mStates]. destruct Hwf as [Hnd Hall]. split.
    + rewrite map_map. cbn [State_clear mJoystickID]. done.
    + rewrite Forall_map. eapply Forall_impl; [exact Hall|]. apply State_clear_wf.
Qed.

(** X4: an axis or button event of one device changes nothing but that
    axis, or that button mask, of that device: the list of devices, the
    states of the other devices, the other axes, the previous axes and (for
    an axis event) the button masks are as before. *)
Theorem device_events_frame (states : list State) (id id' axis axis' value button : Z)
    (pressed : bool) :
  let after_axis := onAxis states id axis value in
  let after_button := onButton states id button pressed in
  map mJoystickID after_axis = map mJoystickID states
  /\ map mPrevAxes after_axis = map mPrevAxes states
  /\ map mButtons after_axis = map mButtons states
  /\ (id' <> id -> findState id' after_axis = findState id' states)
  /\ (0 <= axis -> 0 <= axis' -> axis' <> axis ->
      storedAxis after_axis id axis' = storedAxis states id axis')
  /\ map mJoystickID after_button = map mJoystickID states
  /\ map mAxes after_button = map mAxes states
  /\ map mPrevAxes after_button = map mPrevAxes states
  /\ (id' <> id -> findState id' after_button = findState id' states).
Proof.
  cbv zeta. unfold onAxis, onButton.
  split; [|split; [|split; [|split; [|split; [|split; [|split; [|split]]]]]]].
  - destruct (MAX_AXIS <? axis); [done|]. by apply updateState_map.
  - destruct (MAX_AXIS <? axis); [done|]. by apply updateState_map.
  - destruct (MAX_AXIS <? axis); [done|]. by apply updateState_map.
  - intros Hne. destruct (MAX_AXIS <? axis); [done|]. by apply findState_updateState_ne.
  - intros Ha Ha' Hne. unfold storedAxis. destruct (MAX_AXIS <? axis); [done|].
    rewrite findState_updateState by done.
    destruct (findState id states) as [s|]; [|done]. cbn [fmap option_fmap option_map mAxes].
    apply vget_vset_ne; lia.
  - by apply updateState_map.
  - by apply updateState_map.
  - by apply updateState_map.
  - intros Hne. by apply findState_updateState_ne.
Qed.

(** ** Accumulated sums *)

Lemma to_S32_range (x : Z) : is_S32 (to_S32 x).
Proof.
  unfold is_S32, to_S32, wrap_signed.
  change (2 ^ (32 - 1)) with 2147483648. change (2 ^ 32) with 4294967296.
  change (2 ^ 31) with 2147483648.
  pose proof (Z.mod_pos_bound (x + 2147483648) 4294967296). lia.
Qed.

Lemma accumulate_fold (states : list State) :
  forall (acc : list Z) (b : Z),
  length acc = Z.to_nat NUM_AXES ->
  (forall j, 0 <= j -> is_S32 (vget acc j)) ->
  let r := fold_left
             (fun (acc : list Z * Z) (state : State) =>
                (addAxes (fst acc) state, Z.lor (snd acc) (mButtons state)))
             states (acc, b) in
  length (fst r) = Z.to_nat NUM_AXES
  /\ (forall j, 0 <= j < NUM_AXES ->
        vget (fst r) j = to_S32 (vget acc j + sumAxis states j))
  /\ snd r = Z.lor b (orButtons states).
Proof.
  induction states as [|s rest IH]; intros acc b Hlen Hacc; cbn [fold_left].
  - cbv zeta. cbn [fst snd sumAxis orButtons fold_right].
    split; [done|]. split; [|by rewrite Z.lor_0_r].
    intros j Hj. rewrite Z.add_0_r. symmetry. apply to_S32_id, Hacc. lia.
  - cbn [fst snd]. destruct (addAxes_spec acc s) as [Hlen' Hget].
    destruct (IH (addAxes acc s) (Z.lor b (mButtons s))) as (L & A & B).
    { congruence. }
    { intros j Hj. rewrite (Hget j Hj).
      destruct ((j <? NUM_AXES) && (j <? Z.of_nat (length acc)));
        [apply to_S32_range|by apply Hacc]. }
    cbv zeta. split; [exact L|]. split.
    + intros j Hj. rewrite (A j Hj), (Hget j) by lia. rewrite Hlen.
      change (Z.of_nat (Z.to_nat NUM_AXES)) with NUM_AXES.
      destruct (Z.ltb_spec j NUM_AXES); [|lia]. cbn [andb].
      rewrite to_S32_add_l. unfold sumAxis. cbn [fold_right]. f_equal. lia.
    + rewrite B. cbn [orButtons fold_right]. by rewrite Z.lor_assoc.
Qed.

Lemma vget_zeros (l : list Z) (j : Z) : vget (map (fun _ => 0) l) j = 0.
Proof.
  unfold vget. rewrite map_const_replicate.
  destruct (decide (Z.to_nat j < length l)%nat) as [Hlt|Hge].
  - apply nth_lookup_Some with (d := 0). by apply lookup_replicate_2.
  - apply nth_overflow. rewrite length_replicate. lia.
Qed.

Lemma accumulateInternalState_spec (m : LLGameControllerManager) :
  length (mAxesAccumulator m) = Z.to_nat NUM_AXES ->
  let m' := accumulateInternalState m in
  length (mAxesAccumulator m') = Z.to_nat NUM_AXES
  /\ (forall j, 0 <= j < NUM_AXES ->
        vget (mAxesAccumulator m') j = to_S32 (sumAxis (mStates m) j))
  /\ mButtonAccumulator m' = orButtons (mStates m).
Proof.
  intros Hlen. unfold accumulateInternalState. cbv zeta.
  cbn [set_accumulators mAxesAccumulator mButtonAccumulator].
  destruct (accumulate_fold (mStates m) (map (fun _ => 0) (mAxesAccumulator m)) 0)
    as (L & A & B).
  { by rewrite length_map. }
  { intros j _. rewrite vget_zeros. done. }
  split; [exact L|]. split; [|by rewrite B].
  intros j Hj. rewrite (A j Hj), vget_zeros. done.
Qed.

Lemma vget_S16 (l : list Z) (i : Z) : Forall is_S16 l -> is_S16 (vget l i).
Proof.
  intros Hall. unfold vget.
  destruct (nth_in_or_default (Z.to_nat i) l 0) as [Hin| ->]; [|done].
  by apply (proj1 (Forall_forall _ _) Hall), list_elem_of_In.
Qed.

Lemma sumAxis_bound (states : list State) (i : Z) :
  Forall wf_state states ->
  - 32768 * Z.of_nat (length states) <= sumAxis states i <= 32767 * Z.of_nat (length states).
Proof.
  induction 1 as [|s rest (_ & _ & Hs & _) _ IH]; cbn [sumAxis fold_right length]; [lia|].
  pose proof (vget_S16 (mAxes s) i Hs) as Hv. unfold is_S16, S16_MIN, S16_MAX in Hv.
  fold (sumAxis rest i). lia.
Qed.

Lemma testbit_orButtons (states : list State) (j : Z) :
  Z.testbit (orButtons states) j = existsb (fun s => Z.testbit (mButtons s) j) states.
Proof.
  induction states as [|s rest IH]; cbn [orButtons fold_right existsb].
  - apply Z.bits_0.
  - rewrite Z.lor_spec. fold (orButtons rest). by rewrite IH.
Qed.

(** X2: with at most 65536 devices connected, each accumulated axis is the
    exact sum of the values the devices hold for it, and a bit of the
    accumulated button mask is set exactly when some device has it set. *)
Theorem accumulateInternalState_sum (m : LLGameControllerManager) (i j : Z) :
  length (mAxesAccumulator m) = Z.to_nat NUM_AXES ->
  Forall wf_state (mStates m) ->
  Z.of_nat (length (mStates m)) <= 65536 ->
  0 <= i < NUM_AXES ->
  let m' := accumulateInternalState m in
  vget (mAxesAccumulator m') i = sumAxis (mStates m) i
  /\ Z.testbit (mButtonAccumulator m') j
     = existsb (fun s => Z.testbit (mButtons s) j) (mStates m).
Proof.
  intros Hlen Hwf Hn Hi.
  destruct (accumulateInternalState_spec m Hlen) as (_ & A & B).
  cbv zeta. rewrite (A i Hi), B. split; [|apply testbit_orButtons].
  apply to_S32_id. pose proof (sumAxis_bound (mStates m) i Hwf).
  unfold is_S32. change (2 ^ 31) with 2147483648. lia.
Qed.

(** ** The shape of the manager *)

(** X8: the freshly constructed manager has no device, six accumulators
    and six flycam channels, and this shape is kept by every operation that
    works on it: whatever events [processEvents] is given, the list of
    device states never holds a device twice, every state keeps six axes
    within the [S16] range and a button mask within 32 bits, and the
    accumulators and the flycam channels keep their number through
    [processEvents], [accumulateInternalState], [updateActionMap], the
    restoring of mapping strings and [initializeMappingsByDefault]. *)
Theorem manager_invariant (m : LLGameControllerManager) (app_has_focus : bool)
    (events : list SDL_Event) (action analog binary flycam : string)
    (channel : InputChannel) :
  Forall wf_event events -> wf_manager m ->
  wf_manager Manager_new
  /\ wf_manager (processEvents m app_has_focus events)
  /\ wf_manager (accumulateInternalState m)
  /\ wf_manager (fst (updateActionMap m action channel))
  /\ wf_manager (restoreMappings m analog binary flycam)
  /\ wf_manager (initializeMappingsByDefault m).
Proof.
  intros Hev (Hacc & Hfly & Hst).
  split; [|split; [|split; [|split; [|split]]]].
  - split; [done|]. split; [done|]. split; [constructor|constructor].
  - split; [|split]; [| |by apply processEvents_states].
    + unfold processEvents. by destruct app_has_focus.
    + unfold processEvents. by destruct app_has_focus.
  - split; [|split]; [|done|done].
    unfold accumulateInternalState. cbv zeta. cbn [set_accumulators mAxesAccumulator].
    destruct (accumulate_fold (mStates m) (map (fun _ => 0) (mAxesAccumulator m)) 0)
      as (L & _ & _); [by rewrite length_map| |exact L].
    intros j _. by rewrite vget_zeros.
  - unfold updateActionMap. destruct (mActions !! action) as [[]|];
      cbn [fst]; try (split; [|split]; done).
    split; [done|]. split; [|done]. unfold updateFlycamMap.
    cbn [set_mFlycamChannels mFlycamChannels]. by rewrite length_insert.
  - unfold restoreMappings, setFlycamMappings, setBinaryMappings, setAnalogMappings.
    apply setMappings_preserves.
    { intros a act c (Ha & Hf & Hs). split; [done|]. split; [|done].
      unfold updateFlycamMap. cbn [set_mFlycamChannels mFlycamChannels].
      by rewrite length_insert. }
    apply setMappings_preserves; [by intros a act c (Ha & Hf & Hs)|].
    apply setMappings_preserves; [by intros a act c (Ha & Hf & Hs)|]. done.
  - split; [done|]. split; [done|]. done.
Qed.

(** ** Loss of focus ([clearAllStates]) *)

Lemma sumAxis_cleared (states : list State) (i : Z) :
  sumAxis (map State_clear states) i = 0.
Proof.
  induction states as [|s rest IH]; [done|].
  cbn [map sumAxis fold_right]. fold (sumAxis (map State_clear rest) i).
  rewrite IH. cbn [State_clear mAxes]. by rewrite vget_zeros.
Qed.

Lemma orButtons_cleared (states : list State) : orButtons (map State_clear states) = 0.
Proof.
  induction states as [|s rest IH]; [done|].
  cbn [map orButtons fold_right]. fold (orButtons (map State_clear rest)).
  by rewrite IH.
Qed.

(** X9: when the window has no focus, [processEvents] ignores the pending
    events and releases every input: the next accumulated and published
    state has all axes at 0 and no button pressed, whatever the devices held
    and whatever the external input was; [mPrevAxes] of the devices and the
    mappings are kept. *)
Theorem processEvents_without_focus (m : LLGameControllerManager)
    (events : list SDL_Event) (translate : bool) (final_state : State) (period : Z) :
  length (mAxesAccumulator m) = Z.to_nat NUM_AXES ->
  length (mAxes final_state) = Z.to_nat NUM_AXES ->
  length (mPrevAxes final_state) = Z.to_nat NUM_AXES ->
  let m' := accumulateInternalState (processEvents m false events) in
  let r := computeFinalState m' translate final_state period in
  mButtons (fst r) = 0
  /\ (forall i, 0 <= i < NUM_AXES -> vget (mAxes (fst r)) i = 0)
  /\ map mJoystickID (mStates m') = map mJoystickID (mStates m)
  /\ map mPrevAxes (mStates m') = map mPrevAxes (mStates m)
  /\ mLastActiveFlags m' = 0
  /\ mActionTranslator m' = mActionTranslator m
  /\ mFlycamChannels m' = mFlycamChannels m.
Proof.
  intros Hacc La Lp m' r.
  assert (Hm' : m' = accumulateInternalState (clearAllStates m)) by done.
  destruct (accumulateInternalState_spec (clearAllStates m) Hacc) as (_ & A & B).
  rewrite <- Hm' in A, B. cbn [clearAllStates mStates] in A, B.
  rewrite orButtons_cleared in B.
  assert (Hext : mExternalState m' = State_clear (mExternalState m)) by done.
  assert (Hfb : finalButtons m' translate = 0).
  { unfold finalButtons. rewrite B, Hext. by destruct translate. }
  assert (Hfa : forall i, 0 <= i < NUM_AXES -> finalAxis m' translate i = 0).
  { intros i Hi. unfold finalAxis. rewrite (A i Hi), sumAxis_cleared, Hext.
    cbn [State_clear mAxes]. rewrite vget_zeros. by destruct translate. }
  destruct (computeFinalState_spec m' translate final_state period La Lp)
    as (_ & _ & Hb & Ha & _).
  fold r in Hb, Ha.
  split; [by rewrite Hb|]. split; [intros i Hi; by rewrite (Ha i Hi), Hfa|].
  rewrite Hm'. unfold accumulateInternalState. cbv zeta.
  cbn [set_accumulators clearAllStates mStates mLastActiveFlags mActionTranslator
       mFlycamChannels].
  rewrite !map_map. done.
Qed.


(** ** Channel names written and read back ([getLocalName]) *)

Lemma index_cases (n : nat) (i : Z) : 0 <= i < Z.of_nat n -> In i (map Z.of_nat (seq 0 n)).
Proof.
  intros Hi. apply in_map_iff. exists (Z.to_nat i). split; [lia|]. apply in_seq. lia.
Qed.

Ltac each_index H :=
  cbv [map seq Z.of_nat Pos.of_succ_nat Pos.succ] in H; cbn [In] in H;
  repeat (destruct H as [<-|H]; [|]); [..|destruct H].

Lemma getChannelByName_getLocalName (c : InputChannel) :
  0 <= mIndex c ->
  getChannelByName (getLocalName c)
  = (if isAxis c && (mIndex c <? NUM_AXES) then
       mkChannel TYPE_AXIS (mIndex c) (if mSign c <? 0 then -1 else 1)
     else if isButton c && (mIndex c <? NUM_BUTTONS) then
       InputChannel_new2 TYPE_BUTTON (mIndex c)
     else InputChannel_new).
Proof.
  intros H0. destruct c as [t i s]. unfold getLocalName, isAxis, isButton.
  cbn [mType mIndex mSign] in *.
  destruct t; cbn [ChannelType_eqb andb].
  - destruct (Z.ltb_spec i NUM_AXES) as [Hlt|Hge]; [|reflexivity].
    assert (Hin : In i (map Z.of_nat (seq 0 6)))
      by (apply index_cases; unfold NUM_AXES in Hlt; lia).
    destruct (s <? 0); [|destruct (0 <? s)]; each_index Hin; reflexivity.
  - destruct (Z.ltb_spec i NUM_BUTTONS) as [Hlt|Hge]; [|reflexivity].
    assert (Hin : In i (map Z.of_nat (seq 0 32)))
      by (apply index_cases; unfold NUM_BUTTONS in Hlt; lia).
    each_index Hin; reflexivity.
  - reflexivity.
Qed.

Lemma getLocalName_clean (c : InputChannel) :
  0 <= mIndex c -> clean_name (getLocalName c) = true.
Proof.
  intros H0. destruct c as [t i s]. unfold getLocalName.
  cbn [mType mIndex mSign] in *.
  destruct t; cbn [ChannelType_eqb andb].
  - destruct (Z.ltb_spec i NUM_AXES) as [Hlt|Hge]; [|reflexivity].
    assert (Hin : In i (map Z.of_nat (seq 0 6)))
      by (apply index_cases; unfold NUM_AXES in Hlt; lia).
    destruct (s <? 0); [|destruct (0 <? s)]; each_index Hin; reflexivity.
  - destruct (Z.ltb_spec i NUM_BUTTONS) as [Hlt|Hge]; [|reflexivity].
    assert (Hin : In i (map Z.of_nat (seq 0 32)))
      by (apply index_cases; unfold NUM_BUTTONS in Hlt; lia).
    each_index Hin; reflexivity.
  - reflexivity.
Qed.

(** X10: the name written by [getLocalName] reads back, by
    [getChannelByName], as the same axis or button: an axis below
    [NUM_AXES] with its index and the sign of [mSign] (a zero sign reads
    back as [+1]), a button below [NUM_BUTTONS] with its index, and every
    other channel as the "none" channel; an axis channel with sign [+1] or
    [-1] is read back exactly. *)
Theorem getLocalName_roundtrip (c : InputChannel) :
  0 <= mIndex c ->
  getChannelByName (getLocalName c)
  = (if isAxis c && (mIndex c <? NUM_AXES) then
       mkChannel TYPE_AXIS (mIndex c) (if mSign c <? 0 then -1 else 1)
     else if isButton c && (mIndex c <? NUM_BUTTONS) then
       InputChannel_new2 TYPE_BUTTON (mIndex c)
     else InputChannel_new)
  /\ (isAxis c = true -> mIndex c < NUM_AXES -> mSign c = 1 \/ mSign c = -1 ->
      getChannelByName (getLocalName c) = c).
Proof.
  intros H0. pose proof (getChannelByName_getLocalName c H0) as Heq.
  split; [exact Heq|]. intros Ha Hlt Hs. rewrite Heq, Ha.
  destruct (Z.ltb_spec (mIndex c) NUM_AXES); [|lia]. cbn [andb].
  destruct c as [t i s]. unfold isAxis in Ha. cbn [mType mIndex mSign] in *.
  destruct t; try discriminate. by destruct Hs as [-> | ->].
Qed.

(** ** Remote names ([getRemoteName]) *)

Ltac each_Z i :=
  destruct i as [|i|i]; [| |];
  [ | do 5 (try destruct i as [i|i|]) | ].

Lemma getRemoteName_decode (c : InputChannel) :
  match channelOfRemoteName (getRemoteName c) with
  | Some (t, i) => hasRemoteName c = true /\ t = mType c /\ i = mIndex c
  | None => hasRemoteName c = false /\ getRemoteName c = " "%string
  end.
Proof.
  destruct c as [t i s]. destruct t; [| |by vm_compute]; each_Z i; by vm_compute.
Qed.

(** X11: [getRemoteName] has a name for the six axes and for the buttons
    below 21, and gives a single space for every other channel; the names
    are pairwise different, so that a name identifies the type and the index
    of its channel; the buttons 21 to 31 have a local name but no remote
    one. *)
Theorem getRemoteName_spec (c c' : InputChannel) :
  (getRemoteName c = " "%string <-> hasRemoteName c = false)
  /\ (hasRemoteName c = true -> getRemoteName c' = getRemoteName c ->
      mType c' = mType c /\ mIndex c' = mIndex c)
  /\ (isButton c = true -> 21 <= mIndex c < NUM_BUTTONS ->
      getRemoteName c = " "%string /\ getLocalName c <> "NONE"%string).
Proof.
  pose proof (getRemoteName_decode c) as Hc.
  pose proof (getRemoteName_decode c') as Hc'.
  split; [|split].
  - destruct (channelOfRemoteName (getRemoteName c)) as [[t i]|] eqn:E.
    + destruct Hc as (Hhas & _ & _). rewrite Hhas. split; [|done].
      intros Hsp. rewrite Hsp in E. by vm_compute in E.
    + by destruct Hc as [-> ->].
  - intros Hhas Heq. rewrite Heq in Hc'.
    destruct (channelOfRemoteName (getRemoteName c)) as [[t i]|].
    + destruct Hc as (_ & -> & ->), Hc' as (_ & -> & ->). done.
    + destruct Hc as [Hno _]. congruence.
  - intros Hb Hi.
    assert (Hno : hasRemoteName c = false).
    { destruct c as [t i s]. unfold isButton, hasRemoteName in *. cbn [mType mIndex] in *.
      destruct t; try discriminate. cbn [ChannelType_eqb].
      destruct (Z.ltb_spec i 21); [lia|]. apply andb_false_r. }
    split.
    + destruct (channelOfRemoteName (getRemoteName c)) as [[t i]|]; [|by destruct Hc].
      destruct Hc as [Hyes _]. congruence.
    + destruct c as [t i s]. unfold isButton, getLocalName in *. cbn [mType mIndex] in *.
      destruct t; try discriminate. cbn [ChannelType_eqb andb].
      destruct (Z.ltb_spec i NUM_BUTTONS); [|lia]. done.
Qed.

(** ** The active input channel ([getActiveInputChannel]) *)

Lemma find_seq_first (P : Z -> bool) (n a : nat) :
  match find P (map Z.of_nat (seq a n)) with
  | Some i => Z.of_nat a <= i < Z.of_nat (a + n) /\ P i = true
              /\ forall j, Z.of_nat a <= j < i -> P j = false
  | None => forall j, Z.of_nat a <= j < Z.of_nat (a + n) -> P j = false
  end.
Proof.
  revert a. induction n as [|n IH]; intros a; cbn [seq map find].
  - intros j Hj. lia.
  - destruct (P (Z.of_nat a)) eqn:E.
    + split; [lia|]. split; [done|]. intros j Hj. lia.
    + specialize (IH (S a)). destruct (find P (map Z.of_nat (seq (S a) n))) as [i|].
      * destruct IH as (Hi & HP & Hlow). split; [lia|]. split; [done|].
        intros j Hj. destruct (Z.eq_dec j (Z.of_nat a)) as [->|]; [done|]. apply Hlow. lia.
      * intros j Hj. destruct (Z.eq_dec j (Z.of_nat a)) as [->|]; [done|]. apply IH. lia.
Qed.

Lemma land_bit (b i : Z) :
  0 <= i -> negb (Z.land (Z.shiftl 1 i) b =? 0) = Z.testbit b i.
Proof.
  intros Hi. destruct (Z.testbit b i) eqn:E.
  - destruct (Z.eqb_spec (Z.land (Z.shiftl 1 i) b) 0) as [H0|]; [|done].
    apply (f_equal (fun z => Z.testbit z i)) in H0.
    rewrite Z.land_spec, testbit_shiftl_1, Z.eqb_refl, E, Z.bits_0 in H0 by done.
    discriminate.
  - replace (Z.land (Z.shiftl 1 i) b) with 0; [done|]. symmetry.
    apply Z.bits_inj'. intros n Hn.
    rewrite Z.land_spec, testbit_shiftl_1, Z.bits_0 by done.
    destruct (Z.eqb_spec i n) as [->|]; [by rewrite E|done].
Qed.

Lemma U32_no_bits (b : Z) :
  is_U32 b -> (forall j, 0 <= j < 32 -> Z.testbit b j = false) -> b = 0.
Proof.
  intros Hu Hbits. apply Z.bits_inj'. intros n Hn. rewrite Z.bits_0.
  destruct (Z.lt_ge_cases n 32) as [Hlt|Hge]; [apply Hbits; lia|].
  pose proof (U32_log2 b Hu). destruct Hu.
  destruct (Z.eq_dec b 0) as [->|]; [apply Z.bits_0|].
  apply Z.bits_above_log2; lia.
Qed.

(** X12: with a button pressed in the published state,
    [getActiveInputChannel] is the button channel of the lowest pressed
    button, whatever the axes are; with no button pressed it is the first
    axis deflected beyond half of the range (more than 16383 either way),
    with the sign of its value, and the "none" channel when no axis is. *)
Theorem getActiveInputChannel_spec (g : Globals) :
  let buttons := mButtons (g_finalState g) in
  let axes := mAxes (g_finalState g) in
  is_U32 buttons ->
  (buttons <> 0 ->
   exists i, getActiveInputChannel g = InputChannel_new2 TYPE_BUTTON i
             /\ 0 <= i < NUM_BUTTONS
             /\ Z.testbit buttons i = true
             /\ forall j, 0 <= j < i -> Z.testbit buttons j = false)
  /\ (buttons = 0 ->
      (forall i, 0 <= i < NUM_AXES -> Z.abs (vget axes i) <= 16383) ->
      getActiveInputChannel g = InputChannel_new)
  /\ (buttons = 0 ->
      forall i, 0 <= i < NUM_AXES -> 16383 < Z.abs (vget axes i) ->
      (forall j, 0 <= j < i -> Z.abs (vget axes j) <= 16383) ->
      getActiveInputChannel g
      = mkChannel TYPE_AXIS i (if 0 <? vget axes i then 1 else -1)).
Proof.
  intros buttons axes Hu. unfold getActiveInputChannel. cbv zeta.
  fold buttons. fold axes. change (S16_MAX / 2) with 16383.
  split; [|split].
  - intros Hnz. destruct (Z.ltb_spec 0 buttons) as [_|Hle]; [|destruct Hu; lia].
    pose proof (find_seq_first
      (fun i => negb (Z.land (Z.shiftl 1 i) buttons =? 0)) 32 0) as Hfind.
    unfold button_indices.
    destruct (find _ (map Z.of_nat (seq 0 32))) as [i|].
    + destruct Hfind as (Hi & Hset & Hlow). exists i.
      split; [done|]. split; [unfold NUM_BUTTONS; lia|].
      split; [by rewrite <- land_bit by lia|].
      intros j Hj. rewrite <- land_bit by lia. apply Hlow. lia.
    + exfalso. apply Hnz, U32_no_bits; [done|].
      intros j Hj. rewrite <- land_bit by lia. apply Hfind. lia.
  - intros -> Hsmall. cbn [Z.ltb Z.compare].
    pose proof (find_seq_first (fun i => 16383 <? Z.abs (vget axes i)) 6 0) as Hfind.
    unfold axis_indices. change (Z.to_nat NUM_AXES) with 6%nat.
    destruct (find _ (map Z.of_nat (seq 0 6))) as [i|]; [|done].
    destruct Hfind as (Hi & Hset & _). apply Z.ltb_lt in Hset.
    specialize (Hsmall i). unfold NUM_AXES in Hsmall. lia.
  - intros -> i Hi Hbig Hlow. cbn [Z.ltb Z.compare].
    pose proof (find_seq_first (fun i => 16383 <? Z.abs (vget axes i)) 6 0) as Hfind.
    unfold axis_indices. change (Z.to_nat NUM_AXES) with 6%nat.
    unfold NUM_AXES in Hi.
    destruct (find _ (map Z.of_nat (seq 0 6))) as [k|].
    + destruct Hfind as (Hk & Hset & Hlowk). apply Z.ltb_lt in Hset.
      assert (k = i) as ->; [|done].
      destruct (Z.lt_trichotomy k i) as [Hlt|[Heq|Hgt]]; [|done|].
      * specialize (Hlow k). lia.
      * specialize (Hlowk i ltac:(lia)). apply Z.ltb_ge in Hlowk. lia.
    + specialize (Hfind i ltac:(lia)). apply Z.ltb_ge in Hfind. lia.
Qed.


(** ** The time between two sends *)

(** X13: right after a send at time [t0], and as long as the merged state
    does not change, [computeFinalStateAndCheckForChanges] asks for the next
    packet exactly when sending is enabled and the clock has passed
    [t0] plus the resend period; the period is at least 100 ms then, so no
    packet is due during the first 100 ms. *)
Theorem resend_not_before_period (g : Globals) (t0 t : Z) :
  g_nextResendPeriod g = 0
  \/ FIRST_RESEND_PERIOD <= g_nextResendPeriod g
     /\ g_nextResendPeriod g * RESEND_EXPANSION_RATE < 2 ^ 64 ->
  mButtons (g_finalState g)
  = finalButtons (g_manager g) (g_translateAgentActions g) ->
  (forall i, 0 <= i < NUM_AXES ->
     vget (mAxes (g_finalState g)) i
     = finalAxis (g_manager g) (g_translateAgentActions g) i) ->
  let g1 := updateResendPeriod g t0 in
  0 <= t0 -> t0 + g_nextResendPeriod g1 < 2 ^ 64 ->
  let r := computeFinalStateAndCheckForChanges g1 t in
  snd r = g_sendToServer g && (t0 + g_nextResendPeriod g1 <? t)
  /\ FIRST_RESEND_PERIOD <= g_nextResendPeriod g1
  /\ (t <= t0 + FIRST_RESEND_PERIOD -> snd r = false)
  /\ g_nextResendPeriod (fst r) = g_nextResendPeriod g1.
Proof.
  intros Hp Hb Ha g1 Ht0 Hsum r.
  assert (Hper : FIRST_RESEND_PERIOD <= g_nextResendPeriod g1).
  { unfold g1, updateResendPeriod.
    destruct (Z.eqb_spec (g_nextResendPeriod g) 0) as [H0|Hnz]; cbn [g_nextResendPeriod].
    - lia.
    - destruct Hp as [?|[Hlo Hhi]]; [done|].
      unfold to_U64. rewrite Z.mod_small; unfold FIRST_RESEND_PERIOD, MSEC_PER_NSEC,
        RESEND_EXPANSION_RATE in *; lia. }
  assert (Hfields : g_manager g1 = g_manager g
                    /\ g_translateAgentActions g1 = g_translateAgentActions g
                    /\ g_sendToServer g1 = g_sendToServer g
                    /\ g_lastSend g1 = t0
                    /\ mButtons (g_finalState g1) = mButtons (g_finalState g)
                    /\ mAxes (g_finalState g1) = mAxes (g_finalState g)).
  { unfold g1, updateResendPeriod. by destruct (g_nextResendPeriod g =? 0). }
  destruct Hfields as (Hm & Htr & Hsend & Hlast & Hbt & Hax).
  assert (Hstable : computeFinalState (g_manager g1) (g_translateAgentActions g1)
                      (g_finalState g1) (g_nextResendPeriod g1)
                    = (g_finalState g1, g_nextResendPeriod g1)).
  { apply computeFinalState_stable; rewrite Hm, Htr; [by rewrite Hbt|].
    intros i Hi. rewrite Hax. by apply Ha. }
  assert (Hsnd : snd r = g_sendToServer g && (t0 + g_nextResendPeriod g1 <? t)).
  { unfold r, computeFinalStateAndCheckForChanges. cbv zeta. rewrite Hstable.
    cbn [fst snd]. rewrite Hsend, Hlast. unfold to_U64.
    rewrite Z.mod_small by (unfold FIRST_RESEND_PERIOD, MSEC_PER_NSEC in Hper; lia). done. }
  split; [exact Hsnd|]. split; [exact Hper|]. split.
  - intros Ht. rewrite Hsnd. destruct (Z.ltb_spec (t0 + g_nextResendPeriod g1) t); [lia|].
    apply andb_false_r.
  - unfold r, computeFinalStateAndCheckForChanges. cbv zeta. rewrite Hstable. done.
Qed.

(** ** External input ([setExternalInput]) *)

(** X14: [setExternalInput] only looks at the bits of interest of the
    action flags.  With translation enabled, a first call stores the state
    translated from the flags, the given buttons OR'ed into its mask, when
    the active flags differ from the last ones; a second call with the same
    arguments finds the active flags unchanged and stores [buttons] alone,
    dropping the button bits that came from the translation while leaving
    the translated axes in place.  With translation disabled only the button
    mask of the external state is replaced. *)
Theorem setExternalInput_repeated (m : LLGameControllerManager) (action_flags buttons : Z) :
  let flags := Z.land action_flags BITS_OF_INTEREST in
  let active := Z.land flags (getMappedFlags m) in
  let translated := computeStateFromFlags (mActionTranslator m) flags in
  let m1 := setExternalInput m true action_flags buttons in
  let m2 := setExternalInput m1 true action_flags buttons in
  let m0 := setExternalInput m false action_flags buttons in
  setExternalInput m true flags buttons = m1
  /\ mLastActiveFlags m1 = active
  /\ mExternalState m1
     = (if active =? mLastActiveFlags m then set_mButtons (mExternalState m) buttons
        else set_mButtons translated (Z.lor (mButtons translated) buttons))
  /\ mButtons (mExternalState m2) = buttons
  /\ mAxes (mExternalState m2) = mAxes (mExternalState m1)
  /\ mLastActiveFlags m2 = active
  /\ mExternalState m0 = set_mButtons (mExternalState m) buttons
  /\ mLastActiveFlags m0 = mLastActiveFlags m.
Proof.
  intros flags active translated m1 m2 m0.
  assert (Hidem : Z.land flags BITS_OF_INTEREST = flags).
  { unfold flags. by rewrite <- Z.land_assoc, Z.land_diag. }
  assert (H1 : mLastActiveFlags m1 = active
               /\ mExternalState m1
                  = (if active =? mLastActiveFlags m
                     then set_mButtons (mExternalState m) buttons
                     else set_mButtons translated (Z.lor (mButtons translated) buttons))
               /\ mActionTranslator m1 = mActionTranslator m).
  { unfold m1, setExternalInput. cbv zeta. fold flags. fold (getMappedFlags m). fold active.
    fold translated.
    destruct (Z.eqb_spec active (mLastActiveFlags m)) as [Heq|Hne]; cbn [negb]; done. }
  destruct H1 as (Hlast1 & Hext1 & Htr1).
  split; [|split; [exact Hlast1|split; [exact Hext1|]]].
  - unfold m1, setExternalInput. fold flags. by rewrite Hidem.
  - assert (H2 : m2 = set_external m1 (set_mButtons (mExternalState m1) buttons)
                        (mLastActiveFlags m1)).
    { unfold m2, setExternalInput. cbv zeta. fold flags. rewrite Htr1.
      fold (getMappedFlags m). fold active. rewrite Hlast1, Z.eqb_refl. done. }
    rewrite H2. cbn [set_external set_mButtons mExternalState mButtons mAxes
                     mLastActiveFlags].
    done.
Qed.

(** ** The action map ([updateActionMap], [getChannelByAction]) *)

Lemma mActions_no_unknown (action : string) :
  mActions !! action <> Some ACTION_NAME_UNKNOWN.
Proof.
  intros E. apply elem_of_map_to_list in E. vm_compute in E.
  repeat (apply elem_of_cons in E as [E|E]; [discriminate E|]).
  by apply elem_of_nil in E.
Qed.

(** X15: [updateActionMap] refuses an action name that the manager does not
    know, returning false and leaving the manager as it is, and
    [getChannelByAction] gives the "none" channel for it.  For a flycam
    action it returns true and the channel is read back by
    [getChannelByAction], the channels of the other flycam actions and the
    translator being left as they were. *)
Theorem updateActionMap_flycam (m : LLGameControllerManager) (action : string)
    (channel : InputChannel) :
  (getActionNameType action = ACTION_NAME_UNKNOWN ->
   updateActionMap m action channel = (m, false)
   /\ getChannelByAction m action = InputChannel_new)
  /\ (getActionNameType action = ACTION_NAME_FLYCAM ->
      length (mFlycamChannels m) = length mFlycamActions ->
      let r := updateActionMap m action channel in
      snd r = true
      /\ getChannelByAction (fst r) action = channel
      /\ (forall other, getActionNameType other = ACTION_NAME_FLYCAM -> other <> action ->
            getChannelByAction (fst r) other = getChannelByAction m other)
      /\ mActionTranslator (fst r) = mActionTranslator m).
Proof.
  assert (Hfly : forall a, getActionNameType a = ACTION_NAME_FLYCAM ->
            mActions !! a = Some ACTION_NAME_FLYCAM
            /\ (indexOf mFlycamActions a < 6)%nat
            /\ nth (indexOf mFlycamActions a) mFlycamActions EmptyString = a).
  { intros a Ha. unfold getActionNameType in Ha.
    destruct (mActions !! a) as [t|] eqn:E; simpl in Ha; [|discriminate].
    subst t. split; [done|].
    apply elem_of_map_to_list in E. vm_compute in E.
    repeat (apply elem_of_cons in E as [E|E];
            [first [discriminate E
                   | injection E as ->; split; [vm_compute; lia|reflexivity]]|]).
    by apply elem_of_nil in E. }
  split.
  - unfold getActionNameType, updateActionMap, getChannelByAction.
    pose proof (mActions_no_unknown action) as Hno.
    destruct (mActions !! action) as [t|]; simpl; [|done].
    intros ->. done.
  - intros Ha Hlen r. destruct (Hfly action Ha) as (E & Hidx & _).
    change (length mFlycamActions) with 6%nat in Hlen.
    unfold r, updateActionMap, getChannelByAction. rewrite E. cbn [fst snd].
    split; [done|]. split; [|split; [|done]].
    + unfold getFlycamChannelByAction, updateFlycamMap.
      cbn [set_mFlycamChannels mFlycamChannels].
      apply nth_lookup_Some. apply list_lookup_insert_eq. lia.
    + intros other Ho Hne. destruct (Hfly other Ho) as (Eo & Hio & Hnth).
      destruct (Hfly action Ha) as (_ & _ & Hntha).
      rewrite Eo. unfold getFlycamChannelByAction, updateFlycamMap.
      cbn [set_mFlycamChannels mFlycamChannels].
      rewrite !nth_lookup, list_lookup_insert_ne; [done|].
      intros Heq. apply Hne. rewrite <- Hnth, <- Hntha. by rewrite Heq.
Qed.

(** ** The range of the flycam inputs *)

Lemma S16_from_elem (n : nat) (v x : Z) :
  v <= x < v + Z.of_nat n -> In x (S16_from n v).
Proof.
  revert v. induction n as [|n IH]; intros v Hx; [lia|]. cbn [S16_from In].
  destruct (Z.eq_dec v x) as [->|Hne]; [by left|]. right. apply IH. lia.
Qed.

Lemma flycamScale_all_ok : forallb flycamScale_ok (S16_from (Z.to_nat 65536) S16_MIN) = true.
Proof. by vm_compute. Qed.

Lemma flycamScale_range (axis sign : Z) :
  is_S16 axis -> sign = -1 \/ sign = 0 \/ sign = 1 ->
  is_finite (flycamScale axis sign) = true
  /\ (-1 <= F32_to_Q (flycamScale axis sign) <= 1)%Q.
Proof.
  intros Ha Hs. pose proof flycamScale_all_ok as Hall.
  rewrite forallb_forall in Hall. specialize (Hall axis).
  unfold flycamScale_ok in Hall. rewrite forallb_forall in Hall.
  assert (Hin : In axis (S16_from (Z.to_nat 65536) S16_MIN)).
  { apply S16_from_elem. unfold is_S16, S16_MIN, S16_MAX in *. lia. }
  specialize (Hall Hin sign).
  assert (Hsin : In sign [-1; 0; 1]).
  { cbn [In]. destruct Hs as [->|[->| ->]]; auto. }
  specialize (Hall Hsin). cbv zeta in Hall.
  apply andb_true_iff in Hall as [Hall Hle1]. apply andb_true_iff in Hall as [Hfin Hle0].
  split; [done|]. split; by apply Qle_bool_iff.
Qed.


(** X16: [getFlycamInputs] appends one entry per flycam channel to the
    inputs it is given.  For a channel whose index is one of the triggers or
    lies within the vector of accumulators, and whose sign is -1, 0 or 1,
    the entry is a finite number between -1 and 1, whatever the accumulated
    values are (also beyond the [S16] range); for every other index the
    source reads outside the vector, and there is no value. *)
Theorem getFlycamInputs_range (m : LLGameControllerManager) (inputs : list spec_float)
    (k : nat) (channel : InputChannel) :
  mFlycamChannels m !! k = Some channel ->
  mSign channel = -1 \/ mSign channel = 0 \/ mSign channel = 1 ->
  let readable :=
    mIndex channel = AXIS_TRIGGERLEFT \/ mIndex channel = AXIS_TRIGGERRIGHT
    \/ 0 <= mIndex channel < Z.of_nat (length (mAxesAccumulator m)) in
  length (getFlycamInputs m inputs) = (length inputs + length (mFlycamChannels m))%nat
  /\ take (length inputs) (getFlycamInputs m inputs) = map Some inputs
  /\ getFlycamInputs m inputs !! (length inputs + k)%nat
     = Some (flycamInput (mAxesAccumulator m) channel)
  /\ (readable ->
      exists output, flycamInput (mAxesAccumulator m) channel = Some output
                     /\ is_finite output = true
                     /\ (-1 <= F32_to_Q output <= 1)%Q)
  /\ (~ readable -> flycamInput (mAxesAccumulator m) channel = None).
Proof.
  intros Hk Hs readable. unfold getFlycamInputs.
  split; [by rewrite length_app, !length_map|].
  split; [by rewrite <- (length_map Some inputs), take_app_length|]. split.
  - rewrite lookup_app_r by (rewrite length_map; lia). rewrite length_map.
    replace (length inputs + k - length inputs)%nat with k by lia.
    rewrite list_lookup_fmap, Hk. done.
  - assert (Haxis : match flycamAxis (mAxesAccumulator m) channel with
                    | Some axis => readable /\ is_S16 axis
                    | None => ~ readable
                    end).
    { unfold flycamAxis, readable, vget_unchecked.
      destruct (Z.eqb_spec (mIndex channel) AXIS_TRIGGERLEFT) as [Hl|Hl]; cbn [orb].
      - split; [by left|apply clampAxis_range].
      - destruct (Z.eqb_spec (mIndex channel) AXIS_TRIGGERRIGHT) as [Hr|Hr].
        + split; [by right; left|apply clampAxis_range].
        + destruct (Z.leb_spec 0 (mIndex channel)),
            (Z.ltb_spec (mIndex channel) (Z.of_nat (length (mAxesAccumulator m))));
            cbn [andb fmap option_fmap option_map];
            try (split; [right; right; lia|apply clampAxis_range]);
            intros [?|[?|?]]; lia. }
    unfold flycamInput.
    destruct (flycamAxis (mAxesAccumulator m) channel) as [axis|];
      cbn [fmap option_fmap option_map].
    + destruct Haxis as [Hread Hrange]. split; [|done].
      intros _. exists (flycamScale axis (mSign channel)).
      split; [done|]. by apply flycamScale_range.
    + split; [done|by intros _].
Qed.

(** ** Mapping strings written and read back *)

Lemma append_cons (x : ascii) (a b : string) : String x a +:+ b = String x (a +:+ b).
Proof. reflexivity. Qed.

Lemma append_nil_l (b : string) : EmptyString +:+ b = b.
Proof. reflexivity. Qed.

Lemma append_assoc (a b c : string) : (a +:+ b) +:+ c = a +:+ (b +:+ c).
Proof. induction a as [|x a IH]; [done|]. rewrite !append_cons. by rewrite IH. Qed.

Lemma append_nil_r (a : string) : a +:+ EmptyString = a.
Proof. induction a as [|x a IH]; [done|]. rewrite append_cons. by rewrite IH. Qed.

Lemma length_append (a b : string) :
  String.length (a +:+ b) = (String.length a + String.length b)%nat.
Proof.
  induction a as [|x a IH]; [done|]. rewrite append_cons. cbn [String.length].
  by rewrite IH.
Qed.

Lemma substring_0_all (s : string) (m : nat) :
  (String.length s <= m)%nat -> substring 0 m s = s.
Proof.
  revert m. induction s as [|x s IH]; intros m Hm.
  - by destruct m.
  - cbn [String.length] in Hm. destruct m as [|m]; [lia|].
    cbn [substring]. rewrite IH; [done|lia].
Qed.

Lemma substring_0_app (p q : string) : substring 0 (String.length p) (p +:+ q) = p.
Proof.
  induction p as [|x p IH]; rewrite ?append_cons, ?append_nil_l;
    cbn [String.length substring].
  - by destruct q.
  - by rewrite IH.
Qed.

Lemma substring_after (p q : string) (c : ascii) (m : nat) :
  (String.length q <= m)%nat ->
  substring (S (String.length p)) m (p +:+ String c q) = q.
Proof.
  intros Hm. induction p as [|x p IH]; rewrite ?append_cons, ?append_nil_l;
    cbn [String.length substring].
  - by apply substring_0_all.
  - exact IH.
Qed.

Lemma dropLast_cons (c : ascii) (s : string) :
  s <> EmptyString -> dropLast (String c s) = String c (dropLast s).
Proof.
  intros Hne. destruct s as [|x s]; [done|]. unfold dropLast.
  cbn [String.length Nat.sub substring]. by rewrite Nat.sub_0_r.
Qed.

Lemma append_not_nil (p : string) (c : ascii) (r : string) : p +:+ String c r <> EmptyString.
Proof. by destruct p. Qed.

Lemma dropLast_app (p r : string) :
  r <> EmptyString -> dropLast (p +:+ r) = p +:+ dropLast r.
Proof.
  intros Hne. induction p as [|x p IH]; [done|]. rewrite !append_cons.
  rewrite dropLast_cons, IH; [done|]. destruct p; [done|]. done.
Qed.

Lemma dropLast_last (p : string) (c : ascii) : dropLast (p +:+ String c EmptyString) = p.
Proof.
  unfold dropLast. rewrite length_append. cbn [String.length].
  replace (String.length p + 1 - 1)%nat with (String.length p) by lia.
  apply substring_0_app.
Qed.

Lemma string_find_app (s t : string) (c : ascii) :
  string_find s c = None ->
  string_find (s +:+ t) c = option_map (Nat.add (String.length s)) (string_find t c).
Proof.
  induction s as [|x s IH]; rewrite ?append_cons, ?append_nil_l;
    cbn [string_find String.length].
  - intros _. by destruct (string_find t c).
  - destruct (Ascii.eqb x c); [discriminate|].
    destruct (string_find s c); [discriminate|]. intros _. rewrite IH by done.
    by destruct (string_find t c).
Qed.

Lemma splitString_clean (s : string) (c : ascii) :
  string_find s c = None -> splitString s c = [s].
Proof.
  induction s as [|x s IH]; cbn [string_find splitString]; [done|].
  destruct (Ascii.eqb x c); [discriminate|].
  destruct (string_find s c); [discriminate|]. intros _. by rewrite IH.
Qed.

Lemma splitString_app (s r : string) (c : ascii) :
  string_find s c = None -> splitString (s +:+ String c r) c = s :: splitString r c.
Proof.
  induction s as [|x s IH]; rewrite ?append_cons, ?append_nil_l;
    cbn [string_find splitString].
  - intros _. by rewrite Ascii.eqb_refl.
  - destruct (Ascii.eqb x c); [discriminate|].
    destruct (string_find s c); [discriminate|]. intros _. by rewrite IH.
Qed.

Lemma clean_name_spec (s : string) :
  clean_name s = true ->
  s <> EmptyString /\ string_find s ","%char = None /\ string_find s ":"%char = None.
Proof.
  unfold clean_name. intros H.
  apply andb_true_iff in H as [H Hcolon]. apply andb_true_iff in H as [Hne Hcomma].
  split; [by destruct s|].
  split; [by destruct (string_find s ",")|by destruct (string_find s ":")].
Qed.

Lemma mappingPiece_comma (kv : string * string) :
  clean_name (fst kv) = true -> clean_name (snd kv) = true ->
  string_find (mappingPiece kv) ","%char = None.
Proof.
  intros (_ & Hk & _)%clean_name_spec (_ & Hv & _)%clean_name_spec.
  unfold mappingPiece. rewrite string_find_app by done.
  rewrite append_cons, append_nil_l. cbn [string_find].
  change (Ascii.eqb ":" ",") with false. cbv iota.
  by rewrite Hv.
Qed.

Lemma joined_not_nil (p : string) (ps : list string) : joined (p :: ps) <> EmptyString.
Proof. cbn [joined fold_right]. apply append_not_nil. Qed.

Lemma splitString_joined (ps : list string) :
  ps <> [] -> Forall (fun p => string_find p ","%char = None) ps ->
  splitString (dropLast (joined ps)) ","%char = ps.
Proof.
  intros Hne Hall. induction Hall as [|p ps Hp Hall IH]; [done|].
  cbn [joined fold_right]. fold (joined ps).
  destruct ps as [|q ps].
  - cbn [joined fold_right]. rewrite append_cons, !append_nil_l, dropLast_last.
    by apply splitString_clean.
  - rewrite append_cons, append_nil_l.
    rewrite dropLast_app by done.
    rewrite dropLast_cons by apply joined_not_nil.
    rewrite splitString_app by done. by rewrite IH.
Qed.

Lemma getMappings_joined (actions : list string) (type : ChannelType)
    (getChannel : string -> InputChannel) :
  let pieces := map mappingPiece (mappingPairs actions type getChannel) in
  getMappings actions type getChannel
  = match pieces with [] => EmptyString | _ => dropLast (joined pieces) end.
Proof.
  cbv zeta. unfold getMappings.
  assert (Hfold : forall acc,
    fold_left
      (fun result action =>
         let channel := getChannel action in
         if ChannelType_eqb (mType channel) type
         then result +:+ (action +:+ ":" +:+ getLocalName channel +:+ ",")
         else result) actions acc
    = acc +:+ joined (map mappingPiece (mappingPairs actions type getChannel))).
  { induction actions as [|a actions IH]; intros acc; cbn [fold_left].
    - cbn [mappingPairs flat_map map joined fold_right]. by rewrite append_nil_r.
    - rewrite IH. cbv zeta. unfold mappingPairs. cbn [flat_map].
      destruct (ChannelType_eqb (mType (getChannel a)) type); [|done].
      cbn [app map joined fold_right]. unfold mappingPiece at 2. cbn [fst snd].
      rewrite !append_assoc. done. }
  rewrite Hfold, append_nil_l.
  destruct (map mappingPiece (mappingPairs actions type getChannel)) as [|p ps]; [done|].
  pose proof (joined_not_nil p ps) as Hne.
  destruct (joined (p :: ps)); [done|]. done.
Qed.

Lemma parse_piece (kv : string * string) (pairs : gmap string string) :
  clean_name (fst kv) = true ->
  match string_find (mappingPiece kv) ":"%char with
  | Some pos =>
      if (0 <? pos)%nat then
        <[substring 0 pos (mappingPiece kv) :=
            substring (S pos) (String.length (mappingPiece kv)) (mappingPiece kv)]> pairs
      else pairs
  | None => pairs
  end = <[fst kv := snd kv]> pairs.
Proof.
  intros (Hne & _ & Hcolon)%clean_name_spec. unfold mappingPiece.
  rewrite string_find_app by done. rewrite append_cons, append_nil_l.
  cbn [string_find]. rewrite Ascii.eqb_refl. cbn [option_map]. rewrite Nat.add_0_r.
  destruct (fst kv) as [|x k] eqn:E; [done|]. rewrite <- E.
  replace (0 <? String.length (fst kv))%nat with true
    by (rewrite E; done).
  rewrite substring_0_app, substring_after; [done|].
  rewrite length_append. cbn [String.length]. lia.
Qed.

Lemma lookup_fold_insert (kvs : list (string * string)) :
  forall (pairs : gmap string string) (k : string),
  NoDup (map fst kvs) ->
  fold_left (fun pairs kv => <[fst kv := snd kv]> pairs) kvs pairs !! k
  = match find (fun kv => String.eqb (fst kv) k) kvs with
    | Some kv => Some (snd kv)
    | None => pairs !! k
    end.
Proof.
  induction kvs as [|kv kvs IH]; intros pairs k Hnd; cbn [fold_left find]; [done|].
  cbn [map] in Hnd. apply NoDup_cons in Hnd as [Hnotin Hnd].
  rewrite IH by done.
  destruct (String.eqb_spec (fst kv) k) as [<-|Hne].
  - destruct (find _ kvs) as [kv'|] eqn:E; [|by rewrite lookup_insert_eq].
    exfalso. apply find_some in E as [Hin Heq]. apply String.eqb_eq in Heq.
    apply Hnotin. rewrite <- Heq. apply list_elem_of_fmap. exists kv'.
    split; [done|]. by apply list_elem_of_In.
  - destruct (find _ kvs); [done|]. by rewrite lookup_insert_ne.
Qed.

Lemma find_mappingPairs (actions : list string) (type : ChannelType)
    (getChannel : string -> InputChannel) (k : string) :
  find (fun kv => String.eqb (fst kv) k) (mappingPairs actions type getChannel)
  = if existsb (String.eqb k) actions && ChannelType_eqb (mType (getChannel k)) type
    then Some (k, getLocalName (getChannel k)) else None.
Proof.
  unfold mappingPairs. induction actions as [|a actions IH]; [done|].
  cbn [flat_map existsb]. rewrite (String.eqb_sym k a).
  destruct (String.eqb_spec a k) as [->|Hne]; cbn [orb].
  - destruct (ChannelType_eqb (mType (getChannel k)) type) eqn:E; cbn [app find fst].
    + by rewrite String.eqb_refl.
    + rewrite IH. by rewrite andb_false_r.
  - destruct (ChannelType_eqb (mType (getChannel a)) type); cbn [app find fst]; [|done].
    destruct (String.eqb_spec a k); [done|]. exact IH.
Qed.

Lemma mappingPairs_keys (actions : list string) (type : ChannelType)
    (getChannel : string -> InputChannel) :
  NoDup actions -> NoDup (map fst (mappingPairs actions type getChannel)).
Proof.
  unfold mappingPairs. induction 1 as [|a actions Hnotin Hnd IH]; [constructor|].
  cbn [flat_map]. destruct (ChannelType_eqb (mType (getChannel a)) type); [|done].
  cbn [app map fst]. apply NoDup_cons. split; [|done].
  intros Hin. apply Hnotin. apply list_elem_of_fmap in Hin as ([k v] & -> & Hin).
  apply list_elem_of_In, in_flat_map in Hin as (a' & Ha' & Hin).
  destruct (ChannelType_eqb (mType (getChannel a')) type); [|done].
  destruct Hin as [[= <- _]|[]]. by apply list_elem_of_In.
Qed.

(** What [setMappings] reads in a string written by [getMappings]. *)
Lemma parsePairs_getMappings (actions : list string) (type : ChannelType)
    (getChannel : string -> InputChannel) (k : string) :
  NoDup actions ->
  Forall (fun a => clean_name a = true) actions ->
  Forall (fun a => 0 <= mIndex (getChannel a)) actions ->
  parsePairs (getMappings actions type getChannel) !! k
  = if existsb (String.eqb k) actions && ChannelType_eqb (mType (getChannel k)) type
    then Some (getLocalName (getChannel k)) else None.
Proof.
  intros Hnd Hclean Hidx.
  set (kvs := mappingPairs actions type getChannel).
  assert (Hkvs : Forall (fun kv => clean_name (fst kv) = true
                                   /\ clean_name (snd kv) = true) kvs).
  { apply Forall_forall. intros [a n] Hin.
    apply list_elem_of_In, in_flat_map in Hin as (a' & Ha' & Hin).
    destruct (ChannelType_eqb (mType (getChannel a')) type); [|done].
    destruct Hin as [[= <- <-]|[]]. cbn [fst snd]. split.
    - by apply (proj1 (Forall_forall _ _) Hclean), list_elem_of_In.
    - apply getLocalName_clean.
      by apply (proj1 (Forall_forall _ _) Hidx), list_elem_of_In. }
  assert (Hparse : parsePairs (getMappings actions type getChannel)
                   = fold_left (fun pairs kv => <[fst kv := snd kv]> pairs) kvs ∅).
  { unfold parsePairs. rewrite getMappings_joined. cbv zeta. fold kvs.
    destruct (decide (kvs = [])) as [->|Hne]; [done|].
    replace (match map mappingPiece kvs with
             | [] => EmptyString
             | _ :: _ => dropLast (joined (map mappingPiece kvs))
             end)
      with (dropLast (joined (map mappingPiece kvs))) by (by destruct kvs).
    rewrite splitString_joined.
    - clear Hne. generalize (∅ : gmap string string).
      induction Hkvs as [|kv0 kvs0 [Hk Hv] _ IH]; intros pairs; [done|].
      cbn [map fold_left]. rewrite parse_piece by done. apply IH. 
    - by destruct kvs.
    - apply Forall_map. eapply Forall_impl; [exact Hkvs|].
      intros kv0 [Hk Hv]. by apply mappingPiece_comma. }
  rewrite Hparse, lookup_fold_insert by (by apply mappingPairs_keys).
  unfold kvs. rewrite find_mappingPairs.
  by destruct (existsb (String.eqb k) actions && ChannelType_eqb (mType (getChannel k)) type).
Qed.

Lemma setMappings_restored {A : Type} (mappings : string) (actions : list string)
    (type : ChannelType) (updateMap : A -> string -> InputChannel -> A) (target : A) :
  setMappings mappings actions type updateMap target
  = fold_left
      (fun target action =>
         updateMap target action (restoredChannel (parsePairs mappings) type action))
      actions target.
Proof.
  unfold setMappings. cbv zeta. revert target.
  induction actions as [|a actions IH]; intros target; [done|].
  cbn [fold_left]. rewrite IH. f_equal. unfold restoredChannel.
  destruct (parsePairs mappings !! a) as [name|]; [|done]. cbv zeta.
  by destruct (isNone (getChannelByName name)
               || ChannelType_eqb (mType (getChannelByName name)) type).
Qed.

Lemma setFlycamMappings_channels (m : LLGameControllerManager) (mappings : string) :
  length (mFlycamChannels m) = length mFlycamActions ->
  setFlycamMappings m mappings
  = set_mFlycamChannels m
      (map (restoredChannel (parsePairs mappings) TYPE_AXIS) mFlycamActions).
Proof.
  intros Hlen. unfold setFlycamMappings. rewrite setMappings_restored.
  generalize (restoredChannel (parsePairs mappings) TYPE_AXIS). intros f.
  destruct m as [st ext tr ch acc bt laf lff]. cbn [mFlycamChannels] in Hlen.
  destruct ch as [|c0 [|c1 [|c2 [|c3 [|c4 [|c5 [|c6 ch]]]]]]]; try discriminate Hlen.
  reflexivity.
Qed.


Lemma mFlycamActions_NoDup : NoDup mFlycamActions.
Proof. apply (bool_decide_unpack _). by vm_compute. Qed.

Lemma mFlycamActions_clean : Forall (fun a => clean_name a = true) mFlycamActions.
Proof. repeat constructor. Qed.

Lemma parsePairs_empty : parsePairs EmptyString = ∅.
Proof. reflexivity. Qed.

Lemma setFlycamMappings_getFlycamMappings (m m2 : LLGameControllerManager) :
  length (mFlycamChannels m) = length mFlycamActions ->
  length (mFlycamChannels m2) = length mFlycamActions ->
  Forall (fun c => 0 <= mIndex c) (mFlycamChannels m) ->
  setFlycamMappings m2 (getFlycamMappings m)
  = set_mFlycamChannels m2 (map rereadFlycamChannel (mFlycamChannels m)).
Proof.
  intros Hlen Hlen2 Hidx.
  assert (Hget : map (getFlycamChannelByAction m) mFlycamActions = mFlycamChannels m).
  { unfold getFlycamChannelByAction. destruct (mFlycamChannels m)
      as [|c0 [|c1 [|c2 [|c3 [|c4 [|c5 [|c6 ch]]]]]]]; try discriminate Hlen.
    reflexivity. }
  assert (Hidx' : Forall (fun a => 0 <= mIndex (getFlycamChannelByAction m a)) mFlycamActions).
  { apply Forall_forall. intros a Ha. apply (proj1 (Forall_forall _ _) Hidx).
    rewrite <- Hget. by apply list_elem_of_In, in_map, list_elem_of_In. }
  assert (Hre : forall a, a ∈ mFlycamActions ->
            restoredChannel (parsePairs (getFlycamMappings m)) TYPE_AXIS a
            = rereadFlycamChannel (getFlycamChannelByAction m a)).
  { intros a Ha. unfold restoredChannel, getFlycamMappings.
    rewrite (parsePairs_getMappings mFlycamActions TYPE_AXIS
               (fun action => getFlycamChannelByAction m action) a
               mFlycamActions_NoDup mFlycamActions_clean Hidx').
    assert (Hex : existsb (String.eqb a) mFlycamActions = true).
    { apply existsb_exists. exists a. split; [by apply list_elem_of_In|].
      apply String.eqb_refl. }
    rewrite Hex. cbn [andb]. set (c := getFlycamChannelByAction m a).
    assert (H0 : 0 <= mIndex c) by (by apply (proj1 (Forall_forall _ _) Hidx')).
    unfold rereadFlycamChannel. fold (isAxis c).
    destruct (isAxis c) eqn:Eax; cbn [andb]; [|done]. cbv zeta.
    rewrite (getChannelByName_getLocalName c H0), Eax. cbn [andb].
    replace (isButton c) with false by (unfold isAxis, isButton in *; by destruct (mType c)).
    cbn [andb]. by destruct (mIndex c <? NUM_AXES). }
  rewrite setFlycamMappings_channels by done. f_equal.
  rewrite <- Hget, map_map. apply map_ext_in. intros a Ha.
  by apply Hre, list_elem_of_In.
Qed.

(** X17: the flycam mappings written by [getFlycamMappings] and read back
    by [setFlycamMappings] give, for every flycam action, the channel it
    had when that is an axis below [NUM_AXES] (with sign [-1] for a negative
    [mSign] and [+1] otherwise), and the "none" channel in every other case;
    nothing else of the manager changes.  So a manager whose flycam channels
    are axes with sign [+1] or [-1], or default-constructed channels, is
    restored exactly.  An empty string unbinds every flycam action. *)
Theorem flycamMappings_roundtrip (m : LLGameControllerManager) :
  length (mFlycamChannels m) = length mFlycamActions ->
  Forall (fun c => 0 <= mIndex c) (mFlycamChannels m) ->
  let m' := setFlycamMappings m (getFlycamMappings m) in
  m' = set_mFlycamChannels m (map rereadFlycamChannel (mFlycamChannels m))
  /\ (Forall (fun c => c = InputChannel_new
                       \/ isAxis c = true /\ mIndex c < NUM_AXES
                          /\ (mSign c = 1 \/ mSign c = -1))
        (mFlycamChannels m) -> m' = m)
  /\ setFlycamMappings m EmptyString
     = set_mFlycamChannels m (map (fun _ => InputChannel_new) mFlycamActions).
Proof.
  intros Hlen Hidx m'.
  pose proof (setFlycamMappings_getFlycamMappings m m Hlen Hlen Hidx) as Hm'.
  fold m' in Hm'.
  split; [exact Hm'|]. split.
  - intros Hcanon. rewrite Hm'.
    replace (map rereadFlycamChannel (mFlycamChannels m)) with (mFlycamChannels m);
      [by destruct m|].
    rewrite <- (map_id (mFlycamChannels m)) at 1. apply map_ext_in. intros c Hc.
    apply list_elem_of_In in Hc. apply (proj1 (Forall_forall _ _) Hcanon) in Hc.
    unfold rereadFlycamChannel. destruct Hc as [->|(Hax & Hlt & Hs)]; [done|].
    rewrite Hax. destruct (Z.ltb_spec (mIndex c) NUM_AXES); [|lia]. cbn [andb].
    destruct c as [t i sg]. unfold isAxis in Hax. cbn [mType mIndex mSign] in *.
    destruct t; try discriminate. by destruct Hs as [-> | ->].
  - rewrite setFlycamMappings_channels by done. by rewrite parsePairs_empty.
Qed.

(** ** Settings written and read back ([saveToSettings]) *)

Lemma translatorUpdate_flycam (m : LLGameControllerManager) (action : string)
    (channel : InputChannel) :
  mFlycamChannels (translatorUpdate m action channel) = mFlycamChannels m.
Proof. done. Qed.

Section Store.

Context {A : Type}.
Variables (s_loadBoolean : A -> string -> bool)
          (s_saveBoolean : A -> string -> bool -> A)
          (s_loadString : A -> string -> string)
          (s_saveString : A -> string -> string -> A).

(** What the callbacks given to [init] are expected to do: a value that was
    saved under a key is the one loaded from it, and saving under a key
    leaves what is loaded from the other keys as it was. *)
Hypothesis loadBoolean_saved :
  forall store key value, s_loadBoolean (s_saveBoolean store key value) key = value.
Hypothesis loadBoolean_other :
  forall store key value key', key <> key' ->
    s_loadBoolean (s_saveBoolean store key value) key' = s_loadBoolean store key'.
Hypothesis loadBoolean_string :
  forall store key value key',
    s_loadBoolean (s_saveString store key value) key' = s_loadBoolean store key'.
Hypothesis loadString_saved :
  forall store key value, s_loadString (s_saveString store key value) key = value.
Hypothesis loadString_other :
  forall store key value key', key <> key' ->
    s_loadString (s_saveString store key value) key' = s_loadString store key'.

(** X18: [loadFromSettings] after [saveToSettings] restores the three
    options and the agent control mode, and restores the mappings from
    exactly the three strings that [getAnalogMappings], [getBinaryMappings]
    and [getFlycamMappings] wrote; the flycam channels read from them are
    the saved ones (each axis channel with its index and sign, every other
    channel as "none"), and they are kept unless the analog and binary
    strings leave no control bit mapped, in which case the defaults are
    installed. *)
Theorem settings_roundtrip (g g0 : Globals) (store : A) :
  length (mFlycamChannels (g_manager g)) = length mFlycamActions ->
  length (mFlycamChannels (g_manager g0)) = length mFlycamActions ->
  Forall (fun c => 0 <= mIndex c) (mFlycamChannels (g_manager g)) ->
  let store' := saveToSettings s_saveBoolean s_saveString g store in
  let g' := loadFromSettings g0 (s_loadBoolean store') (s_loadString store') in
  let analog := getAnalogMappings (g_manager g) in
  let binary := getBinaryMappings (g_manager g) in
  let flycam := getFlycamMappings (g_manager g) in
  let restored := restoreMappings (g_manager g0) analog binary flycam in
  g_sendToServer g' = g_sendToServer g
  /\ g_controlAgent g' = g_controlAgent g
  /\ g_translateAgentActions g' = g_translateAgentActions g
  /\ g_agentControlMode g' = g_agentControlMode g
  /\ mFlycamChannels restored = map rereadFlycamChannel (mFlycamChannels (g_manager g))
  /\ g_manager g'
     = (if string_empty analog && string_empty binary && string_empty flycam
        then initializeMappingsByDefault (g_manager g0)
        else if getMappedFlags restored =? 0 then initializeMappingsByDefault restored
        else restored).
Proof.
  intros Hlen Hlen0 Hidx store' g' analog binary flycam restored.
  assert (Hb1 : s_loadBoolean store' SETTING_SENDTOSERVER = g_sendToServer g).
  { unfold store', saveToSettings. cbv zeta. rewrite !loadBoolean_string.
    rewrite !loadBoolean_other by done. apply loadBoolean_saved. }
  assert (Hb2 : s_loadBoolean store' SETTING_CONTROLAGENT = g_controlAgent g).
  { unfold store', saveToSettings. cbv zeta. rewrite !loadBoolean_string.
    rewrite loadBoolean_other by done. apply loadBoolean_saved. }
  assert (Hb3 : s_loadBoolean store' SETTING_TRANSLATEACTIONS = g_translateAgentActions g).
  { unfold store', saveToSettings. cbv zeta. rewrite !loadBoolean_string.
    apply loadBoolean_saved. }
  assert (Hs4 : s_loadString store' SETTING_AGENTCONTROLMODE
                = convertAgentControlModeToString (g_agentControlMode g)).
  { unfold store', saveToSettings. cbv zeta.
    rewrite !loadString_other by done. apply loadString_saved. }
  assert (Hs5 : s_loadString store' SETTING_ANALOGMAPPINGS = analog).
  { unfold store', saveToSettings. cbv zeta.
    rewrite !loadString_other by done. apply loadString_saved. }
  assert (Hs6 : s_loadString store' SETTING_BINARYMAPPINGS = binary).
  { unfold store', saveToSettings. cbv zeta.
    rewrite loadString_other by done. apply loadString_saved. }
  assert (Hs7 : s_loadString store' SETTING_FLYCAMMAPPINGS = flycam).
  { unfold store', saveToSettings. cbv zeta. apply loadString_saved. }
  unfold g', loadFromSettings. cbv zeta.
  cbn [g_sendToServer g_controlAgent g_translateAgentActions g_agentControlMode g_manager].
  rewrite Hb1, Hb2, Hb3, Hs4, Hs5, Hs6, Hs7. fold restored.
  split; [done|]. split; [done|]. split; [done|].
  split; [by destruct (g_agentControlMode g)|]. split; [|done].
  unfold restored, restoreMappings, flycam.
  rewrite (setFlycamMappings_getFlycamMappings (g_manager g)); [done|done| |done].
  unfold setBinaryMappings, setAnalogMappings.
  apply (setMappings_preserves
           (fun m => length (mFlycamChannels m) = length mFlycamActions)).
  - intros m a c Hm. by rewrite translatorUpdate_flycam.
  - apply (setMappings_preserves
             (fun m => length (mFlycamChannels m) = length mFlycamActions)); [|done].
    intros m a c Hm. by rewrite translatorUpdate_flycam.
Qed.

(** X22: the four setters change the option they name and nothing else of
    the globals, and write it through to the store: once all four have been
    called, [loadFromSettings] from that store, into any globals, reads the
    four values back, and [willControlAvatar] holds exactly when the agent
    is controlled in avatar mode. *)
Theorem setters_persist (g g0 : Globals) (store : A) (send agent translate : bool)
    (mode : AgentControlMode) :
  let r1 := setSendToServer s_saveBoolean g store send in
  let r2 := setControlAgent s_saveBoolean (fst r1) (snd r1) agent in
  let r3 := setTranslateAgentActions s_saveBoolean (fst r2) (snd r2) translate in
  let r4 := setAgentControlMode s_saveString (fst r3) (snd r3) mode in
  let g' := loadFromSettings g0 (s_loadBoolean (snd r4)) (s_loadString (snd r4)) in
  fst r4 = set_options g send agent translate mode
  /\ g_sendToServer g' = send
  /\ g_controlAgent g' = agent
  /\ g_translateAgentActions g' = translate
  /\ g_agentControlMode g' = mode
  /\ willControlAvatar (fst r4)
     = agent && match mode with CONTROL_MODE_AVATAR => true | _ => false end.
Proof.
  cbv zeta. unfold setSendToServer, setControlAgent, setTranslateAgentActions,
    setAgentControlMode, loadFromSettings.
  cbn [fst snd set_options g_manager g_finalState g_lastSend g_nextResendPeriod
       g_sendToServer g_controlAgent g_translateAgentActions g_agentControlMode].
  split; [done|].
  rewrite !loadBoolean_string, loadString_saved.
  split; [|split; [|split; [|split]]].
  - rewrite !loadBoolean_other by done. apply loadBoolean_saved.
  - rewrite loadBoolean_other by done. apply loadBoolean_saved.
  - apply loadBoolean_saved.
  - by destruct mode.
  - unfold willControlAvatar. cbn [g_controlAgent g_agentControlMode].
    by destruct mode.
Qed.

End Store.

(** ** Mapping strings in general *)

Lemma fold_left_ext_in {A B : Type} (f g : A -> B -> A) (l : list B) (a : A) :
  (forall x b, b ∈ l -> f x b = g x b) -> fold_left f l a = fold_left g l a.
Proof.
  revert a. induction l as [|b l IH]; intros a Hfg; [done|]. cbn [fold_left].
  rewrite (Hfg a b) by apply list_elem_of_here.
  apply IH. intros x b' Hb'. apply Hfg. by apply list_elem_of_further.
Qed.

(** X19: a string written by the static [getMappings] (by
    [getAnalogMappings], [getBinaryMappings], [getFlycamMappings] or one of
    the [stringify...Mappings]) is read back by the static [setMappings]
    action by action: [updateMap] is called once for every action of the
    list, in order, with the channel that the action had when its type is
    the expected one and its index exists (an axis with sign [-1] or [+1], a
    button with the default sign), and with the "none" channel otherwise. *)
Theorem getMappings_setMappings {A : Type} (actions : list string) (type : ChannelType)
    (getChannel : string -> InputChannel)
    (updateMap : A -> string -> InputChannel -> A) (target : A) :
  NoDup actions ->
  Forall (fun action => clean_name action = true) actions ->
  Forall (fun action => 0 <= mIndex (getChannel action)) actions ->
  setMappings (getMappings actions type getChannel) actions type updateMap target
  = fold_left
      (fun target action => updateMap target action (rereadChannel type (getChannel action)))
      actions target.
Proof.
  intros Hnd Hclean Hidx. rewrite setMappings_restored.
  apply fold_left_ext_in. intros x a Ha. f_equal.
  unfold restoredChannel. rewrite parsePairs_getMappings by done.
  assert (Hex : existsb (String.eqb a) actions = true).
  { apply existsb_exists. exists a. split; [by apply list_elem_of_In|].
    apply String.eqb_refl. }
  rewrite Hex. cbn [andb]. set (c := getChannel a).
  assert (H0 : 0 <= mIndex c) by (by apply (proj1 (Forall_forall _ _) Hidx)).
  unfold rereadChannel.
  destruct (ChannelType_eqb (mType c) type) eqn:Et; [|done]. cbv zeta.
  rewrite (getChannelByName_getLocalName c H0). unfold isAxis, isButton.
  destruct (mType c), type; try discriminate Et; cbn [ChannelType_eqb andb].
  - by destruct (mIndex c <? NUM_AXES).
  - by destruct (mIndex c <? NUM_BUTTONS).
  - done.
Qed.

Lemma substring_length_le (n m : nat) (s : string) :
  (String.length (substring n m s) <= m)%nat.
Proof.
  revert n m. induction s as [|x s IH]; intros n m.
  - destruct n, m; cbn [substring String.length]; lia.
  - destruct n as [|n].
    + destruct m as [|m]; cbn [substring String.length]; [lia|].
      specialize (IH 0%nat m). lia.
    + cbn [substring]. apply IH.
Qed.

Lemma atoi_one_char (s : string) :
  (String.length s <= 1)%nat -> 0 <= to_U8 (atoi s) <= 9.
Proof.
  intros Hlen. destruct s as [|c [|c' s]]; [by vm_compute| |cbn [String.length] in Hlen; lia].
  destruct c as [[] [] [] [] [] [] [] []]; by vm_compute.
Qed.

Lemma restoredChannel_axis (pairs : gmap string string) (action : string) :
  let c := restoredChannel pairs TYPE_AXIS action in
  c = InputChannel_new
  \/ mType c = TYPE_AXIS /\ 0 <= mIndex c <= 9 /\ (mSign c = 1 \/ mSign c = -1).
Proof.
  cbv zeta. unfold restoredChannel.
  destruct (pairs !! action) as [name|]; [|by left]. cbv zeta.
  unfold getChannelByName. cbv zeta.
  destruct (strncmp_eq name "AXIS_" 5).
  - right. cbn [isNone mType mIndex mSign ChannelType_eqb orb].
    split; [done|]. split.
    + apply atoi_one_char, substring_length_le.
    + destruct (Ascii.eqb (back name) "-"); [by right|by left].
  - destruct (strncmp_eq name "BUTTON_" 7); by left.
Qed.

(** X20: whatever the mapping string is, [setFlycamMappings] assigns every
    flycam action anew, and only the "none" channel or an axis channel with
    sign [+1] or [-1]: a button is never bound to a flycam action.  The
    index of the axis is the one digit after ["AXIS_"], between 0 and 9; it
    is not compared with [NUM_AXES]. *)
Theorem setFlycamMappings_channels_bound (m : LLGameControllerManager)
    (mappings : string) (c : InputChannel) :
  length (mFlycamChannels m) = length mFlycamActions ->
  length (mFlycamChannels (setFlycamMappings m mappings)) = length mFlycamActions
  /\ (c ∈ mFlycamChannels (setFlycamMappings m mappings) ->
      c = InputChannel_new
      \/ mType c = TYPE_AXIS /\ 0 <= mIndex c <= 9 /\ (mSign c = 1 \/ mSign c = -1)).
Proof.
  intros Hlen. rewrite setFlycamMappings_channels by done.
  cbn [set_mFlycamChannels mFlycamChannels]. split; [by rewrite length_map|].
  intros Hc. apply list_elem_of_In, in_map_iff in Hc as (a & <- & _).
  apply restoredChannel_axis.
Qed.

(** ** A device that is unplugged *)

Lemma removeController_absent (states : list State) (id : Z) :
  findState id states = None -> removeController states id = states.
Proof.
  unfold removeController. induction states as [|s rest IH]; [done|].
  cbn [findState]. destruct (Z.eqb_spec (mJoystickID s) id) as [Heq|Hne]; [discriminate|].
  intros Hrest. rewrite filter_cons. destruct (decide (mJoystickID s ≠ id)); [|done].
  by rewrite IH.
Qed.

(** X21: unplugging a device takes exactly its contribution out of the
    accumulated state: with the devices all different, every accumulated
    axis after [removeController] is the one before minus the value that the
    removed device held, and the other devices are still there. *)
Theorem removeController_contribution (m : LLGameControllerManager) (id i : Z) (s : State) :
  length (mAxesAccumulator m) = Z.to_nat NUM_AXES ->
  wf_states (mStates m) ->
  Z.of_nat (length (mStates m)) <= 65536 ->
  0 <= i < NUM_AXES ->
  findState id (mStates m) = Some s ->
  let m' := mkManager (removeController (mStates m) id) (mExternalState m)
              (mActionTranslator m) (mFlycamChannels m) (mAxesAccumulator m)
              (mButtonAccumulator m) (mLastActiveFlags m) (mLastFlycamActionFlags m) in
  vget (mAxesAccumulator (accumulateInternalState m')) i
  = vget (mAxesAccumulator (accumulateInternalState m)) i - vget (mAxes s) i
  /\ findState id (mStates m') = None
  /\ (forall id', id' <> id -> findState id' (mStates m') = findState id' (mStates m)).
Proof.
  intros Hacc [Hnd Hwf] Hn Hi Hs m'.
  assert (Hsum : sumAxis (removeController (mStates m) id) i
                 = sumAxis (mStates m) i - vget (mAxes s) i).
  { clear Hwf Hn Hacc m'. revert Hnd Hs. generalize (mStates m). intros states.
    unfold sumAxis. induction states as [|s0 rest IH]; [discriminate|].
    cbn [map findState]. intros [Hnotin Hnd]%NoDup_cons.
    unfold removeController. rewrite filter_cons.
    destruct (Z.eqb_spec (mJoystickID s0) id) as [Heq|Hne].
    - intros [= ->]. destruct (decide (mJoystickID s ≠ id)); [done|].
      fold (removeController rest id). rewrite removeController_absent.
      + cbn [fold_right]. lia.
      + apply findState_None. by rewrite <- Heq.
    - intros Hrest. destruct (decide (mJoystickID s0 ≠ id)); [|done].
      cbn [fold_right]. fold (removeController rest id).
      rewrite IH by done. lia. }
  assert (Hlenle : Z.of_nat (length (removeController (mStates m) id)) <= 65536).
  { pose proof (length_filter (fun s0 => mJoystickID s0 ≠ id) (mStates m)).
    unfold removeController. lia. }
  assert (Hwf' : Forall wf_state (removeController (mStates m) id)).
  { apply Forall_forall. intros s0 [_ Hin]%list_elem_of_filter.
    by apply (proj1 (Forall_forall _ _) Hwf). }
  destruct (accumulateInternalState_spec m Hacc) as (_ & A & _).
  destruct (accumulateInternalState_spec m' Hacc) as (_ & A' & _).
  split; [|split].
  - rewrite (A i Hi), (A' i Hi). cbn [m' mStates].
    pose proof (sumAxis_bound (mStates m) i Hwf).
    pose proof (sumAxis_bound (removeController (mStates m) id) i Hwf').
    rewrite !to_S32_id; [exact Hsum| |];
      unfold is_S32; change (2 ^ 31) with 2147483648; lia.
  - cbn [m' mStates]. clear. unfold removeController.
    induction (mStates m) as [|s0 rest IH]; [done|].
    rewrite filter_cons. destruct (decide (mJoystickID s0 ≠ id)) as [Hne|Heq]; [|exact IH].
    cbn [findState]. by destruct (Z.eqb_spec (mJoystickID s0) id).
  - intros id' Hne. cbn [m' mStates]. clear -Hne. unfold removeController.
    induction (mStates m) as [|s0 rest IH]; [done|].
    rewrite filter_cons. destruct (decide (mJoystickID s0 ≠ id)) as [Hne0|Heq].
    + cbn [findState]. by rewrite IH.
    + cbn [findState]. rewrite IH.
      destruct (Z.eqb_spec (mJoystickID s0) id'); [|done].
      exfalso. apply Hne. apply dec_stable in Heq. congruence.
Qed.


End GameControl.

(** * The scenario, evaluated *)

Lemma AGENT_CONTROL_INDEX_example_range (b : AgentControlBit) :
  0 <= AGENT_CONTROL_INDEX_example b < 32.
Proof. destruct b; simpl; lia. Defined.

Lemma AGENT_CONTROL_INDEX_example_inj (a b : AgentControlBit) :
  AGENT_CONTROL_INDEX_example a = AGENT_CONTROL_INDEX_example b -> a = b.
Proof. destruct a, b; simpl; intros H; solve [reflexivity | discriminate H]. Defined.

(** ** Axis storage *)

(** The raw value -20000 of the scenario is stored as 19999, and storing
    that again gives -20000 back. *)
Lemma onAxis_value_twice_witness :
  onAxis_value AXIS_LEFTY (onAxis_value AXIS_LEFTY (-20000)) = -20000
  /\ onAxis_value AXIS_LEFTY (-20000) = 19999.
Proof.
  destruct (onAxis_value_twice AXIS_LEFTY (-20000)) as (Htwice & _ & Hstored & _).
  - reflexivity.
  - unfold is_S16, S16_MIN, S16_MAX. lia.
  - lia.
  - split; [exact Htwice | exact Hstored].
Defined.

(** The raw value -1 is stored as 0, and 0 is stored as 0: storing twice
    does not give -1 back, neither by the rule alone nor through the device
    state of the manager. *)
Lemma onAxis_value_twice_minus_one :
  onAxis_value AXIS_LEFTX (onAxis_value AXIS_LEFTX (-1)) = 0
  /\ storedAxis (onAxis (addController [] 7) 7 AXIS_LEFTX (-1)) 7 AXIS_LEFTX = 0
  /\ storedAxis
       (onAxis (onAxis (addController [] 7) 7 AXIS_LEFTX (-1)) 7 AXIS_LEFTX 0)
       7 AXIS_LEFTX = 0.
Proof. by vm_compute. Qed.

(** A seventh axis is ignored. *)
Lemma onAxis_ignored_witness : onAxis scenario_states 7 6 123 = scenario_states.
Proof.
  apply (onAxis_ignored scenario_states 7 6 123). left. unfold MAX_AXIS, NUM_AXES. lia.
Defined.

(** Pressing the left-stick button sets bit 7. *)
Lemma State_onButton_bit_witness :
  Z.testbit (mButtons (fst (State_onButton State_new BUTTON_LEFTSTICK true))) 7 = true.
Proof.
  destruct (State_onButton_bit State_new BUTTON_LEFTSTICK true 7) as [Hbit _].
  - unfold BUTTON_LEFTSTICK, MAX_BUTTON, NUM_BUTTONS. lia.
  - unfold is_U32. simpl. lia.
  - lia.
  - exact Hbit.
Defined.

(** The two devices of the scenario accumulated in the opposite order. *)
Lemma accumulateInternalState_permutation_witness :
  mAxesAccumulator
    (accumulateInternalState
       (set_mStates (Manager_new default_mSign_example AGENT_CONTROL_INDEX_example)
          scenario_states))
  = mAxesAccumulator
      (accumulateInternalState
         (set_mStates (Manager_new default_mSign_example AGENT_CONTROL_INDEX_example)
            (rev scenario_states))).
Proof.
  destruct (accumulateInternalState_permutation
              (set_mStates (Manager_new default_mSign_example AGENT_CONTROL_INDEX_example)
                 scenario_states)
              (set_mStates (Manager_new default_mSign_example AGENT_CONTROL_INDEX_example)
                 (rev scenario_states)))
    as [Haxes _].
  - apply Permutation_rev.
  - reflexivity.
  - exact Haxes.
Defined.

(** ** Merge, clamp and resend *)

(** A device reports -20000 on axis 1: 19999 is stored, 19999 is
    published with neither external input nor translation, the resend period
    is 0 and the packet is due at the next poll. *)
Lemma single_device_example :
  storedAxis single_device_states 7 AXIS_LEFTY = 19999
  /\ vget (mAxes (g_finalState
                    (fst (computeFinalStateAndCheckForChanges
                            (single_device_globals default_mSign_example
                               AGENT_CONTROL_INDEX_example) 1))))
          AXIS_LEFTY = 19999
  /\ g_nextResendPeriod
       (fst (computeFinalStateAndCheckForChanges
               (single_device_globals default_mSign_example
                  AGENT_CONTROL_INDEX_example) 1)) = 0
  /\ snd (computeFinalStateAndCheckForChanges
            (single_device_globals default_mSign_example
               AGENT_CONTROL_INDEX_example) 1) = true.
Proof. by vm_compute. Qed.

(** In the scenario the merge changes the left Y axis from 0 to 32767: 0 is
    still its previous value after the first send, and the previous axes
    equal the axes after the second. *)
Lemma prevAxes_change_send_resend_witness :
  vget (mAxes (g_finalState
                 (scenario_sent1 default_mSign_example AGENT_CONTROL_INDEX_example)))
       AXIS_LEFTY = 32767
  /\ vget (mPrevAxes (g_finalState
                 (scenario_sent1 default_mSign_example AGENT_CONTROL_INDEX_example)))
       AXIS_LEFTY = 0
  /\ mPrevAxes (g_finalState
                  (scenario_sent2 default_mSign_example AGENT_CONTROL_INDEX_example))
     = mAxes (g_finalState
                (scenario_sent2 default_mSign_example AGENT_CONTROL_INDEX_example)).
Proof.
  destruct (prevAxes_change_send_resend
              (scenario_globals default_mSign_example AGENT_CONTROL_INDEX_example)
              AXIS_LEFTY 1000 200000000)
    as (_ & Haxis & Hprev & _ & _ & Hcollapse & _).
  - reflexivity.
  - reflexivity.
  - unfold AXIS_LEFTY, NUM_AXES. lia.
  - vm_compute. discriminate.
  - split; [exact Haxis|]. split; [exact Hprev | exact Hcollapse].
Defined.

(** The periods after the first send of the scenario and two more sends. *)
Lemma resend_backoff_witness :
  g_nextResendPeriod
    (scenario_sent1 default_mSign_example AGENT_CONTROL_INDEX_example) = 100000000
  /\ g_nextResendPeriod
       (updateResendPeriod
          (scenario_sent1 default_mSign_example AGENT_CONTROL_INDEX_example) 2000)
     = 1000000000
  /\ g_nextResendPeriod
       (updateResendPeriod
          (updateResendPeriod
             (scenario_sent1 default_mSign_example AGENT_CONTROL_INDEX_example) 2000)
          3000)
     = 10000000000.
Proof.
  destruct (resend_backoff
              (scenario_changed default_mSign_example AGENT_CONTROL_INDEX_example)
              1000 2000 3000)
    as (H1 & H2 & H3 & _).
  - by vm_compute.
  - split; [exact H1|]. split; [exact H2 | exact H3].
Defined.

(** The left-stick button of the scenario is published and marks the
    scheduler dirty. *)
Lemma computeFinalState_buttons_witness :
  mButtons
    (fst (computeFinalState
            (scenario_manager default_mSign_example AGENT_CONTROL_INDEX_example)
            false State_new FIRST_RESEND_PERIOD)) = 128
  /\ snd (computeFinalState
            (scenario_manager default_mSign_example AGENT_CONTROL_INDEX_example)
            false State_new FIRST_RESEND_PERIOD) = 0.
Proof.
  destruct (computeFinalState_buttons
              (scenario_manager default_mSign_example AGENT_CONTROL_INDEX_example)
              false State_new FIRST_RESEND_PERIOD)
    as (Hmask & Hdirty).
  - reflexivity.
  - reflexivity.
  - split; [exact Hmask|]. apply Hdirty. rewrite Hmask. vm_compute. discriminate.
Defined.

(** The two stick deflections of the scenario add up to 39998, published
    as 32767. *)
Lemma computeFinalState_axis_clamped_witness :
  vget (mAxesAccumulator
          (scenario_manager default_mSign_example AGENT_CONTROL_INDEX_example))
       AXIS_LEFTY = 39998
  /\ vget (mAxes
             (fst (computeFinalState
                     (scenario_manager default_mSign_example AGENT_CONTROL_INDEX_example)
                     false State_new FIRST_RESEND_PERIOD)))
          AXIS_LEFTY = 32767.
Proof.
  split; [by vm_compute|].
  destruct (computeFinalState_axis_clamped
              (scenario_manager default_mSign_example AGENT_CONTROL_INDEX_example)
              false State_new FIRST_RESEND_PERIOD AXIS_LEFTY)
    as (_ & _ & _ & Habove).
  - reflexivity.
  - reflexivity.
  - unfold AXIS_LEFTY, NUM_AXES. lia.
  - by vm_compute.
  - apply Habove. by vm_compute.
Defined.

(** ** Channel names *)

(** Names outside the grammar that do not parse to a channel of type NONE:
    the bare prefix, a prefix followed by something that is not a digit, a
    well-formed axis name with text between the digit and a final [-], and
    button names with a space or a minus sign before the digit. *)
Lemma getChannelByName_beyond_grammar :
  getChannelByName default_mIndex_example default_mSign_example "AXIS_"
    = mkChannel TYPE_AXIS 0 1
  /\ isNone (getChannelByName default_mIndex_example default_mSign_example "AXIS_") = false
  /\ getChannelByName default_mIndex_example default_mSign_example "AXIS_x"
     = mkChannel TYPE_AXIS 0 1
  /\ getChannelByName default_mIndex_example default_mSign_example "AXIS_1junk-"
     = mkChannel TYPE_AXIS 1 (-1)
  /\ mType (getChannelByName default_mIndex_example default_mSign_example "BUTTON_")
     = TYPE_BUTTON
  /\ mIndex (getChannelByName default_mIndex_example default_mSign_example "BUTTON_")
     = 0
  /\ mIndex (getChannelByName default_mIndex_example default_mSign_example "BUTTON_ 7")
     = 7
  /\ mIndex (getChannelByName default_mIndex_example default_mSign_example "BUTTON_-5")
     = 251.
Proof. by vm_compute. Qed.

(** ** Flycam inputs *)

(** The default [rise] channel (third in the list) is on the right trigger,
    with sign [+1]: its output in the scenario is [flycamScale (-7000) 1]. *)
Lemma getFlycamInputs_tied_triggers_witness :
  getFlycamInputs (scenario_manager default_mSign_example AGENT_CONTROL_INDEX_example) []
    !! 2%nat
  = Some (Some (flycamScale (-7000) 1)).
Proof.
  destruct (getFlycamInputs_tied_triggers
              (scenario_manager default_mSign_example AGENT_CONTROL_INDEX_example)
              [] 2 (mkChannel TYPE_AXIS AXIS_TRIGGERRIGHT 1))
    as (Hout & _).
  - reflexivity.
  - right. reflexivity.
  - by vm_compute.
  - by vm_compute.
  - exact Hout.
Defined.

(** With 10000 accumulated on the left trigger and 3000 on the right one,
    the default mappings give [rise] the value [-7000/32768], about -0.2136,
    although the sign of its channel is [+1]. *)
Lemma getFlycamInputs_default_rise_negative :
  vget (mAxesAccumulator
          (scenario_manager default_mSign_example AGENT_CONTROL_INDEX_example))
       AXIS_TRIGGERLEFT = 10000
  /\ vget (mAxesAccumulator
             (scenario_manager default_mSign_example AGENT_CONTROL_INDEX_example))
          AXIS_TRIGGERRIGHT = 3000
  /\ mFlycamChannels (scenario_manager default_mSign_example AGENT_CONTROL_INDEX_example)
       !! 2%nat
     = Some (mkChannel TYPE_AXIS AXIS_TRIGGERRIGHT 1)
  /\ getFlycamInputs
       (scenario_manager default_mSign_example AGENT_CONTROL_INDEX_example) [] !! 2%nat
     = Some (Some (S754_finite true 14336000 (-26)))
  /\ (F32_to_Q (S754_finite true 14336000 (-26)) == - (7000 # 32768))%Q
  /\ (F32_to_Q (S754_finite true 14336000 (-26)) < 0)%Q.
Proof. by vm_compute. Qed.

(** ** Translation between states and action flags *)

(** The flags of the scenario come back from the state rebuilt from
    them. *)
Lemma translator_roundtrip_witness :
  computeFlagsFromState
    (mActionTranslator
       (scenario_manager default_mSign_example AGENT_CONTROL_INDEX_example))
    (mAxes (scenario_rebuilt default_mSign_example AGENT_CONTROL_INDEX_example))
    (mButtons (scenario_rebuilt default_mSign_example AGENT_CONTROL_INDEX_example))
  = scenario_flags default_mSign_example AGENT_CONTROL_INDEX_example.
Proof.
  destruct (translator_roundtrip AGENT_CONTROL_INDEX_example
              AGENT_CONTROL_INDEX_example_range AGENT_CONTROL_INDEX_example_inj
              (mActionTranslator
                 (scenario_manager default_mSign_example AGENT_CONTROL_INDEX_example))
              (mAxesAccumulator
                 (scenario_manager default_mSign_example AGENT_CONTROL_INDEX_example))
              (mButtonAccumulator
                 (scenario_manager default_mSign_example AGENT_CONTROL_INDEX_example)))
    as (Hflags & _).
  - reflexivity.
  - exact (Manager_new_wf_mapping default_mSign_example AGENT_CONTROL_INDEX_example).
  - exact Hflags.
Defined.

(** ** Settings *)

(** After the mapping strings of the scenario are restored, no action has
    a channel. *)
Lemma scenario_restored_unmapped (action : string) :
  isNone
    (getChannelByAction default_mIndex_example default_mSign_example
       (restoreMappings default_mIndex_example default_mSign_example
          (g_manager (scenario_globals default_mSign_example AGENT_CONTROL_INDEX_example))
          (scenario_loadString SETTING_ANALOGMAPPINGS)
          (scenario_loadString SETTING_BINARYMAPPINGS)
          (scenario_loadString SETTING_FLYCAMMAPPINGS))
       action) = true.
Proof.
  set (restored := restoreMappings _ _ _ _ _ _).
  assert (Hmap : mActionToChannel (mActionTranslator restored) = ∅)
    by (vm_compute; reflexivity).
  assert (Hfly : mFlycamChannels restored
                 = replicate 6 (InputChannel_new default_mIndex_example
                                  default_mSign_example))
    by (by vm_compute).
  unfold getChannelByAction, getFlycamChannelByAction, Translator_getChannelByAction.
  rewrite Hmap, Hfly, lookup_empty.
  destruct (mActions !! action) as [[]|]; try reflexivity.
  by destruct (indexOf mFlycamActions action) as [|[|[|[|[|[|[|?]]]]]]].
Qed.

(** The store of the scenario holds a non-empty analog string that maps
    nothing: the default mappings are back after [loadFromSettings]. *)
Lemma loadFromSettings_fallback_witness :
  mActionTranslator
    (g_manager
       (loadFromSettings default_mIndex_example default_mSign_example
          (scenario_globals default_mSign_example AGENT_CONTROL_INDEX_example)
          scenario_loadBoolean scenario_loadString))
  = mActionTranslator (Manager_new default_mSign_example AGENT_CONTROL_INDEX_example)
  /\ mFlycamChannels
       (g_manager
          (loadFromSettings default_mIndex_example default_mSign_example
             (scenario_globals default_mSign_example AGENT_CONTROL_INDEX_example)
             scenario_loadBoolean scenario_loadString))
     = flycam_defaults default_mSign_example.
Proof.
  destruct (loadFromSettings_fallback default_mIndex_example default_mSign_example
              AGENT_CONTROL_INDEX_example
              (scenario_globals default_mSign_example AGENT_CONTROL_INDEX_example)
              scenario_loadBoolean scenario_loadString)
    as (Htranslator & Hflycam & _).
  - reflexivity.
  - right. exact scenario_restored_unmapped.
  - split; [exact Htranslator | exact Hflycam].
Defined.

(** A store that maps only the flycam action [advance], to [AXIS_2+]: the
    restore binds it, no analog or binary action has a channel, and
    [loadFromSettings] ends with the default flycam channels, [advance] back
    on the left Y axis. *)
Lemma loadFromSettings_resets_flycam_witness :
  getChannelByAction default_mIndex_example default_mSign_example
    (restoreMappings default_mIndex_example default_mSign_example
       (g_manager (scenario_globals default_mSign_example AGENT_CONTROL_INDEX_example))
       EmptyString EmptyString "advance:AXIS_2+")
    "advance"
  = mkChannel TYPE_AXIS AXIS_RIGHTX 1
  /\ mFlycamChannels
       (g_manager
          (loadFromSettings default_mIndex_example default_mSign_example
             (scenario_globals default_mSign_example AGENT_CONTROL_INDEX_example)
             scenario_loadBoolean flycam_only_loadString))
     = flycam_defaults default_mSign_example.
Proof.
  split; [by vm_compute|].
  apply (loadFromSettings_resets_flycam default_mIndex_example default_mSign_example
           AGENT_CONTROL_INDEX_example).
  - reflexivity.
  - intros action Hmask.
    set (restored := restoreMappings _ _ _ _ _ _).
    assert (Hmap : mActionToChannel (mActionTranslator restored) = ∅)
      by (vm_compute; reflexivity).
    assert (Hknown : match mActions !! action with
                     | Some ACTION_NAME_FLYCAM | None => false
                     | Some _ => true
                     end = true).
    { pose proof (actionMasks_names_known AGENT_CONTROL_INDEX_example) as Hall.
      rewrite forallb_forall in Hall. apply Hall.
      apply existsb_exists in Hmask as (e & He & Heq%String.eqb_eq).
      rewrite <- Heq. by apply in_map. }
    unfold getChannelByAction, Translator_getChannelByAction.
    rewrite Hmap, lookup_empty.
    by destruct (mActions !! action) as [[]|].
Defined.

(** ** Events and accumulated sums *)

Lemma scenario_states_wf : wf_states scenario_states.
Proof.
  split.
  - apply (bool_decide_unpack _). by vm_compute.
  - repeat constructor; try (by vm_compute).
Defined.

(** The events of the scenario, dispatched from the fresh manager, leave
    the device states of the scenario, and the manager keeps its shape. *)
Lemma manager_invariant_witness :
  mStates (processEvents (Manager_new default_mSign_example AGENT_CONTROL_INDEX_example)
             true scenario_events)
  = scenario_states
  /\ wf_manager (processEvents (Manager_new default_mSign_example AGENT_CONTROL_INDEX_example)
                   true scenario_events)
  /\ wf_manager (accumulateInternalState
                   (Manager_new default_mSign_example AGENT_CONTROL_INDEX_example)).
Proof.
  split; [reflexivity|].
  destruct (manager_invariant default_mIndex_example default_mSign_example
              AGENT_CONTROL_INDEX_example
              (Manager_new default_mSign_example AGENT_CONTROL_INDEX_example)
              true scenario_events "rise" EmptyString EmptyString EmptyString
              (mkChannel TYPE_AXIS AXIS_RIGHTY 1))
    as (Hnew & Hevents & Hacc & _).
  - unfold scenario_events. repeat (apply Forall_cons; split); [..|apply Forall_nil];
      cbn [wf_event];
      unfold is_S16, S16_MIN, S16_MAX, AXIS_LEFTY, AXIS_TRIGGERLEFT, AXIS_TRIGGERRIGHT,
        BUTTON_LEFTSTICK; lia.
  - split; [reflexivity|]. split; [reflexivity|]. split; constructor.
  - split; [exact Hevents | exact Hacc].
Defined.

(** The two devices of the scenario hold 19999 each on the left Y axis; the
    accumulated value is their sum, and bit 7 of the mask is set. *)
Lemma accumulateInternalState_sum_witness :
  vget (mAxesAccumulator
          (accumulateInternalState
             (set_mStates (Manager_new default_mSign_example AGENT_CONTROL_INDEX_example)
                scenario_states)))
       AXIS_LEFTY
  = sumAxis scenario_states AXIS_LEFTY
  /\ sumAxis scenario_states AXIS_LEFTY = 39998
  /\ Z.testbit
       (mButtonAccumulator
          (accumulateInternalState
             (set_mStates (Manager_new default_mSign_example AGENT_CONTROL_INDEX_example)
                scenario_states)))
       BUTTON_LEFTSTICK = true.
Proof.
  destruct (accumulateInternalState_sum
              (set_mStates (Manager_new default_mSign_example AGENT_CONTROL_INDEX_example)
                 scenario_states)
              AXIS_LEFTY BUTTON_LEFTSTICK)
    as [Hsum Hbit].
  - reflexivity.
  - exact (proj2 scenario_states_wf).
  - simpl. lia.
  - unfold AXIS_LEFTY, NUM_AXES. lia.
  - split; [exact Hsum|]. split; [reflexivity|]. rewrite Hbit. reflexivity.
Defined.

(** The window loses focus after the scenario's state has been published:
    the next published state has the left Y axis back at 0 and no button. *)
Lemma processEvents_without_focus_witness :
  vget (mAxes (g_finalState
                 (scenario_changed default_mSign_example AGENT_CONTROL_INDEX_example)))
       AXIS_LEFTY = 32767
  /\ mButtons
       (fst (computeFinalState
               (accumulateInternalState
                  (processEvents
                     (scenario_manager default_mSign_example AGENT_CONTROL_INDEX_example)
                     false scenario_events))
               true
               (g_finalState
                  (scenario_changed default_mSign_example AGENT_CONTROL_INDEX_example))
               FIRST_RESEND_PERIOD)) = 0
  /\ vget (mAxes
       (fst (computeFinalState
               (accumulateInternalState
                  (processEvents
                     (scenario_manager default_mSign_example AGENT_CONTROL_INDEX_example)
                     false scenario_events))
               true
               (g_finalState
                  (scenario_changed default_mSign_example AGENT_CONTROL_INDEX_example))
               FIRST_RESEND_PERIOD))) AXIS_LEFTY = 0.
Proof.
  split; [reflexivity|].
  destruct (processEvents_without_focus
              (scenario_manager default_mSign_example AGENT_CONTROL_INDEX_example)
              scenario_events true
              (g_finalState
                 (scenario_changed default_mSign_example AGENT_CONTROL_INDEX_example))
              FIRST_RESEND_PERIOD)
    as (Hbuttons & Haxes & _).
  - reflexivity.
  - reflexivity.
  - reflexivity.
  - split; [exact Hbuttons|]. apply Haxes. unfold AXIS_LEFTY, NUM_AXES. lia.
Defined.

(** ** Channel names written and read back *)

(** The negative direction of the right Y axis is written as ["AXIS_3-"]
    and read back as it was. *)
Lemma getLocalName_roundtrip_witness :
  getLocalName (mkChannel TYPE_AXIS AXIS_RIGHTY (-1)) = "AXIS_3-"%string
  /\ getChannelByName default_mIndex_example default_mSign_example
       (getLocalName (mkChannel TYPE_AXIS AXIS_RIGHTY (-1)))
     = mkChannel TYPE_AXIS AXIS_RIGHTY (-1).
Proof.
  split; [reflexivity|].
  destruct (getLocalName_roundtrip default_mIndex_example default_mSign_example
              (mkChannel TYPE_AXIS AXIS_RIGHTY (-1)))
    as [_ Hexact].
  - simpl. unfold AXIS_RIGHTY. lia.
  - apply Hexact.
    + reflexivity.
    + simpl. unfold AXIS_RIGHTY, NUM_AXES. lia.
    + right. reflexivity.
Defined.

(** ** The active input channel *)

(** With the single device of the scenario published (19999 on the left Y
    axis, no button), the active input channel is the positive direction of
    that axis. *)
Lemma getActiveInputChannel_spec_witness :
  getActiveInputChannel default_mIndex_example default_mSign_example
    (fst (computeFinalStateAndCheckForChanges
            (single_device_globals default_mSign_example AGENT_CONTROL_INDEX_example) 1))
  = mkChannel TYPE_AXIS AXIS_LEFTY 1.
Proof.
  destruct (getActiveInputChannel_spec default_mIndex_example default_mSign_example
              (fst (computeFinalStateAndCheckForChanges
                      (single_device_globals default_mSign_example
                         AGENT_CONTROL_INDEX_example) 1)))
    as (_ & _ & Haxis).
  - unfold is_U32. vm_compute. split; [discriminate|reflexivity].
  - apply (Haxis eq_refl AXIS_LEFTY).
    + unfold AXIS_LEFTY, NUM_AXES. lia.
    + vm_compute. reflexivity.
    + intros j Hj. assert (j = 0) as -> by (unfold AXIS_LEFTY in Hj; lia).
      vm_compute. discriminate.
Defined.

(** ** The time between two sends *)

(** The state of the scenario was published and sent at time 1000: with
    nothing new, no packet is due at time 2000, and the period is 100 ms. *)
Lemma resend_not_before_period_witness :
  snd (computeFinalStateAndCheckForChanges
         (updateResendPeriod
            (scenario_changed default_mSign_example AGENT_CONTROL_INDEX_example) 1000)
         2000) = false
  /\ FIRST_RESEND_PERIOD
     <= g_nextResendPeriod
          (updateResendPeriod
             (scenario_changed default_mSign_example AGENT_CONTROL_INDEX_example) 1000).
Proof.
  destruct (resend_not_before_period
              (scenario_changed default_mSign_example AGENT_CONTROL_INDEX_example)
              1000 2000)
    as (_ & Hperiod & Hearly & _).
  - left. reflexivity.
  - reflexivity.
  - intros i Hi.
    assert (Hin : In i (map Z.of_nat (seq 0 6)))
      by (apply index_cases; unfold NUM_AXES in Hi; simpl; lia).
    simpl in Hin.
    destruct Hin as [<-|[<-|[<-|[<-|[<-|[<-|[]]]]]]]; reflexivity.
  - lia.
  - vm_compute. reflexivity.
  - split; [|exact Hperiod]. apply Hearly.
    unfold FIRST_RESEND_PERIOD, MSEC_PER_NSEC. lia.
Defined.

(** ** External input *)

(** With the default mappings ([stop] on the left-stick button) the agent
    sends the STOP control bit and no button: the first call stores the
    translated button, bit 7; the second call, with the same arguments,
    stores no button at all. *)
Lemma setExternalInput_repeated_witness :
  mButtons
    (mExternalState
       (setExternalInput AGENT_CONTROL_INDEX_example
          (Manager_new default_mSign_example AGENT_CONTROL_INDEX_example)
          true (AGENT_CONTROL_STOP AGENT_CONTROL_INDEX_example) 0))
  = 128
  /\ mButtons
       (mExternalState
          (setExternalInput AGENT_CONTROL_INDEX_example
             (setExternalInput AGENT_CONTROL_INDEX_example
                (Manager_new default_mSign_example AGENT_CONTROL_INDEX_example)
                true (AGENT_CONTROL_STOP AGENT_CONTROL_INDEX_example) 0)
             true (AGENT_CONTROL_STOP AGENT_CONTROL_INDEX_example) 0))
     = 0.
Proof.
  destruct (setExternalInput_repeated AGENT_CONTROL_INDEX_example
              (Manager_new default_mSign_example AGENT_CONTROL_INDEX_example)
              (AGENT_CONTROL_STOP AGENT_CONTROL_INDEX_example) 0)
    as (_ & _ & Hfirst & Hsecond & _).
  split; [|exact Hsecond]. rewrite Hfirst. by vm_compute.
Defined.

(** ** The range of the flycam inputs *)

(** The input of [rise], on the right trigger in the scenario, is a finite
    number between -1 and 1; with the mapping string that binds [advance] to
    axis 9 there is no value for [advance]. *)
Lemma getFlycamInputs_range_witness :
  (exists output,
     flycamInput
       (mAxesAccumulator
          (scenario_manager default_mSign_example AGENT_CONTROL_INDEX_example))
       (mkChannel TYPE_AXIS AXIS_TRIGGERRIGHT 1) = Some output
     /\ is_finite output = true
     /\ (-1 <= F32_to_Q output <= 1)%Q)
  /\ getFlycamInputs
       (setFlycamMappings default_mIndex_example default_mSign_example
          (scenario_manager default_mSign_example AGENT_CONTROL_INDEX_example)
          scenario_flycamMappings)
       [] !! 0%nat
     = Some None.
Proof.
  split; [|reflexivity].
  destruct (getFlycamInputs_range
              (scenario_manager default_mSign_example AGENT_CONTROL_INDEX_example)
              [] 2%nat (mkChannel TYPE_AXIS AXIS_TRIGGERRIGHT 1))
    as (_ & _ & _ & Hrange & _).
  - reflexivity.
  - right. right. reflexivity.
  - apply Hrange. right. left. reflexivity.
Defined.

(** ** Mapping strings and settings written and read back *)

(** The default flycam channels are written as five pieces, [zoom] having no
    axis; read back, the five axes are as they were and [zoom] is the
    default-constructed channel. *)
Lemma flycamMappings_roundtrip_witness :
  getFlycamMappings default_mIndex_example default_mSign_example
    (Manager_new default_mSign_example AGENT_CONTROL_INDEX_example)
  = "advance:AXIS_1+,pan:AXIS_0+,rise:AXIS_5+,pitch:AXIS_3-,yaw:AXIS_2+"%string
  /\ mFlycamChannels
       (setFlycamMappings default_mIndex_example default_mSign_example
          (Manager_new default_mSign_example AGENT_CONTROL_INDEX_example)
          (getFlycamMappings default_mIndex_example default_mSign_example
             (Manager_new default_mSign_example AGENT_CONTROL_INDEX_example)))
     = [ mkChannel TYPE_AXIS AXIS_LEFTY 1; mkChannel TYPE_AXIS AXIS_LEFTX 1;
         mkChannel TYPE_AXIS AXIS_TRIGGERRIGHT 1; mkChannel TYPE_AXIS AXIS_RIGHTY (-1);
         mkChannel TYPE_AXIS AXIS_RIGHTX 1;
         InputChannel_new default_mIndex_example default_mSign_example ].
Proof.
  split; [by vm_compute|].
  destruct (flycamMappings_roundtrip default_mIndex_example default_mSign_example
              (Manager_new default_mSign_example AGENT_CONTROL_INDEX_example))
    as (Hread & _ & _).
  - reflexivity.
  - repeat constructor; by vm_compute.
  - rewrite Hread. reflexivity.
Defined.

Lemma store_loadBoolean_saved (store : SettingsStore) (key : string) (value : bool) :
  store_loadBoolean (store_saveBoolean store key value) key = value.
Proof.
  unfold store_loadBoolean, store_saveBoolean. cbn [store_booleans].
  by rewrite lookup_insert_eq.
Defined.

Lemma store_loadBoolean_other (store : SettingsStore) (key : string) (value : bool)
    (key' : string) :
  key <> key' ->
  store_loadBoolean (store_saveBoolean store key value) key' = store_loadBoolean store key'.
Proof.
  intros Hne. unfold store_loadBoolean, store_saveBoolean. cbn [store_booleans].
  by rewrite lookup_insert_ne.
Defined.

Lemma store_loadString_saved (store : SettingsStore) (key value : string) :
  store_loadString (store_saveString store key value) key = value.
Proof.
  unfold store_loadString, store_saveString. cbn [store_strings].
  by rewrite lookup_insert_eq.
Defined.

Lemma store_loadString_other (store : SettingsStore) (key value key' : string) :
  key <> key' ->
  store_loadString (store_saveString store key value) key' = store_loadString store key'.
Proof.
  intros Hne. unfold store_loadString, store_saveString. cbn [store_strings].
  by rewrite lookup_insert_ne.
Defined.

(** The globals of the scenario, every option set and in flycam mode, are
    saved to an empty store and loaded into fresh globals: the options, the
    mode and the five flycam axes are those that were saved. *)
Lemma settings_roundtrip_witness :
  g_sendToServer
    (loadFromSettings default_mIndex_example default_mSign_example
       (Globals_new default_mSign_example AGENT_CONTROL_INDEX_example)
       (store_loadBoolean
          (saveToSettings default_mIndex_example default_mSign_example
             store_saveBoolean store_saveString
             (scenario_options default_mSign_example AGENT_CONTROL_INDEX_example)
             store_empty))
       (store_loadString
          (saveToSettings default_mIndex_example default_mSign_example
             store_saveBoolean store_saveString
             (scenario_options default_mSign_example AGENT_CONTROL_INDEX_example)
             store_empty)))
  = true
  /\ g_agentControlMode
       (loadFromSettings default_mIndex_example default_mSign_example
          (Globals_new default_mSign_example AGENT_CONTROL_INDEX_example)
          (store_loadBoolean
             (saveToSettings default_mIndex_example default_mSign_example
                store_saveBoolean store_saveString
                (scenario_options default_mSign_example AGENT_CONTROL_INDEX_example)
                store_empty))
          (store_loadString
             (saveToSettings default_mIndex_example default_mSign_example
                store_saveBoolean store_saveString
                (scenario_options default_mSign_example AGENT_CONTROL_INDEX_example)
                store_empty)))
     = CONTROL_MODE_FLYCAM
  /\ mFlycamChannels
       (g_manager
          (loadFromSettings default_mIndex_example default_mSign_example
             (Globals_new default_mSign_example AGENT_CONTROL_INDEX_example)
             (store_loadBoolean
                (saveToSettings default_mIndex_example default_mSign_example
                   store_saveBoolean store_saveString
                   (scenario_options default_mSign_example AGENT_CONTROL_INDEX_example)
                   store_empty))
             (store_loadString
                (saveToSettings default_mIndex_example default_mSign_example
                   store_saveBoolean store_saveString
                   (scenario_options default_mSign_example AGENT_CONTROL_INDEX_example)
                   store_empty))))
     = [ mkChannel TYPE_AXIS AXIS_LEFTY 1; mkChannel TYPE_AXIS AXIS_LEFTX 1;
         mkChannel TYPE_AXIS AXIS_TRIGGERRIGHT 1; mkChannel TYPE_AXIS AXIS_RIGHTY (-1);
         mkChannel TYPE_AXIS AXIS_RIGHTX 1;
         InputChannel_new default_mIndex_example default_mSign_example ].
Proof.
  destruct (settings_roundtrip default_mIndex_example default_mSign_example
              store_loadBoolean store_saveBoolean store_loadString store_saveString
              store_loadBoolean_saved store_loadBoolean_other
              (fun store key value key' => eq_refl)
              store_loadString_saved store_loadString_other
              (scenario_options default_mSign_example AGENT_CONTROL_INDEX_example)
              (Globals_new default_mSign_example AGENT_CONTROL_INDEX_example)
              store_empty)
    as (Hsend & _ & _ & Hmode & _).
  - reflexivity.
  - reflexivity.
  - repeat constructor; by vm_compute.
  - split; [exact Hsend|]. split; [exact Hmode|]. by vm_compute.
Defined.

(** Every option is set on the fresh globals, in avatar mode: the store
    gives the options back, and the avatar will be controlled. *)
Lemma setters_persist_witness :
  g_controlAgent
    (loadFromSettings default_mIndex_example default_mSign_example
       (Globals_new default_mSign_example AGENT_CONTROL_INDEX_example)
       (store_loadBoolean
          (snd (scenario_set_options default_mSign_example AGENT_CONTROL_INDEX_example)))
       (store_loadString
          (snd (scenario_set_options default_mSign_example AGENT_CONTROL_INDEX_example))))
  = true
  /\ willControlAvatar
       (fst (scenario_set_options default_mSign_example AGENT_CONTROL_INDEX_example))
     = true.
Proof.
  destruct (setters_persist default_mIndex_example default_mSign_example
              store_loadBoolean store_saveBoolean store_loadString store_saveString
              store_loadBoolean_saved store_loadBoolean_other
              (fun store key value key' => eq_refl)
              store_loadString_saved
              (Globals_new default_mSign_example AGENT_CONTROL_INDEX_example)
              (Globals_new default_mSign_example AGENT_CONTROL_INDEX_example)
              store_empty true true true CONTROL_MODE_AVATAR)
    as (_ & _ & Hagent & _ & _ & Hwill).
  split; [exact Hagent | exact Hwill].
Defined.

(** ** Mapping strings in general *)

(** The default analog mappings, written by [getMappings] and read back by
    [setMappings] with a callback that records its calls. *)
Lemma getMappings_setMappings_witness :
  setMappings default_mIndex_example default_mSign_example
    (getMappings mAnalogActions TYPE_AXIS
       (fun action =>
          Translator_getChannelByAction default_mIndex_example default_mSign_example
            (mActionTranslator (Manager_new default_mSign_example AGENT_CONTROL_INDEX_example))
            (action +:+ "+")))
    mAnalogActions TYPE_AXIS scenario_recordUpdate []
  = [ ("push", mkChannel TYPE_AXIS AXIS_LEFTY 1); ("slide", mkChannel TYPE_AXIS AXIS_LEFTX 1);
      ("jump", mkChannel TYPE_AXIS AXIS_TRIGGERLEFT 1);
      ("turn", mkChannel TYPE_AXIS AXIS_RIGHTX 1);
      ("look", mkChannel TYPE_AXIS AXIS_RIGHTY 1) ]%string.
Proof.
  rewrite (getMappings_setMappings default_mIndex_example default_mSign_example).
  - by vm_compute.
  - apply (bool_decide_unpack _). by vm_compute.
  - repeat constructor.
  - repeat constructor; by vm_compute.
Defined.

(** The index 9 is accepted for [advance], the button is refused for [pan],
    the piece without a colon is skipped, and the actions that the string
    does not name are unbound. *)
Lemma setFlycamMappings_channels_bound_witness :
  mFlycamChannels
    (setFlycamMappings default_mIndex_example default_mSign_example
       (Manager_new default_mSign_example AGENT_CONTROL_INDEX_example)
       scenario_flycamMappings)
  = [ mkChannel TYPE_AXIS 9 (-1);
      InputChannel_new default_mIndex_example default_mSign_example;
      mkChannel TYPE_AXIS AXIS_RIGHTX 1;
      InputChannel_new default_mIndex_example default_mSign_example;
      InputChannel_new default_mIndex_example default_mSign_example;
      InputChannel_new default_mIndex_example default_mSign_example ]
  /\ length
       (mFlycamChannels
          (setFlycamMappings default_mIndex_example default_mSign_example
             (Manager_new default_mSign_example AGENT_CONTROL_INDEX_example)
             scenario_flycamMappings))
     = length mFlycamActions.
Proof.
  split; [by vm_compute|].
  destruct (setFlycamMappings_channels_bound default_mIndex_example default_mSign_example
              (Manager_new default_mSign_example AGENT_CONTROL_INDEX_example)
              scenario_flycamMappings (mkChannel TYPE_AXIS 9 (-1)))
    as [Hlen _].
  - reflexivity.
  - exact Hlen.
Defined.

(** ** A device that is unplugged *)

(** Device 8 of the scenario held 19999 on the left Y axis: once it is
    removed, the accumulated value goes from 39998 to 19999. *)
Lemma removeController_contribution_witness :
  vget (mAxesAccumulator
          (accumulateInternalState
             (set_mStates (Manager_new default_mSign_example AGENT_CONTROL_INDEX_example)
                (removeController scenario_states 8))))
       AXIS_LEFTY
  = vget (mAxesAccumulator
            (accumulateInternalState
               (set_mStates (Manager_new default_mSign_example AGENT_CONTROL_INDEX_example)
                  scenario_states)))
         AXIS_LEFTY
    - 19999
  /\ findState 8 (removeController scenario_states 8) = None.
Proof.
  destruct (removeController_contribution
              (set_mStates (Manager_new default_mSign_example AGENT_CONTROL_INDEX_example)
                 scenario_states)
              8 AXIS_LEFTY
              (mkState 8 [0; 19999; 0; 0; 0; 0] [0; 0; 0; 0; 0; 0] 0))
    as (Hsum & Hgone & _).
  - reflexivity.
  - exact scenario_states_wf.
  - simpl. lia.
  - unfold AXIS_LEFTY, NUM_AXES. lia.
  - reflexivity.
  - split; [exact Hsum | exact Hgone].
Defined.
